(** * Workflow transformation and duplicate-detection engine

    A shallow embedding of [backend/workflow_parser.py] and
    [backend/workflow_duplicate_detector.py]: the values that [yaml.load]
    hands to the engine, the Python operations the engine applies to them,
    the engine's functions, and the properties of the engine.

    Universe of values.  A loaded document is a tree of Python objects:
    [None], [bool], [int], [str], [list] and [dict].  Floats, timestamps and
    binary scalars are left out, and so are YAML anchors (a loaded document
    is a tree, no object is reachable twice).  Strings are byte strings;
    case folding and white space are those of ASCII. *)

From Stdlib Require Import List String Ascii ZArith Bool Arith Lia Permutation.
From Stdlib Require Import DecimalString.
From Stdlib Require DecimalFacts DecimalPos DecimalZ.
Import ListNotations.

Set Warnings "-register-all".

Local Open Scope string_scope.
Local Open Scope list_scope.

(** ** Exceptions and results *)

Module Py.

(** The exceptions the engine can meet.  [ValueError] carries its message;
    [YAMLError] is the library's own error class. *)
Inductive exn : Type :=
| YAMLError
| ValueError (msg : string)
| TypeError
| AttributeError
| KeyError
| IndexError.

Inductive result (A : Type) : Type :=
| Ok (a : A)
| Raise (e : exn).

Arguments Ok {A} a.
Arguments Raise {A} e.

Definition bind {A B : Type} (m : result A) (k : A -> result B) : result B :=
  match m with
  | Ok a => k a
  | Raise e => Raise e
  end.

Definition is_ok {A : Type} (m : result A) : bool :=
  match m with Ok _ => true | Raise _ => false end.

(** ** Strings *)

Definition is_upper (c : ascii) : bool :=
  let n := nat_of_ascii c in ((65 <=? n) && (n <=? 90))%nat.

Definition lower_ascii (c : ascii) : ascii :=
  if is_upper c then ascii_of_nat (nat_of_ascii c + 32) else c.

(** [s.lower()] *)
Fixpoint lower (s : string) : string :=
  match s with
  | EmptyString => EmptyString
  | String c r => String (lower_ascii c) (lower r)
  end.

(** [needle in hay] on two strings *)
Fixpoint str_in (needle hay : string) : bool :=
  String.prefix needle hay ||
  match hay with
  | EmptyString => false
  | String _ r => str_in needle r
  end.

(** [str.isspace] on one ASCII character: tab, line feed, vertical tab, form
    feed, carriage return, the four separators 28-31 and the space. *)
Definition is_space (c : ascii) : bool :=
  let n := nat_of_ascii c in
  (((9 <=? n) && (n <=? 13)) || ((28 <=? n) && (n <=? 31)) || (n =? 32))%nat.

Definition newline : ascii := ascii_of_nat 10.

(** [s.rstrip()] *)
Fixpoint rstrip (s : string) : string :=
  match s with
  | EmptyString => EmptyString
  | String c r =>
      match rstrip r with
      | EmptyString => if is_space c then EmptyString else String c EmptyString
      | r' => String c r'
      end
  end.

(** [s.split('\n')]: always at least one piece. *)
Fixpoint split_lines (s : string) : list string :=
  match s with
  | EmptyString => [EmptyString]
  | String c r =>
      if Ascii.eqb c newline then EmptyString :: split_lines r
      else match split_lines r with
           | [] => [String c EmptyString]
           | l :: ls => String c l :: ls
           end
  end.

(** [sep.join(l)] *)
Definition join (sep : string) (l : list string) : string := String.concat sep l.

(** ['\n' in s] *)
Fixpoint has_newline (s : string) : bool :=
  match s with
  | EmptyString => false
  | String c r => Ascii.eqb c newline || has_newline r
  end.

(** [str(n)] for an integer *)
Definition str_of_Z (n : Z) : string := NilZero.string_of_int (Z.to_int n).

(** ** Values *)

(** Hashable scalars: they are the leaves of a document and the keys of its
    mappings. *)
Inductive atom : Type :=
| ANone
| ABool (b : bool)
| AInt (n : Z)
| AStr (s : string).

(** A [dict] keeps its entries in insertion order. *)
Inductive value : Type :=
| Atom (a : atom)
| List (l : list value)
| Dict (d : list (atom * value)).

Definition entries : Type := list (atom * value).

Definition VNone : value := Atom ANone.
Definition VStr (s : string) : value := Atom (AStr s).
Definition VInt (n : Z) : value := Atom (AInt n).
Definition VBool (b : bool) : value := Atom (ABool b).

(** [type(x)] *)
Inductive pytype : Type := TNone | TBool | TInt | TStr | TList | TDict.

Definition type_of (v : value) : pytype :=
  match v with
  | Atom ANone => TNone
  | Atom (ABool _) => TBool
  | Atom (AInt _) => TInt
  | Atom (AStr _) => TStr
  | List _ => TList
  | Dict _ => TDict
  end.

(** [a == b] on two scalars of the same type.  The universe has no float:
    a NaN, which is equal to nothing, itself included, is not among the
    scalars. *)
Definition atom_eqb (a b : atom) : bool :=
  match a, b with
  | ANone, ANone => true
  | ABool x, ABool y => Bool.eqb x y
  | AInt x, AInt y => Z.eqb x y
  | AStr x, AStr y => String.eqb x y
  | _, _ => false
  end.

(** Equality of dictionary keys: [==] together with equal hashes, so that
    [True] and [1] (and [False] and [0]) are one key. *)
Definition key_eqb (a b : atom) : bool :=
  match a, b with
  | ANone, ANone => true
  | AStr x, AStr y => String.eqb x y
  | ABool x, ABool y => Bool.eqb x y
  | AInt x, AInt y => Z.eqb x y
  | ABool x, AInt y => Z.eqb (Z.b2z x) y
  | AInt x, ABool y => Z.eqb x (Z.b2z y)
  | _, _ => false
  end.

(** [bool(x)] *)
Definition truthy_atom (a : atom) : bool :=
  match a with
  | ANone => false
  | ABool b => b
  | AInt n => negb (Z.eqb n 0)
  | AStr s => negb (String.eqb s EmptyString)
  end.

Definition truthy (v : value) : bool :=
  match v with
  | Atom a => truthy_atom a
  | List l => negb (Nat.eqb (List.length l) 0)
  | Dict d => negb (Nat.eqb (List.length d) 0)
  end.

(** ** Dictionaries *)

(** [d.get(k)] *)
Fixpoint dict_get {V : Type} (k : atom) (d : list (atom * V)) : option V :=
  match d with
  | [] => None
  | (k', v) :: r => if key_eqb k k' then Some v else dict_get k r
  end.

(** [k in d] *)
Definition dict_has {V : Type} (k : atom) (d : list (atom * V)) : bool :=
  existsb (fun kv => key_eqb k (fst kv)) d.

(** [d[k] = v]: an existing key keeps its place (and its key object), a new
    key goes to the end. *)
Fixpoint dict_set {V : Type} (k : atom) (v : V) (d : list (atom * V)) : list (atom * V) :=
  match d with
  | [] => [(k, v)]
  | (k', v') :: r =>
      if key_eqb k k' then (k', v) :: r else (k', v') :: dict_set k v r
  end.

(** [del d[k]] for a key that is present *)
Fixpoint dict_del {V : Type} (k : atom) (d : list (atom * V)) : list (atom * V) :=
  match d with
  | [] => []
  | (k', v') :: r => if key_eqb k k' then r else (k', v') :: dict_del k r
  end.


(** The keys of a Python dict are pairwise different. *)
Fixpoint distinct_keys {V : Type} (d : list (atom * V)) : Prop :=
  match d with
  | [] => True
  | (k, _) :: r => dict_has k r = false /\ distinct_keys r
  end.

(** ** The operations of the engine on a value of any type *)

Definition is_str (s : string) (v : value) : bool :=
  match v with
  | Atom (AStr t) => String.eqb s t
  | _ => false
  end.

(** [s in c] for a string [s]: key test on a dict, membership on a list,
    substring test on a string; any other object is not iterable. *)
Definition contains (s : string) (c : value) : result bool :=
  match c with
  | Dict d => Ok (dict_has (AStr s) d)
  | List l => Ok (existsb (is_str s) l)
  | Atom (AStr t) => Ok (str_in s t)
  | Atom _ => Raise TypeError
  end.

(** [c[s]] for a string [s] *)
Definition getitem (c : value) (s : string) : result value :=
  match c with
  | Dict d =>
      match dict_get (AStr s) d with
      | Some v => Ok v
      | None => Raise KeyError
      end
  | _ => Raise TypeError
  end.

(** [c[s] = v] for a string [s] *)
Definition setitem (c : value) (s : string) (v : value) : result value :=
  match c with
  | Dict d => Ok (Dict (dict_set (AStr s) v d))
  | _ => Raise TypeError
  end.

(** [c.get(s, default)]: only a dict has the method. *)
Definition get (c : value) (s : string) (default : value) : result value :=
  match c with
  | Dict d =>
      match dict_get (AStr s) d with
      | Some v => Ok v
      | None => Ok default
      end
  | _ => Raise AttributeError
  end.

(** [c.items()] *)
Definition items (c : value) : result entries :=
  match c with
  | Dict d => Ok d
  | _ => Raise AttributeError
  end.

(** [len(c)] *)
Definition len (c : value) : result nat :=
  match c with
  | Dict d => Ok (List.length d)
  | List l => Ok (List.length l)
  | Atom (AStr s) => Ok (String.length s)
  | Atom _ => Raise TypeError
  end.

(** [for x in c]: the elements of a list, the keys of a dict, the characters
    of a string. *)
Definition iter (c : value) : result (list value) :=
  match c with
  | List l => Ok l
  | Dict d => Ok (map (fun kv => Atom (fst kv)) d)
  | Atom (AStr s) =>
      Ok (map (fun ch => VStr (String ch EmptyString)) (list_ascii_of_string s))
  | Atom _ => Raise TypeError
  end.

(** [c.extend(xs)] *)
Definition extend (c : value) (xs : list value) : result value :=
  match c with
  | List l => Ok (List (l ++ xs))
  | _ => Raise AttributeError
  end.

(** [l.insert(i, x)] on a Python list, for [0 <= i]: past the end it
    appends. *)
Definition list_insert (i : nat) (x : value) (l : list value) : list value :=
  firstn i l ++ x :: skipn i l.

(** [c.insert(i, x)] *)
Definition insert (c : value) (i : nat) (x : value) : result value :=
  match c with
  | List l => Ok (List (list_insert i x l))
  | _ => Raise AttributeError
  end.

End Py.

Import Py.

Notation "x <- e ;; k" := (bind e (fun x => k))
  (at level 61, e at next level, right associativity).

(** ** [str] and [repr] of a value *)

Module Repr.

Definition quote1 : ascii := ascii_of_nat 39.   (* ' *)
Definition quote2 : ascii := ascii_of_nat 34.   (* the double quote *)
Definition backslash : ascii := ascii_of_nat 92.

Fixpoint has_char (c : ascii) (s : string) : bool :=
  match s with
  | EmptyString => false
  | String x r => Ascii.eqb c x || has_char c r
  end.

Definition hex_digit (n : nat) : ascii :=
  if (n <? 10)%nat then ascii_of_nat (48 + n) else ascii_of_nat (87 + n).

Definition escape_char (q c : ascii) : string :=
  let n := nat_of_ascii c in
  if Ascii.eqb c backslash then String backslash (String backslash EmptyString)
  else if Ascii.eqb c q then String backslash (String q EmptyString)
  else if (n =? 10)%nat then String backslash "n"
  else if (n =? 13)%nat then String backslash "r"
  else if (n =? 9)%nat then String backslash "t"
  else if ((n <? 32) || (n =? 127))%nat then
    String backslash
      (String "x" (String (hex_digit (n / 16)) (String (hex_digit (n mod 16)) EmptyString)))
  else String c EmptyString.

Fixpoint escape (q : ascii) (s : string) : string :=
  match s with
  | EmptyString => EmptyString
  | String c r => (escape_char q c ++ escape q r)%string
  end.

(** [repr(s)]: single quotes, unless the string has one and no double
    quote. *)
Definition repr_str (s : string) : string :=
  let q := if has_char quote1 s && negb (has_char quote2 s) then quote2 else quote1 in
  String q (escape q s ++ String q EmptyString)%string.

Definition str_atom (a : atom) : string :=
  match a with
  | ANone => "None"
  | ABool true => "True"
  | ABool false => "False"
  | AInt n => str_of_Z n
  | AStr s => s
  end.

Definition repr_atom (a : atom) : string :=
  match a with
  | AStr s => repr_str s
  | _ => str_atom a
  end.

Fixpoint repr (v : value) : string :=
  match v with
  | Atom a => repr_atom a
  | List l => ("[" ++ join ", " (map repr l) ++ "]")%string
  | Dict d =>
      ("{" ++ join ", " (map (fun kv => repr_atom (fst kv) ++ ": " ++ repr (snd kv)) d)
           ++ "}")%string
  end.

(** [str(v)] *)
Definition str (v : value) : string :=
  match v with
  | Atom a => str_atom a
  | _ => repr v
  end.

End Repr.

(** ** Regular expressions, as [re.search] uses them *)

Module Re.

Inductive re : Type :=
| Eps
| Chr (p : ascii -> bool)
| Cat (a b : re)
| Alt (a b : re)
| Star (a : re)
| Eos.

(** [accepts r s k]: some prefix of [s] matches [r] and the rest satisfies
    [k].  [Eos] is Python's [$]: the end of the string, or the position
    before a line feed that ends the string. *)
Fixpoint accepts (r : re) (s : string) (k : string -> bool) {struct r} : bool :=
  match r with
  | Eps => k s
  | Chr p =>
      match s with
      | String c s' => p c && k s'
      | EmptyString => false
      end
  | Cat a b => accepts a s (fun s' => accepts b s' k)
  | Alt a b => accepts a s k || accepts b s k
  | Star a =>
      (fix loop (fuel : nat) (s : string) {struct fuel} : bool :=
         k s ||
         match fuel with
         | O => false
         | S f =>
             accepts a s
               (fun s' => (String.length s' <? String.length s)%nat && loop f s')
         end) (String.length s) s
  | Eos =>
      match s with
      | EmptyString => k s
      | String c EmptyString => Ascii.eqb c newline && k s
      | _ => false
      end
  end.

(** [re.search(r, s)] as a truth value *)
Fixpoint search (r : re) (s : string) : bool :=
  accepts r s (fun _ => true) ||
  match s with
  | EmptyString => false
  | String _ s' => search r s'
  end.

Fixpoint lit (s : string) : re :=
  match s with
  | EmptyString => Eps
  | String c r => Cat (Chr (Ascii.eqb c)) (lit r)
  end.

(** [.] matches anything but a line feed. *)
Definition dot : re := Chr (fun c => negb (Ascii.eqb c newline)).
Definition dot_star : re := Star dot.
Definition space : re := Chr is_space.
Definition opt (r : re) : re := Alt r Eps.

Fixpoint cat (l : list re) : re :=
  match l with
  | [] => Eps
  | [r] => r
  | r :: rs => Cat r (cat rs)
  end.

Fixpoint alt (l : list re) : re :=
  match l with
  | [] => Chr (fun _ => false)
  | [r] => r
  | r :: rs => Alt r (alt rs)
  end.

End Re.

(** ** [workflow_parser.py] *)

Module WorkflowParser.

Import Re.

(** [@dataclass WorkflowJob]: every field holds what [dict.get] returned. *)
Record WorkflowJob : Type := {
  name : value;
  runs_on : value;
  steps : value;
  needs : value;
  if_condition : value;
  strategy : value;
  environment : value
}.

(** [@dataclass WorkflowStructure]; its field [name] is [workflow_name]
    here. *)
Record WorkflowStructure : Type := {
  workflow_name : value;
  on_triggers : value;
  jobs : list (atom * WorkflowJob);
  env : value;
  defaults : value
}.

(** [@dataclass InsertionPoint]; [after_job] is a job id or [None]. *)
Record InsertionPoint : Type := {
  location : string;
  after_job : atom;
  reasoning : string
}.

(** [BUILD_PATTERNS] *)
Definition BUILD_PATTERNS : list re := [
  (* mvn.*(?:compile|package|install) *)
  cat [lit "mvn"; dot_star; alt [lit "compile"; lit "package"; lit "install"]];
  (* gradle.*(?:build|assemble) *)
  cat [lit "gradle"; dot_star; alt [lit "build"; lit "assemble"]];
  (* npm.*(?:run.*build|build) *)
  cat [lit "npm"; dot_star; alt [cat [lit "run"; dot_star; lit "build"]; lit "build"]];
  (* dotnet.*build *)
  cat [lit "dotnet"; dot_star; lit "build"];
  (* go.*build *)
  cat [lit "go"; dot_star; lit "build"];
  (* cargo.*build *)
  cat [lit "cargo"; dot_star; lit "build"];
  (* make(?:\s|$) *)
  cat [lit "make"; alt [space; Eos]]
].

(** [TEST_PATTERNS] *)
Definition TEST_PATTERNS : list re := [
  (* mvn.*test *)
  cat [lit "mvn"; dot_star; lit "test"];
  (* gradle.*test *)
  cat [lit "gradle"; dot_star; lit "test"];
  (* npm.*(?:run.*test|test) *)
  cat [lit "npm"; dot_star; alt [cat [lit "run"; dot_star; lit "test"]; lit "test"]];
  (* dotnet.*test *)
  cat [lit "dotnet"; dot_star; lit "test"];
  (* go.*test *)
  cat [lit "go"; dot_star; lit "test"];
  (* cargo.*test *)
  cat [lit "cargo"; dot_star; lit "test"];
  (* pytest *)
  lit "pytest";
  (* jest *)
  lit "jest";
  (* run.*tests? *)
  cat [lit "run"; dot_star; lit "test"; opt (lit "s")]
].

(** The body of [parse_workflow] after [yaml.safe_load] has returned
    [workflow_dict]. *)
Definition parse_loaded (workflow_dict : value) : result WorkflowStructure :=
  match workflow_dict with
  | Dict _ =>
      name <- get workflow_dict "name" (VStr "Unnamed Workflow") ;;
      on_triggers <- get workflow_dict "on" (Dict []) ;;
      let on_triggers :=
        match on_triggers with
        | Atom (AStr s) => Dict [(AStr s, Dict [])]
        | _ => on_triggers
        end in
      env <- get workflow_dict "env" VNone ;;
      defaults <- get workflow_dict "defaults" VNone ;;
      jobs_dict <- get workflow_dict "jobs" (Dict []) ;;
      its <- items jobs_dict ;;
      let jobs :=
        fold_left
          (fun (jobs : list (atom * WorkflowJob)) (it : atom * value) =>
             let (job_id, job_config) := it in
             match job_config with
             | Dict d =>
                 let field (k : string) (default : value) : value :=
                   match dict_get (AStr k) d with
                   | Some v => v
                   | None => default
                   end in
                 dict_set job_id
                   {| name := field "name" (Atom job_id);
                      runs_on := field "runs-on" (VStr "ubuntu-latest");
                      steps := field "steps" (List []);
                      needs := field "needs" VNone;
                      if_condition := field "if" VNone;
                      strategy := field "strategy" VNone;
                      environment := field "environment" VNone |}
                   jobs
             | _ => jobs
             end)
          its [] in
      Ok {| workflow_name := name;
            on_triggers := on_triggers;
            jobs := jobs;
            env := env;
            defaults := defaults |}
  | _ => Raise (ValueError "Workflow YAML must be a dictionary")
  end.

(** [' '.join([str(s.get('run', '')) for s in job.steps]).lower()] *)
Definition run_text (job : WorkflowJob) : result string :=
  ss <- iter (steps job) ;;
  runs <- fold_right
            (fun s acc =>
               r <- get s "run" (VStr EmptyString) ;;
               rest <- acc ;;
               Ok (Repr.str r :: rest))
            (Ok []) ss ;;
  Ok (lower (join " " runs)).

Definition matches_any (patterns : list re) (text : string) : bool :=
  existsb (fun pattern => search pattern text) patterns.

(** The flags [is_build_step] and [is_test_step] that [_analyze_step] gives
    a step: both are decided on the command of that step alone. *)
Definition _analyze_step (step : value) : result (bool * bool) :=
  _ <- get step "name" (VStr "Unnamed step") ;;
  _ <- get step "uses" VNone ;;
  run <- get step "run" VNone ;;
  if truthy run then
    let run_text := lower (Repr.str run) in
    Ok (matches_any BUILD_PATTERNS run_text, matches_any TEST_PATTERNS run_text)
  else Ok (false, false).

(** The flags [has_build_steps] and [has_test_steps] that [_analyze_job]
    gives a job: some step has the flag. *)
Definition _analyze_job (job : WorkflowJob) : result (bool * bool) :=
  ss <- iter (steps job) ;;
  fold_left
    (fun acc step =>
       flags <- acc ;;
       step_analysis <- _analyze_step step ;;
       Ok (fst flags || fst step_analysis, snd flags || snd step_analysis))
    ss (Ok (false, false)).

(** The loop of [_find_insertion_points]: the state is
    [(build_job, test_job, last_job)], each a job id or [None]. *)
Fixpoint scan_jobs (js : list (atom * WorkflowJob)) (st : atom * atom * atom)
  : result (atom * atom * atom) :=
  match js with
  | [] => Ok st
  | (job_id, job) :: r =>
      let '(build_job, test_job, _) := st in
      text <- run_text job ;;
      let build_job := if matches_any BUILD_PATTERNS text then job_id else build_job in
      let test_job := if matches_any TEST_PATTERNS text then job_id else test_job in
      scan_jobs r (build_job, test_job, job_id)
  end.

Definition after_build_point (build_job : atom) : InsertionPoint :=
  {| location := "after_build";
     after_job := build_job;
     reasoning := "Security scanning should run after build to analyze compiled code" |}.

Definition after_test_point (test_job : atom) : InsertionPoint :=
  {| location := "after_test";
     after_job := test_job;
     reasoning := "Security scanning can run in parallel with or after tests" |}.

Definition end_point (last_job : atom) : InsertionPoint :=
  {| location := "end";
     after_job := last_job;
     reasoning := "Security scanning will run at the end of the workflow" |}.

Definition first_job_point : InsertionPoint :=
  {| location := "end";
     after_job := ANone;
     reasoning := "Security scanning will be the first job" |}.

Definition emit_points (build_job test_job last_job : atom) : list InsertionPoint :=
  (if truthy_atom build_job then [after_build_point build_job] else []) ++
  (if truthy_atom test_job && negb (key_eqb test_job build_job)
   then [after_test_point test_job] else []) ++
  [if truthy_atom last_job then end_point last_job else first_job_point].

Definition _find_insertion_points (structure : WorkflowStructure)
  : result (list InsertionPoint) :=
  st <- scan_jobs (jobs structure) (ANone, ANone, ANone) ;;
  let '(build_job, test_job, last_job) := st in
  Ok (emit_points build_job test_job last_job).

(** *** [merge_job_into_workflow], between [yaml.load] and [yaml.dump] *)

(** A fragment that is a dict of one entry is replaced by the value of that
    entry. *)
Definition unwrap_job (job_dict : value) : value :=
  match job_dict with
  | Dict [(_, inner)] => inner
  | _ => job_dict
  end.

(** The loop that rebuilds the jobs in order. *)
Definition rebuild_jobs (its : entries) (insert_after job_id : string) (job_dict : value)
  : entries :=
  fold_left
    (fun (new_jobs : entries) (it : atom * value) =>
       let (existing_job_id, existing_job) := it in
       let new_jobs := dict_set existing_job_id existing_job new_jobs in
       if key_eqb existing_job_id (AStr insert_after)
       then dict_set (AStr job_id) job_dict new_jobs
       else new_jobs)
    its [].

(** [insert_after and insert_after in jobs] *)
Definition names_job (insert_after : option string) (jobs : value) : result bool :=
  match insert_after with
  | Some a => if String.eqb a EmptyString then Ok false else contains a jobs
  | None => Ok false
  end.

Definition merge_job (workflow_dict job_dict : value) (job_id : string)
    (insert_after : option string) : result value :=
  let job_dict := unwrap_job job_dict in
  has_jobs <- contains "jobs" workflow_dict ;;
  workflow_dict <-
    (if has_jobs then Ok workflow_dict else setitem workflow_dict "jobs" (Dict [])) ;;
  jobs <- getitem workflow_dict "jobs" ;;
  named <- names_job insert_after jobs ;;
  if named then
    its <- items jobs ;;
    let a := match insert_after with Some a => a | None => EmptyString end in
    setitem workflow_dict "jobs" (Dict (rebuild_jobs its a job_id job_dict))
  else
    jobs' <- setitem jobs job_id job_dict ;;
    setitem workflow_dict "jobs" jobs'.

(** *** [insert_step_into_job], between [yaml.load] and [yaml.dump] *)

Definition build_keywords : list string :=
  ["build"; "compile"; "maven"; "gradle"; "npm run build"; "test"].

(** [(x or '')] *)
Definition or_empty (v : value) : value := if truthy v then v else VStr EmptyString.

(** [x.lower()]: only a string has the method. *)
Definition lower_of (v : value) : result string :=
  match v with
  | Atom (AStr s) => Ok (lower s)
  | _ => Raise AttributeError
  end.

Definition has_build_keyword (step : value) : result bool :=
  n <- get step "name" VNone ;;
  step_name <- lower_of (or_empty n) ;;
  r <- get step "run" VNone ;;
  step_run <- lower_of (or_empty r) ;;
  Ok (existsb (fun keyword => str_in keyword step_name || str_in keyword step_run)
        build_keywords).

(** [for i, step in enumerate(job['steps'])], from index [i] on *)
Fixpoint after_build_index (ss : list value) (i insert_index : nat) : result nat :=
  match ss with
  | [] => Ok insert_index
  | step :: r =>
      b <- has_build_keyword step ;;
      after_build_index r (S i) (if b then S i else insert_index)
  end.

(** [for new_step in reversed(new_steps): steps.insert(insert_index, new_step)] *)
Definition insert_all (steps : value) (insert_index : nat) (new_steps : list value)
  : result value :=
  fold_left
    (fun acc new_step => s <- acc ;; insert s insert_index new_step)
    (rev new_steps) (Ok steps).

Definition insert_step (workflow_dict step_data : value)
    (target_job insert_position : string) : result value :=
  new_steps <-
    match step_data with
    | Dict _ => Ok [step_data]
    | List l => Ok l
    | _ => Raise (ValueError "Step YAML must be a dict or list")
    end ;;
  has_jobs <- contains "jobs" workflow_dict ;;
  found <-
    (if has_jobs
     then jobs <- getitem workflow_dict "jobs" ;; contains target_job jobs
     else Ok false) ;;
  if negb found
  then Raise (ValueError ("Job '" ++ target_job ++ "' not found in workflow")%string)
  else
    jobs <- getitem workflow_dict "jobs" ;;
    job <- getitem jobs target_job ;;
    has_steps <- contains "steps" job ;;
    job <- (if has_steps then Ok job else setitem job "steps" (List [])) ;;
    steps <- getitem job "steps" ;;
    steps' <-
      (if String.eqb insert_position "end" then extend steps new_steps
       else if String.eqb insert_position "after_build" then
         n <- len steps ;;
         ss <- iter steps ;;
         insert_index <- after_build_index ss 0 n ;;
         insert_all steps insert_index new_steps
       else if String.eqb insert_position "before_end" then
         n <- len steps ;;
         insert_all steps (Z.to_nat (Z.max 0 (Z.of_nat n - 1))) new_steps
       else extend steps new_steps) ;;
    job' <- setitem job "steps" steps' ;;
    jobs' <- setitem jobs target_job job' ;;
    setitem workflow_dict "jobs" jobs'.

(** *** [analyze_workflow] *)

(** [SECURITY_TOOL_PATTERNS] *)
Definition SECURITY_TOOL_PATTERNS : list re := [
  lit "polaris";
  lit "coverity";
  lit "blackduck";
  (* black.*duck *)
  cat [lit "black"; dot_star; lit "duck"];
  lit "codeql";
  lit "snyk";
  lit "sonarqube";
  lit "owasp"
].

Definition _extract_build_tool (text : string) : option string :=
  if str_in "mvn" text || str_in "maven" text then Some "maven"
  else if str_in "gradle" text then Some "gradle"
  else if str_in "npm" text then Some "npm"
  else if str_in "dotnet" text then Some "dotnet"
  else if str_in "go" text && str_in "build" text then Some "go"
  else if str_in "cargo" text then Some "cargo"
  else if str_in "make" text then Some "make"
  else None.

Definition _extract_security_tool (text : string) : option string :=
  if str_in "polaris" text then Some "polaris"
  else if str_in "coverity" text then Some "coverity"
  else if str_in "blackduck" text || str_in "black-duck" text then Some "blackduck"
  else if str_in "codeql" text then Some "codeql"
  else if str_in "snyk" text then Some "snyk"
  else if str_in "sonarqube" text || str_in "sonar" text then Some "sonarqube"
  else None.

Definition _detect_language_from_action (action : string) : option string :=
  if str_in "setup-java" action then Some "java"
  else if str_in "setup-python" action then Some "python"
  else if str_in "setup-node" action then Some "javascript"
  else if str_in "setup-dotnet" action then Some "csharp"
  else if str_in "setup-go" action then Some "go"
  else if str_in "setup-ruby" action then Some "ruby"
  else None.

(** The dictionary [step_info] that [_analyze_step] returns; the keys
    [name], [uses] and [run] are the fields [step_name], [step_uses] and
    [step_run]. *)
Record StepAnalysis : Type := {
  step_name : value;
  step_uses : value;
  step_run : value;
  is_build_step : bool;
  is_test_step : bool;
  is_security_scan : bool;
  build_tool : option string;
  language : option string;
  security_tool : option string
}.

(** [_analyze_step], with everything it returns; [_analyze_step] above is
    its pair of flags. *)
Definition step_info (step : value) : result StepAnalysis :=
  name <- get step "name" (VStr "Unnamed step") ;;
  uses <- get step "uses" VNone ;;
  run <- get step "run" VNone ;;
  (* Analyze run commands *)
  let '(is_build, is_test, is_scan, tool, sec_tool) :=
    if truthy run then
      let run_text := lower (Repr.str run) in
      let is_build := matches_any BUILD_PATTERNS run_text in
      let is_scan := matches_any SECURITY_TOOL_PATTERNS run_text in
      (is_build,
       matches_any TEST_PATTERNS run_text,
       is_scan,
       (if is_build then _extract_build_tool run_text else None),
       (if is_scan then _extract_security_tool run_text else None))
    else (false, false, false, None, None) in
  (* Analyze uses (actions) *)
  let '(lang, is_scan, sec_tool) :=
    if truthy uses then
      let uses_text := lower (Repr.str uses) in
      if matches_any SECURITY_TOOL_PATTERNS uses_text
      then (_detect_language_from_action uses_text, true, _extract_security_tool uses_text)
      else (_detect_language_from_action uses_text, is_scan, sec_tool)
    else (None, is_scan, sec_tool) in
  Ok {| step_name := name;
        step_uses := uses;
        step_run := run;
        is_build_step := is_build;
        is_test_step := is_test;
        is_security_scan := is_scan;
        build_tool := tool;
        language := lang;
        security_tool := sec_tool |}.

(** The dictionary [job_info] that [_analyze_job] returns; the keys [name],
    [runs_on], [has_security_scan], [build_tools], [languages],
    [security_tools] and [steps] are the fields [job_name], [job_runs_on],
    [job_security_scan], [job_build_tools], [job_languages],
    [job_security_tools] and [step_infos]. *)
Record JobAnalysis : Type := {
  job_name : value;
  job_runs_on : value;
  step_count : nat;
  has_build_steps : bool;
  has_test_steps : bool;
  job_security_scan : bool;
  job_build_tools : list string;
  job_languages : list string;
  job_security_tools : list string;
  step_infos : list StepAnalysis
}.

(** [if x not in l: l.append(x)] *)
Definition add_new (l : list string) (x : string) : list string :=
  if existsb (String.eqb x) l then l else l ++ [x].

(** [if t and t not in l: l.append(t)] for a [t] that is a string or
    [None] *)
Definition add_found (l : list string) (t : option string) : list string :=
  match t with
  | Some x => if String.eqb x EmptyString then l else add_new l x
  | None => l
  end.

(** [_analyze_job], with everything it returns; [_analyze_job] above is
    its pair of flags. *)
Definition job_info (job : WorkflowJob) : result JobAnalysis :=
  n <- len (steps job) ;;
  ss <- iter (steps job) ;;
  fold_left
    (fun acc step =>
       info <- acc ;;
       step_analysis <- step_info step ;;
       Ok {| job_name := job_name info;
             job_runs_on := job_runs_on info;
             step_count := step_count info;
             has_build_steps := has_build_steps info || is_build_step step_analysis;
             has_test_steps := has_test_steps info || is_test_step step_analysis;
             job_security_scan := job_security_scan info || is_security_scan step_analysis;
             job_build_tools := add_found (job_build_tools info) (build_tool step_analysis);
             job_languages := add_found (job_languages info) (language step_analysis);
             job_security_tools :=
               add_found (job_security_tools info) (security_tool step_analysis);
             step_infos := step_infos info ++ [step_analysis] |})
    ss
    (Ok {| job_name := name job;
           job_runs_on := runs_on job;
           step_count := n;
           has_build_steps := false;
           has_test_steps := false;
           job_security_scan := false;
           job_build_tools := [];
           job_languages := [];
           job_security_tools := [];
           step_infos := [] |}).

(** [has_pr_trigger]: a key of a dict, an element of a list. *)
Definition has_pr_trigger (on_triggers : value) : bool :=
  match on_triggers with
  | Dict d => dict_has (AStr "pull_request") d || dict_has (AStr "pull_request_target") d
  | List l => existsb (is_str "pull_request") l || existsb (is_str "pull_request_target") l
  | Atom _ => false
  end.

(** The dictionary [analysis] that [analyze_workflow] returns; the keys
    [workflow_name], [jobs] and [has_pr_trigger] are the fields
    [analysis_name], [job_infos] and [pr_trigger]. *)
Record WorkflowAnalysis : Type := {
  file_name : string;
  analysis_name : value;
  has_jobs : bool;
  job_count : nat;
  job_infos : list (atom * JobAnalysis);
  has_build_job : bool;
  has_test_job : bool;
  has_security_scan : bool;
  build_tools : list string;
  languages : list string;
  security_tools : list string;
  triggers : value;
  pr_trigger : bool;
  insertion_points : list InsertionPoint
}.

(** The body of [analyze_workflow] after [parse_workflow] has returned
    [structure]. *)
Definition analysis (structure : WorkflowStructure) (file : string)
  : result WorkflowAnalysis :=
  a <- fold_left
         (fun acc (it : atom * WorkflowJob) =>
            a <- acc ;;
            let (job_id, job) := it in
            job_analysis <- job_info job ;;
            Ok {| file_name := file_name a;
                  analysis_name := analysis_name a;
                  has_jobs := has_jobs a;
                  job_count := job_count a;
                  job_infos := dict_set job_id job_analysis (job_infos a);
                  has_build_job := has_build_job a || has_build_steps job_analysis;
                  has_test_job := has_test_job a || has_test_steps job_analysis;
                  has_security_scan := has_security_scan a || job_security_scan job_analysis;
                  build_tools := fold_left add_new (job_build_tools job_analysis) (build_tools a);
                  languages := fold_left add_new (job_languages job_analysis) (languages a);
                  security_tools :=
                    fold_left add_new (job_security_tools job_analysis) (security_tools a);
                  triggers := triggers a;
                  pr_trigger := pr_trigger a;
                  insertion_points := insertion_points a |})
         (jobs structure)
         (Ok {| file_name := file;
                analysis_name := workflow_name structure;
                has_jobs := (0 <? List.length (jobs structure))%nat;
                job_count := List.length (jobs structure);
                job_infos := [];
                has_build_job := false;
                has_test_job := false;
                has_security_scan := false;
                build_tools := [];
                languages := [];
                security_tools := [];
                triggers := on_triggers structure;
                pr_trigger := has_pr_trigger (on_triggers structure);
                insertion_points := [] |}) ;;
  points <- _find_insertion_points structure ;;
  Ok {| file_name := file_name a;
        analysis_name := analysis_name a;
        has_jobs := has_jobs a;
        job_count := job_count a;
        job_infos := job_infos a;
        has_build_job := has_build_job a;
        has_test_job := has_test_job a;
        has_security_scan := has_security_scan a;
        build_tools := build_tools a;
        languages := languages a;
        security_tools := security_tools a;
        triggers := triggers a;
        pr_trigger := pr_trigger a;
        insertion_points := points |}.

(** *** [generate_job_yaml] *)

(** [s.replace(old, new)] for a non-empty [old]: the occurrences of [old]
    are taken from the left and do not overlap; [skip] counts the
    characters of an occurrence that are still to be passed over. *)
Fixpoint replace_from (old new : string) (skip : nat) (s : string) : string :=
  match s with
  | EmptyString => EmptyString
  | String c r =>
      match skip with
      | S k => replace_from old new k r
      | O =>
          if String.prefix old s
          then (new ++ replace_from old new (String.length old - 1) r)%string
          else String c (replace_from old new 0 r)
      end
  end.

(** [new] after every character of [s] *)
Fixpoint after_each (new s : string) : string :=
  match s with
  | EmptyString => EmptyString
  | String c r => String c (new ++ after_each new r)%string
  end.

(** [s.replace(old, new)]: an empty [old] is found before every character
    and at the end. *)
Definition replace (old new s : string) : string :=
  match old with
  | EmptyString => (new ++ after_each new s)%string
  | _ => replace_from old new 0 s
  end.

(** [content.replace(old, new)]: only a string has the method. *)
Definition replace_in (content : value) (old new : string) : result value :=
  match content with
  | Atom (AStr s) => Ok (VStr (replace old new s))
  | _ => Raise AttributeError
  end.

Definition dollar : string := "$".

(** [generate_job_yaml]: [placeholders] is a dict from strings to strings,
    in its order. *)
Definition generate_job_yaml (template : value) (placeholders : list (string * string))
  : result value :=
  content <- get template "content" (VStr EmptyString) ;;
  fold_left
    (fun acc (it : string * string) =>
       content <- acc ;;
       let (placeholder, value) := it in
       (* Handle both ${PLACEHOLDER} and $PLACEHOLDER formats *)
       content <- replace_in content (dollar ++ "{" ++ placeholder ++ "}")%string value ;;
       replace_in content (dollar ++ placeholder)%string value)
    placeholders (Ok content).

(** *** [add_job_dependency], between [yaml.load] and [yaml.dump] *)


(** *** [add_enhancement_comments] *)

(** [s.lstrip()] *)
Fixpoint lstrip (s : string) : string :=
  match s with
  | EmptyString => EmptyString
  | String c r => if is_space c then lstrip r else s
  end.

(** [s.strip()] *)
Definition strip (s : string) : string := lstrip (rstrip s).

(** [s.split(':')[0]] *)
Fixpoint before_colon (s : string) : string :=
  match s with
  | EmptyString => EmptyString
  | String c r => if Ascii.eqb c ":" then EmptyString else String c (before_colon r)
  end.

(** [s[n]] *)
Definition char_at (s : string) (n : nat) : result ascii :=
  match String.get n s with
  | Some c => Ok c
  | None => Raise IndexError
  end.

(** The header of the result: [now] is what
    [datetime.now().strftime('%Y-%m-%d %H:%M:%S')] returns. *)
Definition header_comment (template_name enhancement_description now : string) : string :=
  ("# Enhanced by Onboarding Tool" ++ String newline
     ("# Template: " ++ template_name ++ String newline
        ("# Changes: " ++ enhancement_description ++ String newline
           ("# Date: " ++ now ++ String newline EmptyString))))%string.

(** The loop over the lines of the original text: the comment lines it
    begins with; blank lines between them are passed over. *)
Fixpoint original_comments (original_lines : list string) : list string :=
  match original_lines with
  | [] => []
  | line :: r =>
      if String.prefix "#" (strip line) then line :: original_comments r
      else if negb (String.eqb (strip line) EmptyString) then []
      else original_comments r
  end.

(** The two lines put before the job that was added. *)
Definition job_marker (template_name enhancement_description : string) : list string :=
  [("  # >>> Added by enhancement: " ++ template_name)%string;
   ("  # " ++ enhancement_description)%string].

(** The loop over the lines of the enhanced text, from the line of index
    [i] on. *)
Fixpoint mark_job (original_yaml template_name enhancement_description : string)
    (lines : list string) (i : nat) (in_jobs job_added : bool)
    (result_lines : list string) : result (list string) :=
  match lines with
  | [] => Ok result_lines
  | line :: rest =>
      let continue := mark_job original_yaml template_name enhancement_description rest (S i) in
      (* Skip empty lines at the start *)
      if (i <? 3)%nat && String.eqb (strip line) EmptyString
      then continue in_jobs job_added result_lines
      (* Detect jobs section *)
      else if String.eqb (strip line) "jobs:"
      then continue true job_added (result_lines ++ [line])
      else
        is_job <-
          (if in_jobs && String.prefix "  " line then
             c <- char_at line 2 ;;
             Ok (negb (Ascii.eqb c " ") && Repr.has_char ":" line && negb job_added)
           else Ok false) ;;
        if is_job then
          let job_name := strip (before_colon line) in
          if negb (str_in ("  " ++ job_name ++ ":") original_yaml)
          then continue in_jobs true
                 (result_lines ++ job_marker template_name enhancement_description ++ [line])
          else continue in_jobs job_added (result_lines ++ [line])
        else continue in_jobs job_added (result_lines ++ [line])
  end.

(** [add_enhancement_comments]; [insertion_type] is not read. *)
Definition add_enhancement_comments
    (original_yaml enhanced_yaml enhancement_description template_name
       insertion_type now : string) : result string :=
  let lines := split_lines enhanced_yaml in
  let comments := original_comments (split_lines original_yaml) in
  let result_lines :=
    (match comments with
     | [] => []
     | _ => comments ++ [EmptyString]
     end)
      ++ [rstrip (header_comment template_name enhancement_description now); EmptyString] in
  result_lines <-
    mark_job original_yaml template_name enhancement_description lines 0 false false
      result_lines ;;
  Ok (join (String newline EmptyString) result_lines).

End WorkflowParser.

(** ** [workflow_duplicate_detector.py] *)

Module DuplicateDetector.

(** [set(struct1.keys()) != set(struct2.keys())], negated *)
Definition same_key_set (d1 d2 : entries) : bool :=
  forallb (fun kv => dict_has (fst kv) d2) d1 &&
  forallb (fun kv => dict_has (fst kv) d1) d2.

(** [compare_yaml_structures].  The keys of a dict are pairwise different,
    so [struct1[key]] is the value stored with [key]; [struct2[key]] cannot
    fail once the key sets are equal. *)
Fixpoint compare_yaml_structures (struct1 struct2 : value) {struct struct1} : bool :=
  match struct1, struct2 with
  | Dict d1, Dict d2 =>
      same_key_set d1 d2 &&
      (fix all (d : entries) : bool :=
         match d with
         | [] => true
         | (key, v1) :: r =>
             match dict_get key d2 with
             | Some v2 => compare_yaml_structures v1 v2
             | None => false
             end && all r
         end) d1
  | List l1, List l2 =>
      Nat.eqb (List.length l1) (List.length l2) &&
      (fix all (l1 l2 : list value) {struct l1} : bool :=
         match l1, l2 with
         | item1 :: r1, item2 :: r2 => compare_yaml_structures item1 item2 && all r1 r2
         | _, _ => true
         end) l1 l2
  | Atom a, Atom b => atom_eqb a b
  | _, _ => false
  end.

(** One entry of the list that [detect_job_duplicates] returns. *)
Record job_match : Type := {
  jm_job_name : atom;
  jm_template_id : Z;
  jm_template_name : string;
  jm_recommendation : string
}.

(** One entry of the list that [detect_step_duplicates] returns. *)
Record step_match : Type := {
  sm_job_name : atom;
  sm_step_indices : list nat;
  sm_step_count : nat;
  sm_template_id : Z;
  sm_template_name : string;
  sm_recommendation : string
}.

Definition job_match_of (job_name : atom) (template_name : string) (template_id : Z)
  : job_match :=
  {| jm_job_name := job_name;
     jm_template_id := template_id;
     jm_template_name := template_name;
     jm_recommendation :=
       ("Remove job '" ++ Repr.str_atom job_name
          ++ "' - exact duplicate of template '" ++ template_name ++ "'")%string |}.

Definition step_match_of (job_name : atom) (i template_len : nat)
    (template_name : string) (template_id : Z) : step_match :=
  {| sm_job_name := job_name;
     sm_step_indices := seq i template_len;
     sm_step_count := template_len;
     sm_template_id := template_id;
     sm_template_name := template_name;
     sm_recommendation :=
       ("Remove " ++ str_of_Z (Z.of_nat template_len) ++ " step(s) from job '"
          ++ Repr.str_atom job_name ++ "' (indices " ++ str_of_Z (Z.of_nat i) ++ "-"
          ++ str_of_Z (Z.of_nat i + Z.of_nat template_len - 1)
          ++ ") - exact duplicate of template '" ++ template_name ++ "'")%string |}.

(** The [try] block of [detect_job_duplicates] once both texts are
    normalized: the matches, or the exception that the [except] clause
    catches (no match has been recorded when one can occur). *)
Definition job_duplicates (workflow_data template_data : value)
    (template_name : string) (template_id : Z) : result (list job_match) :=
  if negb (truthy workflow_data) || negb (truthy template_data) then Ok []
  else
    workflow_jobs <- get workflow_data "jobs" (Dict []) ;;
    match template_data with
    | Dict _ =>
        its <- items workflow_jobs ;;
        Ok (map (fun it => job_match_of (fst it) template_name template_id)
              (filter (fun it => compare_yaml_structures (snd it) template_data) its))
    | _ => Ok []
    end.

(** [job_steps[i:i + template_len]] *)
Definition window (job_steps : list value) (i template_len : nat) : list value :=
  firstn template_len (skipn i job_steps).

(** The matches of one job: [for i in range(len(job_steps) - template_len + 1)] *)
Definition step_windows (job_name : atom) (job_steps template_data : list value)
    (template_name : string) (template_id : Z) : list step_match :=
  let template_len := List.length template_data in
  let n := Z.to_nat (Z.of_nat (List.length job_steps) - Z.of_nat template_len + 1) in
  map (fun i => step_match_of job_name i template_len template_name template_id)
    (filter
       (fun i => compare_yaml_structures (List (window job_steps i template_len))
                   (List template_data))
       (seq 0 n)).

(** The loop over the jobs in [detect_step_duplicates]: the matches recorded
    so far, and the exception that ended the loop if one did. *)
Fixpoint scan_steps (its : entries) (template_data : list value)
    (template_name : string) (template_id : Z) : list step_match * option exn :=
  match its with
  | [] => ([], None)
  | (job_name, job_content) :: r =>
      match get job_content "steps" (List []) with
      | Raise e => ([], Some e)
      | Ok (List job_steps) =>
          let (rest, e) := scan_steps r template_data template_name template_id in
          (step_windows job_name job_steps template_data template_name template_id ++ rest, e)
      | Ok _ => scan_steps r template_data template_name template_id
      end
  end.

(** The [try] block of [detect_step_duplicates] once both texts are
    normalized. *)
Definition step_duplicates (workflow_data template_data : value)
    (template_name : string) (template_id : Z) : list step_match * option exn :=
  if negb (truthy workflow_data) || negb (truthy template_data) then ([], None)
  else
    match get workflow_data "jobs" (Dict []) with
    | Raise e => ([], Some e)
    | Ok workflow_jobs =>
        match template_data with
        | List template =>
            match items workflow_jobs with
            | Raise e => ([], Some e)
            | Ok its => scan_steps its template template_name template_id
            end
        | _ => ([], None)
        end
    end.

(** The [try] block of [detect_workflow_duplicate] once both texts are
    normalized. *)
Definition workflow_duplicate (workflow_data template_data : value) : bool :=
  if negb (truthy workflow_data) || negb (truthy template_data) then false
  else compare_yaml_structures workflow_data template_data.

(** [del c[s]] for a string [s] *)
Definition delitem (c : value) (s : string) : result value :=
  match c with
  | Dict d => if dict_has (AStr s) d then Ok (Dict (dict_del (AStr s) d)) else Raise KeyError
  | _ => Raise TypeError
  end.

(** The [try] block of [remove_job_from_workflow] after [yaml.load]:
    [Some d] when [d] is dumped, [None] when the text is returned as it
    came. *)
Definition remove_job (workflow_data : value) (job_name : string) : result (option value) :=
  has_jobs <- contains "jobs" workflow_data ;;
  found <-
    (if has_jobs
     then jobs <- getitem workflow_data "jobs" ;; contains job_name jobs
     else Ok false) ;;
  if found then
    jobs <- getitem workflow_data "jobs" ;;
    jobs' <- delitem jobs job_name ;;
    d <- setitem workflow_data "jobs" jobs' ;;
    Ok (Some d)
  else Ok None.

(** [sorted(step_indices, reverse=True)] *)
Fixpoint insert_desc (x : Z) (l : list Z) : list Z :=
  match l with
  | [] => [x]
  | y :: r => if (y <? x)%Z then x :: l else y :: insert_desc x r
  end.

Definition sorted_desc (l : list Z) : list Z := fold_right insert_desc [] l.

(** [del l[i]] for [0 <= i < len(l)] *)
Definition list_del (i : nat) (l : list value) : list value :=
  firstn i l ++ skipn (S i) l.

(** The loop of [remove_steps_from_job] *)
Definition delete_steps (job_steps : list value) (step_indices : list Z) : list value :=
  fold_left
    (fun ss index =>
       if ((0 <=? index)%Z && (index <? Z.of_nat (List.length ss))%Z)%bool
       then list_del (Z.to_nat index) ss
       else ss)
    (sorted_desc step_indices) job_steps.

(** The [try] block of [remove_steps_from_job] after [yaml.load] *)
Definition remove_steps (workflow_data : value) (job_name : string)
    (step_indices : list Z) : result (option value) :=
  has_jobs <- contains "jobs" workflow_data ;;
  found <-
    (if has_jobs
     then jobs <- getitem workflow_data "jobs" ;; contains job_name jobs
     else Ok false) ;;
  if negb found then Ok None
  else
    jobs <- getitem workflow_data "jobs" ;;
    job <- getitem jobs job_name ;;
    has_steps <- contains "steps" job ;;
    if negb has_steps then Ok None
    else
      steps <- getitem job "steps" ;;
      match steps with
      | List job_steps =>
          job' <- setitem job "steps" (List (delete_steps job_steps step_indices)) ;;
          jobs' <- setitem jobs job_name job' ;;
          d <- setitem workflow_data "jobs" jobs' ;;
          Ok (Some d)
      | _ => Ok None
      end.

(** The dictionary that [detect_workflow_duplicate] returns when the whole
    workflow matches. *)
Record workflow_match : Type := {
  wm_template_id : Z;
  wm_template_name : string;
  wm_recommendation : string
}.

Definition workflow_match_of (template_name : string) (template_id : Z) : workflow_match :=
  {| wm_template_id := template_id;
     wm_template_name := template_name;
     wm_recommendation :=
       ("Remove entire workflow file - exact duplicate of template '"
          ++ template_name ++ "'")%string |}.

End DuplicateDetector.

(** ** Vocabulary of the properties *)

Module Spec.

(** The number a key stands for, when it is a [bool] or an [int]. *)
Definition key_num (a : atom) : option Z :=
  match a with
  | ABool b => Some (Z.b2z b)
  | AInt n => Some n
  | _ => None
  end.

(** The entries of a dict under the keys other than [k], in order. *)
Definition others {V : Type} (k : atom) (d : list (atom * V)) : list (atom * V) :=
  filter (fun kv => negb (key_eqb k (fst kv))) d.

(** The jobs of a document that is a dict: the entries of its [jobs]
    mapping, none when it has no such key. *)
Definition doc_jobs (d : entries) : option entries :=
  match dict_get (AStr "jobs") d with
  | None => Some []
  | Some (Dict js) => Some js
  | Some _ => None
  end.

(** The document [d] with [js] as its jobs. *)
Definition with_jobs (js : entries) (d : entries) : value :=
  Dict (dict_set (AStr "jobs") (Dict js) d).

(** [insert_after] names a job of [js]. *)
Definition names (insert_after : option string) (js : entries) : bool :=
  match insert_after with
  | Some a => negb (String.eqb a EmptyString) && dict_has (AStr a) js
  | None => false
  end.

(** The steps of a job that is a dict: the elements of its [steps] list,
    none when it has no such key. *)
Definition job_steps (j : entries) : option (list value) :=
  match dict_get (AStr "steps") j with
  | None => Some []
  | Some (List ss) => Some ss
  | Some _ => None
  end.

(** The job [j] with [ss] as its steps. *)
Definition with_steps (ss : list value) (j : entries) : value :=
  Dict (dict_set (AStr "steps") (List ss) j).

(** The steps of a step fragment: one step, or a list of steps. *)
Definition fragment_steps (step_data : value) : option (list value) :=
  match step_data with
  | Dict _ => Some [step_data]
  | List l => Some l
  | Atom _ => None
  end.

(** [new] put into [ss] at index [i], both in their own order. *)
Definition splice (i : nat) (new ss : list value) : list value :=
  firstn i ss ++ new ++ skipn i ss.

(** The index of the last element that satisfies [p]. *)
Fixpoint last_match (p : value -> bool) (ss : list value) : option nat :=
  match ss with
  | [] => None
  | s :: r =>
      match last_match p r with
      | Some m => Some (S m)
      | None => if p s then Some 0 else None
      end
  end.

(** The step is one that [insert_step] takes for a build step. *)
Definition keyword_step (s : value) : bool :=
  match WorkflowParser.has_build_keyword s with
  | Ok b => b
  | Raise _ => false
  end.

(** The keyword test runs on the step without an exception: the step is a
    dict whose [name] and [run] are strings or count as false. *)
Definition step_ok (s : value) : Prop :=
  is_ok (WorkflowParser.has_build_keyword s) = true.

(** The index at which [insert_step] puts the fragment. *)
Definition position_index (insert_position : string) (ss : list value) : result nat :=
  if String.eqb insert_position "end" then Ok (List.length ss)
  else if String.eqb insert_position "after_build"
       then WorkflowParser.after_build_index ss 0 (List.length ss)
  else if String.eqb insert_position "before_end" then Ok (List.length ss - 1)
  else Ok (List.length ss).

(** The keyword family as the specification names it: build, test and
    install. *)
Definition named_family : list string := ["build"; "test"; "install"].

Definition text_of (step : entries) (k : string) : string :=
  match dict_get (AStr k) step with
  | Some (Atom (AStr s)) => lower s
  | _ => EmptyString
  end.

(** The name or the command of the step has a word of the named family. *)
Definition in_named_family (s : value) : bool :=
  match s with
  | Dict step =>
      existsb (fun keyword => str_in keyword (text_of step "name")
                              || str_in keyword (text_of step "run"))
        named_family
  | _ => false
  end.

(** Deep equality in the words of the specification: the same primitive
    value; or two mappings with the same key set and equivalent values under
    every key; or two sequences of one length with equivalent elements at
    every position. *)
Inductive deep_eq : value -> value -> Prop :=
| deep_eq_atom (a : atom) : deep_eq (Atom a) (Atom a)
| deep_eq_dict (d1 d2 : entries) :
    (forall k, dict_has k d1 = dict_has k d2) ->
    (forall k v1 v2, dict_get k d1 = Some v1 -> dict_get k d2 = Some v2 -> deep_eq v1 v2) ->
    deep_eq (Dict d1) (Dict d2)
| deep_eq_list (l1 l2 : list value) :
    Forall2 deep_eq l1 l2 -> deep_eq (List l1) (List l2).

(** Every dict inside the value has pairwise different keys, as every
    Python dict has. *)
Fixpoint well_formed (v : value) : Prop :=
  match v with
  | Atom _ => True
  | List l =>
      (fix all (l : list value) : Prop :=
         match l with
         | [] => True
         | x :: r => well_formed x /\ all r
         end) l
  | Dict d =>
      distinct_keys d /\
      (fix all (d : entries) : Prop :=
         match d with
         | [] => True
         | kv :: r => well_formed (snd kv) /\ all r
         end) d
  end.

(** Induction on a value, with the hypothesis on every element and on every
    entry. *)
Fixpoint value_induction (P : value -> Prop)
    (HA : forall a, P (Atom a))
    (HL : forall l, Forall P l -> P (List l))
    (HD : forall d, Forall (fun kv => P (snd kv)) d -> P (Dict d))
    (v : value) {struct v} : P v :=
  match v with
  | Atom a => HA a
  | List l =>
      HL l ((fix all (l : list value) : Forall P l :=
               match l with
               | [] => Forall_nil P
               | x :: r => Forall_cons x (value_induction P HA HL HD x) (all r)
               end) l)
  | Dict d =>
      HD d ((fix all (d : entries) : Forall (fun kv => P (snd kv)) d :=
               match d with
               | [] => Forall_nil _
               | kv :: r =>
                   Forall_cons kv (value_induction P HA HL HD (snd kv)) (all r)
               end) d)
  end.

(** The windows that [detect_step_duplicates] reports for one job. *)
Definition job_windows (template_data : list value) (template_name : string)
    (template_id : Z) (it : atom * value) : list DuplicateDetector.step_match :=
  match snd it with
  | Dict j =>
      match job_steps j with
      | Some ss =>
          DuplicateDetector.step_windows (fst it) ss template_data template_name template_id
      | None => []
      end
  | _ => []
  end.

(** *** The insertion-point planner *)

(** The test of the planner on a job: some pattern is found in the commands
    of its steps, joined by spaces and put in lower case. *)
Definition job_matches (patterns : list Re.re) (job : WorkflowParser.WorkflowJob) : bool :=
  match WorkflowParser.run_text job with
  | Ok text => WorkflowParser.matches_any patterns text
  | Raise _ => false
  end.

Definition is_build_job (it : atom * WorkflowParser.WorkflowJob) : bool :=
  job_matches WorkflowParser.BUILD_PATTERNS (snd it).

Definition is_test_job (it : atom * WorkflowParser.WorkflowJob) : bool :=
  job_matches WorkflowParser.TEST_PATTERNS (snd it).

(** The id of the last job, in document order, that satisfies [p]. *)
Fixpoint last_such {J : Type} (p : atom * J -> bool) (js : list (atom * J)) : option atom :=
  match js with
  | [] => None
  | it :: r =>
      match last_such p r with
      | Some x => Some x
      | None => if p it then Some (fst it) else None
      end
  end.

Definition build_anchor (js : list (atom * WorkflowParser.WorkflowJob)) : option atom :=
  last_such is_build_job js.

(** The test anchor of the code: the last job that tests. *)
Definition test_anchor (js : list (atom * WorkflowParser.WorkflowJob)) : option atom :=
  last_such is_test_job js.

(** The test anchor in the words of the specification: the last job that
    tests and is not the build anchor. *)
Definition test_anchor_as_specified (js : list (atom * WorkflowParser.WorkflowJob))
  : option atom :=
  last_such
    (fun it => is_test_job it &&
               match build_anchor js with
               | Some b => negb (key_eqb (fst it) b)
               | None => true
               end) js.

Definition fallback_anchor (js : list (atom * WorkflowParser.WorkflowJob)) : option atom :=
  last_such (fun _ => true) js.

Definition pick (o : option atom) (default : atom) : atom :=
  match o with
  | Some x => x
  | None => default
  end.

(** The candidates in priority order, for a test anchor [t]. *)
Definition candidates (b t l : option atom) : list WorkflowParser.InsertionPoint :=
  match b with
  | Some x => [WorkflowParser.after_build_point x]
  | None => []
  end ++
  match t with
  | Some y =>
      match b with
      | Some x => if key_eqb y x then [] else [WorkflowParser.after_test_point y]
      | None => [WorkflowParser.after_test_point y]
      end
  | None => []
  end ++
  [match l with
   | Some z => WorkflowParser.end_point z
   | None => WorkflowParser.first_job_point
   end].

(** The job can be scanned: its id counts as true (it is not empty, zero,
    false or null) and the commands of its steps are read without an
    exception (its steps are a sequence of mappings). *)
Definition scannable (it : atom * WorkflowParser.WorkflowJob) : Prop :=
  truthy_atom (fst it) = true /\ is_ok (WorkflowParser.run_text (snd it)) = true.

(** *** Removal *)

(** The elements of [ss] whose index, counted from [i], is not one of
    [indices]. *)
Fixpoint drop_indices (indices : list Z) (i : Z) (ss : list value) : list value :=
  match ss with
  | [] => []
  | s :: r =>
      if existsb (Z.eqb i) indices then drop_indices indices (i + 1) r
      else s :: drop_indices indices (i + 1) r
  end.

(** The indices go down, each smaller than those before it. *)
Fixpoint descending (l : list Z) : Prop :=
  match l with
  | [] => True
  | x :: r => (forall y, In y r -> (y < x)%Z) /\ descending r
  end.

(** *** Patterns *)

(** The pattern has no [$], and every starred part of it is one character
    class. *)
Fixpoint plain (r : Re.re) : bool :=
  match r with
  | Re.Eps => true
  | Re.Chr _ => true
  | Re.Cat a b => plain a && plain b
  | Re.Alt a b => plain a && plain b
  | Re.Star (Re.Chr _) => true
  | Re.Star _ => false
  | Re.Eos => false
  end.

(** The text is empty or begins with white space. *)
Definition boundary (t : string) : bool :=
  match t with
  | EmptyString => true
  | String c _ => is_space c
  end.

(** *** Analysis *)

(** A tool is recorded: it is not [None] and not the empty string. *)
Definition recorded (t : option string) : bool :=
  match t with
  | Some x => negb (String.eqb x EmptyString)
  | None => false
  end.

(** [isinstance(v, dict)] *)
Definition is_dict (v : value) : bool :=
  match v with
  | Dict _ => true
  | _ => false
  end.

(** What [d.get(k, default)] finds in the entries [d]. *)
Definition get_or (d : entries) (k : string) (default : value) : value :=
  match dict_get (AStr k) d with
  | Some v => v
  | None => default
  end.

(** *** Comments *)

(** The lines that [add_enhancement_comments] copies, from the line of
    index [i] on: all but the blank ones among the first three. *)
Fixpoint kept_lines (lines : list string) (i : nat) : list string :=
  match lines with
  | [] => []
  | line :: r =>
      if (i <? 3)%nat && String.eqb (WorkflowParser.strip line) EmptyString
      then kept_lines r (S i)
      else line :: kept_lines r (S i)
  end.

(** A line of two spaces stands at an index that is three or more, after a
    line that reads [jobs:]. *)
Definition short_line_after_jobs (lines : list string) : Prop :=
  exists (i j : nat) (line : string),
    i < j /\ 3 <= j
    /\ nth_error lines i = Some line
    /\ WorkflowParser.strip line = "jobs:"
    /\ nth_error lines j = Some "  ".


(** *** Detection *)

(** The template of a job that the detector of jobs compares the jobs
    with: a mapping with at least one key. *)
Definition reportable (template_data : value) : bool :=
  match template_data with
  | Dict (_ :: _) => true
  | _ => false
  end.


End Spec.

(** ** The YAML library, as the engine configures and uses it

    [yaml.load] and [yaml.dump] belong to PyYAML.  This module models the
    stages that [workflow_parser.py] changes or relies on: the table of
    implicit resolvers, a class attribute that the loaders and the dumpers
    share; the representer of strings; the choice between a plain and a
    quoted scalar; the construction of Python objects.  A text is taken up to
    its layout: it is either not parsable, or the tree of its scalars,
    sequences and mappings.  Scalars that resolve to a float, a timestamp, a
    merge key or a value key lie outside the universe of values. *)

Module PyYAML.

Import Re.

Inductive tag : Type :=
| tag_str | tag_bool | tag_int | tag_float | tag_null
| tag_merge | tag_timestamp | tag_value | tag_yaml.

Definition tag_eqb (a b : tag) : bool :=
  match a, b with
  | tag_str, tag_str | tag_bool, tag_bool | tag_int, tag_int
  | tag_float, tag_float | tag_null, tag_null | tag_merge, tag_merge
  | tag_timestamp, tag_timestamp | tag_value, tag_value | tag_yaml, tag_yaml => true
  | _, _ => false
  end.

(** *** The regular expressions of [yaml/resolver.py] *)

Definition cls (chars : string) : re := Chr (fun c => Repr.has_char c chars).
Definition digit : re := cls "0123456789".
Definition plus (r : re) : re := Cat r (Star r).
Definition sign : re := opt (cls "-+").

Definition bool_regexp : re :=
  alt (map lit ["yes"; "Yes"; "YES"; "no"; "No"; "NO";
                "true"; "True"; "TRUE"; "false"; "False"; "FALSE";
                "on"; "On"; "ON"; "off"; "Off"; "OFF"]).

Definition exponent : re := opt (cat [cls "eE"; cls "-+"; plus digit]).
Definition sexagesimal : re := plus (cat [lit ":"; opt (cls "012345"); digit]).

Definition float_regexp : re :=
  alt [cat [sign; digit; Star (cls "0123456789_"); lit "."; Star (cls "0123456789_"); exponent];
       cat [lit "."; digit; Star (cls "0123456789_"); exponent];
       cat [sign; digit; Star (cls "0123456789_"); sexagesimal; lit ".";
            Star (cls "0123456789_")];
       cat [sign; lit "."; alt [lit "inf"; lit "Inf"; lit "INF"]];
       cat [lit "."; alt [lit "nan"; lit "NaN"; lit "NAN"]]].

Definition int_regexp : re :=
  alt [cat [sign; lit "0b"; plus (cls "01_")];
       cat [sign; lit "0"; plus (cls "01234567_")];
       cat [sign; alt [lit "0"; cat [cls "123456789"; Star (cls "0123456789_")]]];
       cat [sign; lit "0x"; plus (cls "0123456789abcdefABCDEF_")];
       cat [sign; cls "123456789"; Star (cls "0123456789_"); sexagesimal]].

Definition merge_regexp : re := lit "<<".

Definition null_regexp : re := alt [lit "~"; lit "null"; lit "Null"; lit "NULL"; Eps].

Definition timestamp_regexp : re :=
  alt [cat [digit; digit; digit; digit; lit "-"; digit; digit; lit "-"; digit; digit];
       cat [digit; digit; digit; digit; lit "-"; digit; opt digit; lit "-"; digit; opt digit;
            alt [cls "Tt"; plus (cls (String " " (String (ascii_of_nat 9) EmptyString)))];
            digit; opt digit; lit ":"; digit; digit; lit ":"; digit; digit;
            opt (cat [lit "."; Star digit]);
            opt (cat [Star (cls (String " " (String (ascii_of_nat 9) EmptyString)));
                      alt [lit "Z";
                           cat [cls "-+"; digit; opt digit;
                                opt (cat [lit ":"; digit; digit])]]])]].

Definition value_regexp : re := lit "=".

Definition yaml_regexp : re := alt [lit "!"; lit "&"; lit "*"].

(** [regexp.match(value)] for a pattern written [^(?:...)$] *)
Definition full_match (r : re) (value : string) : bool :=
  accepts (Cat r Eos) value (fun _ => true).

(** *** The table of implicit resolvers *)

(** A key of [yaml_implicit_resolvers]: a first character, the empty string
    or [None]. *)
Inductive first : Type :=
| Char (c : ascii)
| Empty
| Wildcard.

Definition first_eqb (a b : first) : bool :=
  match a, b with
  | Char x, Char y => Ascii.eqb x y
  | Empty, Empty => true
  | Wildcard, Wildcard => true
  | _, _ => false
  end.

Definition resolvers : Type := list (first * list (tag * re)).

Fixpoint table_get (k : first) (t : resolvers) : option (list (tag * re)) :=
  match t with
  | [] => None
  | (k', l) :: r => if first_eqb k k' then Some l else table_get k r
  end.

Fixpoint table_set (k : first) (l : list (tag * re)) (t : resolvers) : resolvers :=
  match t with
  | [] => [(k, l)]
  | (k', l') :: r => if first_eqb k k' then (k', l) :: r else (k', l') :: table_set k l r
  end.

(** [cls.yaml_implicit_resolvers.setdefault(ch, []).append((tag, regexp))]
    for every [ch] of [firsts] *)
Definition add_implicit_resolver (t : tag) (regexp : re) (firsts : list first)
    (tbl : resolvers) : resolvers :=
  fold_left
    (fun tbl ch =>
       table_set ch (match table_get ch tbl with Some l => l | None => [] end ++ [(t, regexp)])
         tbl)
    firsts tbl.

Definition chars (s : string) : list first := map Char (list_ascii_of_string s).

(** The table of the class [Resolver] when [yaml] has been imported. *)
Definition Resolver_table : resolvers :=
  add_implicit_resolver tag_yaml yaml_regexp (chars "!&*")
    (add_implicit_resolver tag_value value_regexp (chars "=")
       (add_implicit_resolver tag_timestamp timestamp_regexp (chars "0123456789")
          (add_implicit_resolver tag_null null_regexp (chars "~nN" ++ [Empty])
             (add_implicit_resolver tag_merge merge_regexp (chars "<")
                (add_implicit_resolver tag_int int_regexp (chars "-+0123456789")
                   (add_implicit_resolver tag_float float_regexp (chars "-+0123456789.")
                      (add_implicit_resolver tag_bool bool_regexp (chars "yYnNtTfFoO")
                         []))))))).

(** [resolve(ScalarNode, value, (True, False))]: the tag of a plain
    scalar. *)
Definition resolve (tbl : resolvers) (value : string) : tag :=
  let key := match value with
             | EmptyString => Empty
             | String c _ => Char c
             end in
  let get k := match table_get k tbl with Some l => l | None => [] end in
  match find (fun tr => full_match (snd tr) value) (get key ++ get Wildcard) with
  | Some (t, _) => t
  | None => tag_str
  end.

(** *** Classes and the attribute they share *)

Inductive class : Type :=
| BaseResolver | Resolver
| SafeLoader | SafeDumper
| WorkflowYAMLLoader | WorkflowYAMLDumper.

(** The base class through which a class inherits
    [yaml_implicit_resolvers]. *)
Definition base (c : class) : option class :=
  match c with
  | WorkflowYAMLLoader => Some SafeLoader
  | WorkflowYAMLDumper => Some SafeDumper
  | SafeLoader => Some Resolver
  | SafeDumper => Some Resolver
  | Resolver => Some BaseResolver
  | BaseResolver => None
  end.

Definition class_eqb (a b : class) : bool :=
  match a, b with
  | BaseResolver, BaseResolver | Resolver, Resolver | SafeLoader, SafeLoader
  | SafeDumper, SafeDumper | WorkflowYAMLLoader, WorkflowYAMLLoader
  | WorkflowYAMLDumper, WorkflowYAMLDumper => true
  | _, _ => false
  end.

(** The interpreter state that matters: which class has a
    [yaml_implicit_resolvers] of its own, as a reference to a dict object,
    and the contents of the dict objects. *)
Record store : Type := {
  own : class -> option nat;
  heap : nat -> resolvers
}.

(** The state when [yaml] has been imported: [BaseResolver] has the empty
    dict, [Resolver] has the dict that [add_implicit_resolver] made for it,
    and no other class has one of its own. *)
Definition imported : store :=
  {| own := fun c => match c with
                     | BaseResolver => Some 0
                     | Resolver => Some 1
                     | _ => None
                     end;
     heap := fun r => match r with
                      | 1 => Resolver_table
                      | _ => []
                      end |}.

(** [cls.yaml_implicit_resolvers]: the attribute of the class or of the
    nearest base that has one. *)
Fixpoint getattr_from (depth : nat) (st : store) (c : class) : option nat :=
  match own st c with
  | Some r => Some r
  | None =>
      match depth, base c with
      | S n, Some b => getattr_from n st b
      | _, _ => None
      end
  end.

Definition getattr (st : store) (c : class) : option nat := getattr_from 3 st c.

(** [obj[k] = l] on the dict object [r] *)
Definition heap_set (r : nat) (k : first) (l : list (tag * re)) (st : store) : store :=
  {| own := own st;
     heap := fun r' => if Nat.eqb r' r then table_set k l (heap st r) else heap st r' |}.

(** One turn of the loop at the top of [workflow_parser.py]:
    [if ch in C.yaml_implicit_resolvers: C.yaml_implicit_resolvers[ch] =
    [(tag, regexp) for ... if tag != 'tag:yaml.org,2002:bool']], with
    [C = WorkflowYAMLLoader]. *)
Definition strip_bool (st : store) (ch : ascii) : store :=
  match getattr st WorkflowYAMLLoader with
  | Some r =>
      match table_get (Char ch) (heap st r) with
      | Some l =>
          heap_set r (Char ch) (filter (fun tr => negb (tag_eqb (fst tr) tag_bool)) l) st
      | None => st
      end
  | None => st
  end.

(** The state when [workflow_parser] has been imported:
    [for ch in "OoYyNn": ...]. *)
Definition module_loaded : store :=
  fold_left strip_bool (list_ascii_of_string "OoYyNn") imported.

(** The table that an instance of the class resolves with. *)
Definition table_of (st : store) (c : class) : resolvers :=
  match getattr st c with
  | Some r => heap st r
  | None => []
  end.

(** *** Representation *)

(** The node that a representer makes of a scalar: tag, text, and whether
    the literal block style is asked for. *)
Record scalar_node : Type := {
  node_tag : tag;
  node_value : string;
  node_literal : bool
}.

(** [represent_str] of [workflow_parser.py], registered for
    [WorkflowYAMLDumper]. *)
Definition represent_str (data : string) : scalar_node :=
  if has_newline data then
    let lines := split_lines data in
    let cleaned_data := join (String newline EmptyString) (map rstrip lines) in
    {| node_tag := tag_str; node_value := cleaned_data; node_literal := true |}
  else {| node_tag := tag_str; node_value := data; node_literal := false |}.

(** The representers of [SafeRepresenter] for [None], [bool] and [int], and
    [represent_str] for [str]. *)
Definition represent_atom (a : atom) : scalar_node :=
  match a with
  | ANone => {| node_tag := tag_null; node_value := "null"; node_literal := false |}
  | ABool b =>
      {| node_tag := tag_bool;
         node_value := if b then "true" else "false";
         node_literal := false |}
  | AInt n => {| node_tag := tag_int; node_value := str_of_Z n; node_literal := false |}
  | AStr s => represent_str s
  end.

(** What [represent_str] makes of a string, of a scalar and of a document:
    trailing white space is stripped from every line of a string that has
    several lines. *)
Definition clean_str (s : string) : string := node_value (represent_str s).

Definition clean_atom (a : atom) : atom :=
  match a with
  | AStr s => AStr (clean_str s)
  | _ => a
  end.

Fixpoint clean (v : value) : value :=
  match v with
  | Atom a => Atom (clean_atom a)
  | List l => List (map clean l)
  | Dict d => Dict (map (fun kv => (clean_atom (fst kv), clean (snd kv))) d)
  end.

(** *** Texts *)

(** A scalar on the page: its explicit tag if it has one, whether it is
    plain (unquoted), and its text. *)
Inductive tree : Type :=
| Scalar (explicit : option tag) (plain : bool) (value : string)
| Seq (l : list tree)
| Map (l : list (tree * tree)).

Inductive text : Type :=
| Unparsable
| Parsed (t : tree).

Section Emitter.

(** The verdict of the emitter's analysis of a scalar: the plain style is
    allowed. *)
Variable allow_plain : string -> bool.

(** The table of the dumper. *)
Variable tbl : resolvers.

(** The style and the tag that the emitter writes: plain and no tag when no
    style is asked for, the text resolves to the tag of the node and the
    analysis allows it; otherwise not plain, with the tag unless it is the
    default tag of scalars. *)
Definition emit_scalar (n : scalar_node) : tree :=
  if negb (node_literal n) && tag_eqb (resolve tbl (node_value n)) (node_tag n)
     && allow_plain (node_value n)
  then Scalar None true (node_value n)
  else if tag_eqb (node_tag n) tag_str then Scalar None false (node_value n)
  else Scalar (Some (node_tag n)) false (node_value n).

(** [yaml.dump(data, Dumper=WorkflowYAMLDumper, sort_keys=False, ...)] *)
Fixpoint dump_tree (data : value) : tree :=
  match data with
  | Atom a => emit_scalar (represent_atom a)
  | List l => Seq (map dump_tree l)
  | Dict d => Map (map (fun kv => (emit_scalar (represent_atom (fst kv)), dump_tree (snd kv))) d)
  end.

End Emitter.

(** *** Construction *)

Fixpoint remove_char (c : ascii) (s : string) : string :=
  match s with
  | EmptyString => EmptyString
  | String x r => if Ascii.eqb c x then remove_char c r else String x (remove_char c r)
  end.

Definition digit_value (c : ascii) : option Z :=
  let n := nat_of_ascii c in
  if ((48 <=? n) && (n <=? 57))%nat then Some (Z.of_nat (n - 48))
  else if ((97 <=? n) && (n <=? 102))%nat then Some (Z.of_nat (n - 87))
  else if ((65 <=? n) && (n <=? 70))%nat then Some (Z.of_nat (n - 55))
  else None.

(** [int(s, base)] on a string of digits *)
Fixpoint digits_from (base acc : Z) (s : string) : option Z :=
  match s with
  | EmptyString => Some acc
  | String c r =>
      match digit_value c with
      | Some v => if (v <? base)%Z then digits_from base (acc * base + v) r else None
      | None => None
      end
  end.

Definition int_of (base : Z) (s : string) : result Z :=
  match s with
  | EmptyString => Raise (ValueError "invalid literal for int()")
  | _ =>
      match digits_from base 0 s with
      | Some n => Ok n
      | None => Raise (ValueError "invalid literal for int()")
      end
  end.

(** [int(s)] on a string of decimal digits *)
Definition int_decimal (s : string) : result Z :=
  match NilZero.uint_of_string s with
  | Some u => Ok (Z.of_uint u)
  | None => Raise (ValueError "invalid literal for int()")
  end.

(** The parts of a string between colons, and their value in base 60 *)
Fixpoint split_colon (s : string) : list string :=
  match s with
  | EmptyString => [EmptyString]
  | String c r =>
      if Ascii.eqb c ":" then EmptyString :: split_colon r
      else match split_colon r with
           | [] => [String c EmptyString]
           | p :: ps => String c p :: ps
           end
  end.

Definition base60 (s : string) : result Z :=
  fold_left
    (fun acc part => a <- acc ;; d <- int_decimal part ;; Ok (a * 60 + d)%Z)
    (split_colon s) (Ok 0%Z).

(** [construct_yaml_int] *)
Definition construct_yaml_int (value : string) : result Z :=
  let value := remove_char "_" value in
  match value with
  | EmptyString => Raise IndexError
  | String c rest =>
      let sign := if Ascii.eqb c "-" then (-1)%Z else 1%Z in
      let value := if Ascii.eqb c "-" || Ascii.eqb c "+" then rest else value in
      if String.eqb value "0" then Ok 0%Z
      else if String.prefix "0b" value then
        n <- int_of 2 (String.substring 2 (String.length value - 2) value) ;; Ok (sign * n)%Z
      else if String.prefix "0x" value then
        n <- int_of 16 (String.substring 2 (String.length value - 2) value) ;; Ok (sign * n)%Z
      else
        match value with
        | EmptyString => Raise IndexError
        | String c0 _ =>
            if Ascii.eqb c0 "0" then n <- int_of 8 value ;; Ok (sign * n)%Z
            else if Repr.has_char ":" value then n <- base60 value ;; Ok (sign * n)%Z
            else n <- int_decimal value ;; Ok (sign * n)%Z
        end
  end.

(** [bool_values[value.lower()]] *)
Definition construct_yaml_bool (value : string) : result bool :=
  let v := lower value in
  if String.eqb v "yes" || String.eqb v "true" || String.eqb v "on" then Ok true
  else if String.eqb v "no" || String.eqb v "false" || String.eqb v "off" then Ok false
  else Raise KeyError.

(** The object that the constructor for the tag makes of the text.  The
    tags of floats, timestamps, merge keys and value keys lead out of the
    universe of values; the model stops there with the library's error. *)
Definition construct_scalar (t : tag) (value : string) : result atom :=
  match t with
  | tag_str => Ok (AStr value)
  | tag_null => Ok ANone
  | tag_bool => b <- construct_yaml_bool value ;; Ok (ABool b)
  | tag_int => n <- construct_yaml_int value ;; Ok (AInt n)
  | _ => Raise YAMLError
  end.

Section Loader.

(** The table of the loader. *)
Variable tbl : resolvers.

(** The tag of a scalar: its explicit tag, the tag that its text resolves
    to when it is plain, the tag of strings otherwise. *)
Definition scalar_tag (explicit : option tag) (plain : bool) (value : string) : tag :=
  match explicit with
  | Some t => t
  | None => if plain then resolve tbl value else tag_str
  end.

(** Composition and construction: [yaml.load] on a parsed text.  The key of
    a mapping has to be hashable; [mapping[key] = value] keeps the first
    place of a key that comes twice. *)
Fixpoint construct (t : tree) : result value :=
  match t with
  | Scalar explicit plain value =>
      a <- construct_scalar (scalar_tag explicit plain value) value ;; Ok (Atom a)
  | Seq l =>
      l' <- (fix all (l : list tree) : result (list value) :=
               match l with
               | [] => Ok []
               | x :: r => y <- construct x ;; ys <- all r ;; Ok (y :: ys)
               end) l ;;
      Ok (List l')
  | Map l =>
      d <- (fix all (l : list (tree * tree)) (mapping : entries) : result entries :=
              match l with
              | [] => Ok mapping
              | kv :: r =>
                  key <- construct (fst kv) ;;
                  match key with
                  | Atom a =>
                      value <- construct (snd kv) ;;
                      all r (dict_set a value mapping)
                  | _ => Raise YAMLError
                  end
              end) l [] ;;
      Ok (Dict d)
  end.

Definition load_text (content : text) : result value :=
  match content with
  | Unparsable => Raise YAMLError
  | Parsed t => construct t
  end.

End Loader.

(** The part of the emitter's analysis that allows the plain style, on ASCII
    text outside a flow collection: the text is not empty, has no leading or
    trailing space, no line break and no control character, does not open
    with an indicator, and has no colon before a space or at its end and no
    hash after a space. *)
Definition is_blank (c : ascii) : bool :=
  let n := nat_of_ascii c in
  ((n =? 0) || (n =? 32) || (n =? 9) || (n =? 13) || (n =? 10))%nat.

Fixpoint inner_ok (prev : ascii) (s : string) : bool :=
  match s with
  | EmptyString => negb (Ascii.eqb prev " ")
  | String c r =>
      let n := nat_of_ascii c in
      let followed := match r with
                      | EmptyString => true
                      | String c' _ => is_blank c'
                      end in
      ((32 <=? n) && negb (n =? 127))%nat
      && negb (Ascii.eqb c ":" && followed)
      && negb (Ascii.eqb c "#" && is_blank prev)
      && inner_ok c r
  end.

Definition plain_allowed (s : string) : bool :=
  match s with
  | EmptyString => false
  | String c r =>
      let followed := match r with
                      | EmptyString => true
                      | String c' _ => is_blank c'
                      end in
      negb (String.prefix "---" s) && negb (String.prefix "..." s)
      && negb (Repr.has_char c "#,[]{}&*!|>'%@`") && negb (Ascii.eqb c Repr.quote2)
      && negb (Ascii.eqb c " ")
      && negb ((Ascii.eqb c "?" || Ascii.eqb c ":" || Ascii.eqb c "-") && followed)
      && inner_ok "a" s
  end.

(** [yaml.load(content, Loader=WorkflowYAMLLoader)], [yaml.safe_load] and
    [yaml.dump(data, Dumper=WorkflowYAMLDumper, ...)] in the state that the
    import of [workflow_parser] leaves. *)
Definition load (content : text) : result value :=
  load_text (table_of module_loaded WorkflowYAMLLoader) content.

Definition safe_load (content : text) : result value :=
  load_text (table_of module_loaded SafeLoader) content.

Definition dump (data : value) : text :=
  Parsed (dump_tree plain_allowed (table_of module_loaded WorkflowYAMLDumper) data).


(** The entries of a mapping as [represent_str] leaves them. *)
Definition clean_entries (d : entries) : entries :=
  map (fun kv => (clean_atom (fst kv), clean (snd kv))) d.

End PyYAML.

(** ** The engine on document text

    The functions of the two modules as they are called, from text to text,
    over the library's [yaml.load], [yaml.safe_load] and [yaml.dump].  What
    a function prints is part of its result. *)

Module Engine.

Import WorkflowParser DuplicateDetector.

(** A line printed by an [except] clause: its prefix and the exception. *)
Inductive printed : Type :=
| Print (message : string) (e : exn).

Section Text.

Context {text : Type}.

(** [yaml.load(content, Loader=WorkflowYAMLLoader)] *)
Variable yaml_load : text -> result value.

(** [yaml.safe_load(content)] *)
Variable yaml_safe_load : text -> result value.

(** [yaml.dump(data, Dumper=WorkflowYAMLDumper, default_flow_style=False,
    sort_keys=False, ...)] *)
Variable yaml_dump : value -> text.

Definition parse_workflow (content : text) : result WorkflowStructure :=
  match yaml_safe_load content with
  | Raise YAMLError => Raise (ValueError "Invalid YAML")
  | Raise e => Raise e
  | Ok workflow_dict => parse_loaded workflow_dict
  end.

Definition merge_job_into_workflow (workflow_content job_yaml : text) (job_id : string)
    (insert_after : option string) : result text :=
  workflow_dict <- yaml_load workflow_content ;;
  job_dict <- yaml_load job_yaml ;;
  merged <- merge_job workflow_dict job_dict job_id insert_after ;;
  Ok (yaml_dump merged).

Definition insert_step_into_job (workflow_content step_yaml : text)
    (target_job insert_position : string) : result text :=
  workflow_dict <- yaml_load workflow_content ;;
  step_data <- yaml_load step_yaml ;;
  inserted <- insert_step workflow_dict step_data target_job insert_position ;;
  Ok (yaml_dump inserted).

Definition normalize_yaml_content (content : text) : value * list printed :=
  match yaml_load content with
  | Ok parsed => (parsed, [])
  | Raise e => (Dict [], [Print "Error normalizing YAML" e])
  end.

Definition detect_job_duplicates (workflow_content template_content : text)
    (template_name : string) (template_id : Z) : list job_match * list printed :=
  let (workflow_data, out1) := normalize_yaml_content workflow_content in
  let (template_data, out2) := normalize_yaml_content template_content in
  match job_duplicates workflow_data template_data template_name template_id with
  | Ok duplicates => (duplicates, out1 ++ out2)
  | Raise e => ([], out1 ++ out2 ++ [Print "Error detecting job duplicates" e])
  end.

Definition detect_step_duplicates (workflow_content template_content : text)
    (template_name : string) (template_id : Z) : list step_match * list printed :=
  let (workflow_data, out1) := normalize_yaml_content workflow_content in
  let (template_data, out2) := normalize_yaml_content template_content in
  match step_duplicates workflow_data template_data template_name template_id with
  | (duplicates, None) => (duplicates, out1 ++ out2)
  | (duplicates, Some e) =>
      (duplicates, out1 ++ out2 ++ [Print "Error detecting step duplicates" e])
  end.

Definition detect_workflow_duplicate (workflow_content template_content : text)
  : bool * list printed :=
  let (workflow_data, out1) := normalize_yaml_content workflow_content in
  let (template_data, out2) := normalize_yaml_content template_content in
  (workflow_duplicate workflow_data template_data, out1 ++ out2).

Definition remove_job_from_workflow (workflow_content : text) (job_name : string)
  : text * list printed :=
  match (workflow_data <- yaml_load workflow_content ;; remove_job workflow_data job_name) with
  | Ok (Some modified) => (yaml_dump modified, [])
  | Ok None => (workflow_content, [])
  | Raise e => (workflow_content, [Print "Error removing job from workflow" e])
  end.

Definition remove_steps_from_job (workflow_content : text) (job_name : string)
    (step_indices : list Z) : text * list printed :=
  match (workflow_data <- yaml_load workflow_content ;;
         remove_steps workflow_data job_name step_indices) with
  | Ok (Some modified) => (yaml_dump modified, [])
  | Ok None => (workflow_content, [])
  | Raise e => (workflow_content, [Print "Error removing steps from job" e])
  end.

(** The text is not a valid structured mapping: the loader fails, or what
    it returns is not a dict. *)
Definition malformed (load : text -> result value) (content : text) : Prop :=
  forall d : entries, load content <> Ok (Dict d).

(** [analyze_workflow] *)
Definition analyze_workflow (content : text) (file_name : string)
  : result WorkflowAnalysis :=
  structure <- parse_workflow content ;;
  analysis structure file_name.


(** *** [detect_all_duplicates] *)

(** [not content] for a text: it is the empty string. *)
Variable is_empty : text -> bool.

(** A template as [detect_all_duplicates] reads it: [t_content] and
    [t_type] are what [template.get('content')] and
    [template.get('template_type')] find, [None] when the key is absent. *)
Record Template : Type := {
  t_id : Z;
  t_name : string;
  t_content : option text;
  t_type : option string
}.

(** The dictionary [results]; the keys [job_duplicates] and
    [step_duplicates] are the fields [dup_jobs] and [dup_steps]. *)
Record Results : Type := {
  workflow_file : string;
  has_duplicates : bool;
  complete_workflow_duplicate : option workflow_match;
  dup_jobs : list job_match;
  dup_steps : list step_match
}.

(** The loop over the templates: the results so far and what has been
    printed so far. *)
Fixpoint scan_templates (workflow_content : text) (templates : list Template)
    (results : Results) (out : list printed) : Results * list printed :=
  match templates with
  | [] => (results, out)
  | template :: rest =>
      match t_content template with
      | None => scan_templates workflow_content rest results out
      | Some template_content =>
          if is_empty template_content
          then scan_templates workflow_content rest results out
          else
            let template_type :=
              match t_type template with
              | Some s => s
              | None => "workflow"
              end in
            if String.eqb template_type "workflow" then
              let (workflow_dup, o) :=
                detect_workflow_duplicate workflow_content template_content in
              if workflow_dup then
                (* If entire workflow is duplicate, no need to check further *)
                ({| workflow_file := workflow_file results;
                    has_duplicates := true;
                    complete_workflow_duplicate :=
                      Some (workflow_match_of (t_name template) (t_id template));
                    dup_jobs := dup_jobs results;
                    dup_steps := dup_steps results |},
                 out ++ o)
              else scan_templates workflow_content rest results (out ++ o)
            else if String.eqb template_type "job" then
              let (job_dups, o) :=
                detect_job_duplicates workflow_content template_content
                  (t_name template) (t_id template) in
              scan_templates workflow_content rest
                (match job_dups with
                 | [] => results
                 | _ =>
                     {| workflow_file := workflow_file results;
                        has_duplicates := true;
                        complete_workflow_duplicate := complete_workflow_duplicate results;
                        dup_jobs := dup_jobs results ++ job_dups;
                        dup_steps := dup_steps results |}
                 end)
                (out ++ o)
            else if String.eqb template_type "step" then
              let (step_dups, o) :=
                detect_step_duplicates workflow_content template_content
                  (t_name template) (t_id template) in
              scan_templates workflow_content rest
                (match step_dups with
                 | [] => results
                 | _ =>
                     {| workflow_file := workflow_file results;
                        has_duplicates := true;
                        complete_workflow_duplicate := complete_workflow_duplicate results;
                        dup_jobs := dup_jobs results;
                        dup_steps := dup_steps results ++ step_dups |}
                 end)
                (out ++ o)
            else scan_templates workflow_content rest results out
      end
  end.

Definition detect_all_duplicates (workflow_content : text) (workflow_file_path : string)
    (templates : list Template) : Results * list printed :=
  scan_templates workflow_content templates
    {| workflow_file := workflow_file_path;
       has_duplicates := false;
       complete_workflow_duplicate := None;
       dup_jobs := [];
       dup_steps := [] |}
    [].

(** *** [main.py], [remove_duplicates]: the removals it applies *)

(** An item of [duplicates_to_remove], as the detectors report it and the
    request sends it back: [r_type], [r_job_name] and [r_step_indices] are
    what [d.get("type")], [d.get("job_name")] and [d.get("step_indices")]
    find, [None] when the key is absent. *)
Record Removal : Type := {
  r_type : option string;
  r_job_name : option string;
  r_step_indices : option (list Z)
}.

(** [d.get("type") == kind] *)
Definition has_type (kind : string) (d : Removal) : bool :=
  match r_type d with
  | Some s => String.eqb s kind
  | None => false
  end.

(** The block that applies the removals: the jobs first, then the runs of
    steps, each on the text that the removal before it returned. *)
Definition apply_removals (original_content : text) (duplicates_to_remove : list Removal)
  : text * list printed :=
  let jobs_to_remove := filter (has_type "job") duplicates_to_remove in
  let steps_to_remove := filter (has_type "steps") duplicates_to_remove in
  let after_jobs :=
    fold_left
      (fun (acc : text * list printed) job_dup =>
         let (modified_content, out) := acc in
         match r_job_name job_dup with
         | Some job_name =>
             if negb (String.eqb job_name EmptyString) then
               let (modified_content, o) :=
                 remove_job_from_workflow modified_content job_name in
               (modified_content, out ++ o)
             else acc
         | None => acc
         end)
      jobs_to_remove (original_content, []) in
  fold_left
    (fun (acc : text * list printed) step_dup =>
       let (modified_content, out) := acc in
       let step_indices :=
         match r_step_indices step_dup with
         | Some l => l
         | None => []
         end in
       match r_job_name step_dup with
       | Some job_name =>
           if negb (String.eqb job_name EmptyString)
              && negb (Nat.eqb (List.length step_indices) 0)
           then
             let (modified_content, o) :=
               remove_steps_from_job modified_content job_name step_indices in
             (modified_content, out ++ o)
           else acc
       | None => acc
       end)
    steps_to_remove after_jobs.

End Text.

End Engine.

(** ** Sample documents and fragments *)

Module Examples.

Definition step (name run : string) : value :=
  Dict [(AStr "name", VStr name); (AStr "run", VStr run)].

Definition checkout : value :=
  Dict [(AStr "name", VStr "Checkout code"); (AStr "uses", VStr "actions/checkout@v4")].

Definition build_step : value := step "Build" "npm run build".
Definition test_step : value := step "Test" "npm test".
Definition install_step : value := step "Install dependencies" "npm install".
Definition upload : value :=
  Dict [(AStr "name", VStr "Upload"); (AStr "uses", VStr "actions/upload-artifact@v4")].

Definition scan_step : value :=
  Dict [(AStr "name", VStr "Polaris Security Scan");
        (AStr "uses", VStr "blackduck-inc/black-duck-security-scan@v2")].

Definition job (ss : list value) : value :=
  Dict [(AStr "runs-on", VStr "ubuntu-latest"); (AStr "steps", List ss)].

Definition deploy_job : value := job [step "Deploy" "./deploy.sh"].

(** A job fragment: the body of a job that runs the scan. *)
Definition scan_job : value := job [checkout; scan_step].

Definition build_job_entries : entries :=
  [(AStr "runs-on", VStr "ubuntu-latest");
   (AStr "steps", List [checkout; build_step; test_step; upload])].

Definition ci_jobs : entries :=
  [(AStr "build", Dict build_job_entries); (AStr "deploy", deploy_job)].

Definition ci_entries : entries :=
  [(AStr "name", VStr "CI");
   (AStr "on", List [VStr "push"; VStr "pull_request"]);
   (AStr "jobs", Dict ci_jobs)].

(** A workflow with the jobs [build] and [deploy]. *)
Definition ci : value := Dict ci_entries.

(** A job whose build step is followed by a step that installs. *)
Definition install_job_entries : entries :=
  [(AStr "runs-on", VStr "ubuntu-latest");
   (AStr "steps", List [build_step; install_step; upload])].

Definition install_jobs : entries := [(AStr "build", Dict install_job_entries)].

Definition install_entries : entries :=
  [(AStr "name", VStr "CI"); (AStr "on", VStr "push"); (AStr "jobs", Dict install_jobs)].

(** A job body that has [steps] as its only key. *)
Definition steps_only_job : value := Dict [(AStr "steps", List [checkout; scan_step])].

(** The scan job with its keys in the other order. *)
Definition scan_job_permuted : value :=
  Dict [(AStr "steps", List [checkout; scan_step]); (AStr "runs-on", VStr "ubuntu-latest")].

(** The scan job with its two steps in the other order. *)
Definition scan_job_reordered : value := job [scan_step; checkout].

Definition scanned_jobs : entries :=
  [(AStr "build", Dict build_job_entries);
   (AStr "scan", scan_job_permuted);
   (AStr "late-scan", scan_job_reordered)].

(** A workflow that already holds the scan job. *)
Definition scanned_entries : entries :=
  [(AStr "name", VStr "CI"); (AStr "on", VStr "push"); (AStr "jobs", Dict scanned_jobs)].

Definition twice_jobs : entries :=
  [(AStr "twice", job [checkout; build_step; checkout; build_step])].

(** A workflow whose only job runs the same two steps twice. *)
Definition twice_entries : entries :=
  [(AStr "name", VStr "CI"); (AStr "jobs", Dict twice_jobs)].

(** A workflow with a job that only tests, followed by a job that builds
    and tests. *)
Definition pipeline_entries : entries :=
  [(AStr "name", VStr "CI");
   (AStr "on", VStr "push");
   (AStr "jobs",
    Dict [(AStr "unit", job [checkout; step "Unit tests" "pytest -q"]);
          (AStr "all", job [checkout; build_step; test_step])])].

(** A job that spreads one build command over two steps. *)
Definition split_command_job : WorkflowParser.WorkflowJob :=
  {| WorkflowParser.name := VStr "package";
     WorkflowParser.runs_on := VStr "ubuntu-latest";
     WorkflowParser.steps :=
       List [Dict [(AStr "run", VStr "mvn")]; Dict [(AStr "run", VStr "package")]];
     WorkflowParser.needs := VNone;
     WorkflowParser.if_condition := VNone;
     WorkflowParser.strategy := VNone;
     WorkflowParser.environment := VNone |}.

Definition pipeline_structure : WorkflowParser.WorkflowStructure :=
  match WorkflowParser.parse_loaded (Dict pipeline_entries) with
  | Ok structure => structure
  | Raise _ =>
      {| WorkflowParser.workflow_name := VNone;
         WorkflowParser.on_triggers := VNone;
         WorkflowParser.jobs := [];
         WorkflowParser.env := VNone;
         WorkflowParser.defaults := VNone |}
  end.

Definition line_feed : string := String newline EmptyString.

(** A command of two lines, the first of which ends in two spaces. *)
Definition padded_script : string :=
  ("echo hi  " ++ line_feed ++ "echo bye" ++ line_feed)%string.

Definition stripped_script : string :=
  ("echo hi" ++ line_feed ++ "echo bye" ++ line_feed)%string.

Definition script_entries (script : string) : entries :=
  [(AStr "on", VStr "push");
   (AStr "jobs",
    Dict [(AStr "build",
           Dict [(AStr "runs-on", VStr "ubuntu-latest");
                 (AStr "steps", List [Dict [(AStr "run", VStr script)]])])])].

(** The text of a workflow whose command is a block scalar with those two
    lines. *)
Definition padded_text : PyYAML.text :=
  let plain s := PyYAML.Scalar None true s in
  PyYAML.Parsed
    (PyYAML.Map
       [(plain "on", plain "push");
        (plain "jobs",
         PyYAML.Map
           [(plain "build",
             PyYAML.Map
               [(plain "runs-on", plain "ubuntu-latest");
                (plain "steps",
                 PyYAML.Seq
                   [PyYAML.Map [(plain "run", PyYAML.Scalar None false padded_script)]])])])]).

(** A text that is a sequence, not a mapping: the one line [- build]. *)
Definition list_text : PyYAML.text :=
  PyYAML.Parsed (PyYAML.Seq [PyYAML.Scalar None true "build"]).

(** The loader classes and the dumper classes. *)
Definition loaders_and_dumpers : list PyYAML.class :=
  [PyYAML.SafeLoader; PyYAML.WorkflowYAMLLoader; PyYAML.SafeDumper;
   PyYAML.WorkflowYAMLDumper].

(** The spellings that YAML 1.1 reads as a truth value and that the module
    takes out of the resolver. *)
Definition switch_words : list string :=
  ["on"; "On"; "ON"; "off"; "Off"; "OFF"; "yes"; "Yes"; "YES"; "no"; "No"; "NO"].

(** A workflow that runs on pull requests, with a job that is left empty
    between two jobs that are mappings. *)
Definition skipped_jobs : entries :=
  [(AStr "build", Dict build_job_entries);
   (AStr "todo", VNone);
   (AStr "deploy", deploy_job)].

Definition skipped_entries : entries :=
  [(AStr "on", VStr "pull_request"); (AStr "jobs", Dict skipped_jobs)].


(** A workflow with a job that is an empty mapping. *)
Definition hollow_jobs : entries :=
  [(AStr "build", Dict build_job_entries); (AStr "todo", Dict [])].

Definition hollow_entries : entries :=
  [(AStr "on", VStr "push"); (AStr "jobs", Dict hollow_jobs)].

(** A workflow whose first job has the empty string for its id. *)
Definition unnamed_jobs : entries :=
  [(AStr EmptyString, deploy_job); (AStr "build", Dict build_job_entries)].

Definition unnamed_entries : entries :=
  [(AStr "on", VStr "push"); (AStr "jobs", Dict unnamed_jobs)].

(** A job that sets up a language, builds, tests and scans. *)
Definition full_job : WorkflowParser.WorkflowJob :=
  {| WorkflowParser.name := VStr "build";
     WorkflowParser.runs_on := VStr "ubuntu-latest";
     WorkflowParser.steps :=
       List [checkout;
             Dict [(AStr "name", VStr "Set up Node");
                   (AStr "uses", VStr "actions/setup-node@v4")];
             build_step;
             test_step;
             step "Scan" "snyk test";
             step "Build again" "npm run build"];
     WorkflowParser.needs := VNone;
     WorkflowParser.if_condition := VNone;
     WorkflowParser.strategy := VNone;
     WorkflowParser.environment := VNone |}.

(** A job fragment whose command has a line that ends in two spaces, and
    its text, with the command as a quoted scalar. *)
Definition padded_job : value := job [Dict [(AStr "run", VStr padded_script)]].

Definition padded_job_text : PyYAML.text :=
  let plain s := PyYAML.Scalar None true s in
  PyYAML.Parsed
    (PyYAML.Map
       [(plain "runs-on", plain "ubuntu-latest");
        (plain "steps",
         PyYAML.Seq [PyYAML.Map [(plain "run", PyYAML.Scalar None false padded_script)]])]).
End Examples.

(** * Properties *)

Import WorkflowParser DuplicateDetector Spec.

(** ** Keys and dictionaries *)

Section Keys.

Lemma key_eqb_refl (k : atom) : key_eqb k k = true.
Proof.
  destruct k as [| b | n | s]; simpl.
  - reflexivity.
  - apply Bool.eqb_reflx.
  - apply Z.eqb_refl.
  - apply String.eqb_refl.
Qed.

Lemma key_eqb_sym (a b : atom) : key_eqb a b = key_eqb b a.
Proof.
  destruct a as [| x | x | x], b as [| y | y | y]; simpl;
    first [ reflexivity
          | apply Z.eqb_sym
          | apply String.eqb_sym
          | destruct x, y; reflexivity ].
Qed.

Lemma key_eqb_true_iff (a b : atom) :
  key_eqb a b = true <->
  match key_num a, key_num b with
  | Some x, Some y => x = y
  | None, None => a = b
  | _, _ => False
  end.
Proof.
  destruct a as [| x | x | x], b as [| y | y | y]; simpl;
    first [ split; discriminate
          | split; [discriminate | intros []]
          | split; reflexivity
          | apply Z.eqb_eq
          | rewrite String.eqb_eq; split; congruence
          | destruct x, y; simpl; split; congruence ].
Qed.

Lemma key_eqb_trans (a b c : atom) :
  key_eqb a b = true -> key_eqb b c = true -> key_eqb a c = true.
Proof.
  rewrite !key_eqb_true_iff.
  destruct (key_num a), (key_num b), (key_num c); try tauto; congruence.
Qed.

Lemma key_eqb_str (s : string) (k : atom) :
  key_eqb (AStr s) k = true <-> k = AStr s.
Proof.
  destruct k; simpl; try (split; discriminate).
  rewrite String.eqb_eq. split; congruence.
Qed.

Lemma key_eqb_str_r (s : string) (k : atom) :
  key_eqb k (AStr s) = true <-> k = AStr s.
Proof. rewrite key_eqb_sym. apply key_eqb_str. Qed.

(** Two keys that are equal as keys select the same entries. *)
Lemma key_eqb_congr (a b c : atom) :
  key_eqb a b = true -> key_eqb a c = key_eqb b c.
Proof.
  intros Hab.
  destruct (key_eqb b c) eqn:Hbc.
  - eapply key_eqb_trans; eassumption.
  - destruct (key_eqb a c) eqn:Hac; [| reflexivity].
    rewrite key_eqb_sym in Hab.
    rewrite <- Hbc. symmetry. eapply key_eqb_trans; eassumption.
Qed.

Context {V : Type}.
Implicit Types (d : list (atom * V)) (k : atom) (v : V).

Lemma dict_has_app k d1 d2 :
  dict_has k (d1 ++ d2) = dict_has k d1 || dict_has k d2.
Proof. unfold dict_has. apply existsb_app. Qed.

Lemma dict_has_get k d :
  dict_has k d = true <-> exists v, dict_get k d = Some v.
Proof.
  induction d as [| [k' v'] r IH]; simpl.
  - split; [discriminate | intros [v Hv]; discriminate].
  - destruct (key_eqb k k'); simpl.
    + split; eauto.
    + exact IH.
Qed.

Lemma dict_get_none k d : dict_has k d = false <-> dict_get k d = None.
Proof.
  induction d as [| [k' v'] r IH]; simpl.
  - tauto.
  - destruct (key_eqb k k'); simpl; [split; discriminate | exact IH].
Qed.

Lemma dict_has_congr k k' d :
  key_eqb k k' = true -> dict_has k d = dict_has k' d.
Proof.
  intros H. unfold dict_has.
  induction d as [| kv r IH]; simpl; [reflexivity |].
  rewrite (key_eqb_congr _ _ (fst kv) H), IH. reflexivity.
Qed.

Lemma dict_get_congr k k' d :
  key_eqb k k' = true -> dict_get k d = dict_get k' d.
Proof.
  intros H. induction d as [| [k0 v0] r IH]; simpl; [reflexivity |].
  rewrite (key_eqb_congr _ _ k0 H), IH. reflexivity.
Qed.

(** A new key goes to the end. *)
Lemma dict_set_fresh k v d :
  dict_has k d = false -> dict_set k v d = d ++ [(k, v)].
Proof.
  induction d as [| [k' v'] r IH]; simpl; [reflexivity |].
  destruct (key_eqb k k'); simpl; [discriminate |].
  intros H. rewrite IH by exact H. reflexivity.
Qed.


Lemma dict_get_set_same k v d : dict_get k (dict_set k v d) = Some v.
Proof.
  induction d as [| [k0 v0] r IH]; simpl.
  - rewrite key_eqb_refl. reflexivity.
  - destruct (key_eqb k k0) eqn:E; simpl; rewrite E; [reflexivity | exact IH].
Qed.

Lemma dict_get_set_other k k' v d :
  key_eqb k k' = false -> dict_get k (dict_set k' v d) = dict_get k d.
Proof.
  intros Hne. induction d as [| [k0 v0] r IH]; simpl.
  - rewrite Hne. reflexivity.
  - destruct (key_eqb k' k0) eqn:E; simpl.
    + rewrite key_eqb_sym in Hne.
      assert (key_eqb k k0 = false) as ->.
      { rewrite key_eqb_sym, <- (key_eqb_congr _ _ _ E). exact Hne. }
      reflexivity.
    + rewrite IH. reflexivity.
Qed.

(** An assignment touches no other entry and moves none. *)
Lemma others_set k v d : others k (dict_set k v d) = others k d.
Proof.
  induction d as [| [k0 v0] r IH]; simpl.
  - rewrite key_eqb_refl. reflexivity.
  - destruct (key_eqb k k0) eqn:E; simpl; rewrite E; simpl;
      [reflexivity | rewrite IH; reflexivity].
Qed.



Lemma distinct_keys_app d1 d2 :
  distinct_keys (d1 ++ d2) <->
  distinct_keys d1 /\ distinct_keys d2 /\
  (forall kv, In kv d1 -> dict_has (fst kv) d2 = false).
Proof.
  induction d1 as [| [k v] r IH]; simpl.
  - intuition.
  - rewrite dict_has_app, orb_false_iff, IH. split.
    + intros [[H1 H2] [H3 [H4 H5]]]. repeat split; try assumption.
      intros kv [<- | Hin]; [exact H2 | auto].
    + intros [[H1 H2] [H3 H4]]. repeat split; auto.
      apply (H4 (k, v)). left. reflexivity.
Qed.

Lemma distinct_keys_get k v d :
  distinct_keys d -> In (k, v) d -> dict_get k d = Some v.
Proof.
  induction d as [| [k0 v0] r IH]; simpl; [intros _ [] |].
  intros [Hk Hr] [Heq | Hin].
  - inversion Heq; subst. rewrite key_eqb_refl. reflexivity.
  - destruct (key_eqb k k0) eqn:E.
    + exfalso. rewrite (dict_has_congr _ _ _ (eq_trans (key_eqb_sym k0 k) E)) in Hk.
      assert (dict_has k r = true) as Habs.
      { unfold dict_has. apply existsb_exists. exists (k, v).
        split; [exact Hin | apply key_eqb_refl]. }
      congruence.
    + apply IH; assumption.
Qed.

End Keys.

(** ** [merge_job]: the jobs mapping it builds *)

Section MergeJob.

Variables (a job_id : string) (job_dict : value).

Let step (new_jobs : entries) (it : atom * value) : entries :=
  let (existing_job_id, existing_job) := it in
  let new_jobs := dict_set existing_job_id existing_job new_jobs in
  if key_eqb existing_job_id (AStr a)
  then dict_set (AStr job_id) job_dict new_jobs
  else new_jobs.

Lemma dict_has_in {V : Type} (k : atom) (d : list (atom * V)) :
  dict_has k d = true <-> exists kv, In kv d /\ key_eqb k (fst kv) = true.
Proof. unfold dict_has. apply existsb_exists. Qed.

Lemma dict_has_false_in {V : Type} (k : atom) (d : list (atom * V)) :
  dict_has k d = false <-> forall kv, In kv d -> key_eqb k (fst kv) = false.
Proof.
  split.
  - intros H kv Hin. destruct (key_eqb k (fst kv)) eqn:E; [| reflexivity].
    rewrite <- H. symmetry. apply dict_has_in. eauto.
  - intros H. destruct (dict_has k d) eqn:E; [| reflexivity].
    apply dict_has_in in E as [kv [Hin Hk]]. rewrite (H kv Hin) in Hk. discriminate.
Qed.

(** In a dict, a later key is not among the earlier ones either. *)
Lemma distinct_keys_back {V : Type} (d1 d2 : list (atom * V)) :
  distinct_keys (d1 ++ d2) -> forall kv, In kv d2 -> dict_has (fst kv) d1 = false.
Proof.
  intros H kv Hin. apply distinct_keys_app in H as [_ [_ H]].
  apply dict_has_false_in. intros kv1 Hin1.
  rewrite key_eqb_sym.
  exact (proj1 (dict_has_false_in _ _) (H kv1 Hin1) kv Hin).
Qed.

(** The loop copies the entries that [insert_after] does not name. *)
Lemma rebuild_copy (its acc : entries) :
  (forall kv, In kv its -> key_eqb (fst kv) (AStr a) = false) ->
  (forall kv, In kv its -> dict_has (fst kv) acc = false) ->
  distinct_keys its ->
  fold_left step its acc = acc ++ its.
Proof.
  revert acc. induction its as [| [k v] r IH]; intros acc Hna Hacc Hd; simpl.
  - rewrite app_nil_r. reflexivity.
  - pose proof (Hna (k, v) (or_introl eq_refl)) as Hk1.
    pose proof (Hacc (k, v) (or_introl eq_refl)) as Hk2.
    simpl in Hk1, Hk2. rewrite Hk1, (dict_set_fresh k v acc Hk2).
    destruct Hd as [Hk Hr].
    rewrite IH.
    + rewrite <- app_assoc. reflexivity.
    + intros kv Hin. apply Hna. right. exact Hin.
    + intros kv Hin. rewrite dict_has_app, (Hacc kv) by (right; exact Hin).
      simpl. rewrite orb_false_r, key_eqb_sym.
      exact (proj1 (dict_has_false_in _ _) Hk kv Hin).
    + exact Hr.
Qed.

(** With a new [job_id], the loop puts the new job right after the job that
    [insert_after] names. *)
Lemma rebuild_fresh (pre post : entries) (v : value) :
  distinct_keys (pre ++ (AStr a, v) :: post) ->
  dict_has (AStr job_id) (pre ++ (AStr a, v) :: post) = false ->
  rebuild_jobs (pre ++ (AStr a, v) :: post) a job_id job_dict
  = pre ++ (AStr a, v) :: (AStr job_id, job_dict) :: post.
Proof.
  intros Hd Hfresh. unfold rebuild_jobs. fold step.
  rewrite fold_left_app. simpl.
  pose proof Hd as Hd0.
  apply distinct_keys_app in Hd as [Hpre [[Ha Hpost] Hcross]].
  rewrite dict_has_app in Hfresh. apply orb_false_iff in Hfresh as [Hf1 Hf2].
  simpl in Hf2. apply orb_false_iff in Hf2 as [Hf2 Hf3].
  rewrite (rebuild_copy pre []); simpl.
  - rewrite String.eqb_refl.
    rewrite (dict_set_fresh (AStr a)).
    2:{ apply (distinct_keys_back _ _ Hd0 (AStr a, v)). left. reflexivity. }
    rewrite dict_set_fresh.
    2:{ rewrite dict_has_app, Hf1. simpl. rewrite Hf2. reflexivity. }
    rewrite (rebuild_copy post).
    + rewrite <- !app_assoc. reflexivity.
    + intros kv Hin. rewrite key_eqb_sym.
      exact (proj1 (dict_has_false_in _ _) Ha kv Hin).
    + intros kv Hin. rewrite !dict_has_app. simpl.
      rewrite (distinct_keys_back pre ((AStr a, v) :: post) Hd0 kv) by (right; exact Hin).
      rewrite !orb_false_r. apply orb_false_iff. split.
      * rewrite key_eqb_sym. exact (proj1 (dict_has_false_in _ _) Ha kv Hin).
      * rewrite key_eqb_sym. exact (proj1 (dict_has_false_in _ _) Hf3 kv Hin).
    + exact Hpost.
  - intros kv Hin. specialize (Hcross kv Hin). simpl in Hcross.
    apply orb_false_iff in Hcross as [Hc _]. exact Hc.
  - intros kv Hin. reflexivity.
  - exact Hpre.
Qed.






End MergeJob.

(** ** [merge_job] and [insert_step] on a well-formed document *)

Lemma dict_set_set {V : Type} (k : atom) (v v0 : V) (d : list (atom * V)) :
  dict_set k v (dict_set k v0 d) = dict_set k v d.
Proof.
  induction d as [| [k1 v1] r IH]; simpl.
  - rewrite key_eqb_refl. reflexivity.
  - destruct (key_eqb k k1) eqn:E; simpl; rewrite E; [reflexivity | rewrite IH; reflexivity].
Qed.


Lemma dict_has_of_get {V : Type} (k : atom) (v : V) (d : list (atom * V)) :
  dict_get k d = Some v -> dict_has k d = true.
Proof. intros H. apply dict_has_get. eauto. Qed.

(** What [merge_job] returns on a document that is a dict whose jobs, if it
    has any, are a dict. *)
Lemma merge_job_eq (d js : entries) (F : value) (job_id : string)
    (insert_after : option string) :
  doc_jobs d = Some js ->
  merge_job (Dict d) F job_id insert_after
  = Ok (with_jobs
          (if names insert_after js
           then rebuild_jobs js (match insert_after with Some a => a | None => EmptyString end)
                  job_id (unwrap_job F)
           else dict_set (AStr job_id) (unwrap_job F) js)
          d).
Proof.
  unfold doc_jobs, merge_job, with_jobs. intros Hjobs. simpl contains.
  destruct (dict_get (AStr "jobs") d) as [jv |] eqn:Hget.
  - destruct jv as [| | js0]; try discriminate. injection Hjobs as ->.
    rewrite (dict_has_of_get _ _ _ Hget). simpl. rewrite Hget. simpl.
    destruct insert_after as [a |]; simpl.
    + destruct (String.eqb a EmptyString); simpl.
      * reflexivity.
      * destruct (dict_has (AStr a) js); simpl; reflexivity.
    + reflexivity.
  - injection Hjobs as <-.
    rewrite (proj2 (dict_get_none _ _) Hget). simpl.
    rewrite dict_get_set_same. simpl.
    destruct insert_after as [a |]; simpl.
    + destruct (String.eqb a EmptyString); simpl; rewrite dict_set_set; reflexivity.
    + rewrite dict_set_set. reflexivity.
Qed.

(** Inserting in reverse order at one index keeps the order of what is
    inserted. *)
Lemma insert_all_list (ss new : list value) (i : nat) :
  i <= List.length ss ->
  insert_all (List ss) i new = Ok (List (splice i new ss)).
Proof.
  intros Hi. unfold insert_all, splice.
  rewrite <- fold_left_rev_right, rev_involutive.
  induction new as [| x r IH]; simpl.
  - rewrite firstn_skipn. reflexivity.
  - rewrite IH. simpl. unfold list_insert. do 2 f_equal.
    rewrite firstn_app, firstn_firstn, Nat.min_id, length_firstn, Nat.min_l by exact Hi.
    rewrite Nat.sub_diag. simpl. rewrite app_nil_r. f_equal. f_equal.
    rewrite skipn_app, length_firstn, Nat.min_l by exact Hi.
    rewrite Nat.sub_diag. simpl.
    rewrite (skipn_all2 (firstn i ss)) by (rewrite length_firstn; lia).
    reflexivity.
Qed.

(** The loop of [after_build] ends one past the last keyword step. *)
Lemma after_build_index_last (ss : list value) (i insert_index : nat) :
  Forall step_ok ss ->
  after_build_index ss i insert_index
  = Ok (match last_match keyword_step ss with
        | Some m => S (i + m)
        | None => insert_index
        end).
Proof.
  intros Hok. revert i insert_index.
  induction Hok as [| s r Hs Hr IH]; intros i insert_index; simpl.
  - reflexivity.
  - unfold step_ok in Hs. unfold keyword_step at 2.
    destruct (has_build_keyword s) as [b |] eqn:E; [| discriminate]. simpl.
    rewrite IH. destruct (last_match keyword_step r) as [m |].
    + f_equal. lia.
    + destruct b; [f_equal; lia | reflexivity].
Qed.

Lemma after_build_index_bound (ss : list value) (i insert_index n : nat) :
  after_build_index ss i insert_index = Ok n ->
  n <= Nat.max insert_index (i + List.length ss).
Proof.
  revert i insert_index. induction ss as [| s r IH]; intros i insert_index; simpl.
  - intros H. injection H as <-. lia.
  - destruct (has_build_keyword s) as [b |]; simpl; [| discriminate].
    intros H. apply IH in H. destruct b; lia.
Qed.

Lemma position_index_bound (p : string) (ss : list value) (n : nat) :
  position_index p ss = Ok n -> n <= List.length ss.
Proof.
  unfold position_index.
  destruct (String.eqb p "end"); [intros H; injection H as <-; lia |].
  destruct (String.eqb p "after_build").
  - intros H. apply after_build_index_bound in H. lia.
  - destruct (String.eqb p "before_end"); intros H; injection H as <-; lia.
Qed.

(** What [insert_step] returns on a document whose target job is a dict
    with a list of steps. *)
Lemma insert_step_eq (d js j : entries) (ss new_steps : list value)
    (step_data : value) (t p : string) :
  dict_get (AStr "jobs") d = Some (Dict js) ->
  dict_get (AStr t) js = Some (Dict j) ->
  job_steps j = Some ss ->
  fragment_steps step_data = Some new_steps ->
  insert_step (Dict d) step_data t p
  = (i <- position_index p ss ;;
     Ok (with_jobs (dict_set (AStr t) (with_steps (splice i new_steps ss) j) js) d)).
Proof.
  intros Hjobs Hjob Hsteps Hfrag. unfold insert_step.
  assert ((match step_data with
           | Dict _ => Ok [step_data]
           | List l => Ok l
           | Atom _ => Raise (ValueError "Step YAML must be a dict or list")
           end) = Ok new_steps) as ->.
  { destruct step_data; simpl in Hfrag; try discriminate; congruence. }
  simpl. rewrite (dict_has_of_get _ _ _ Hjobs), Hjobs. simpl.
  rewrite (dict_has_of_get _ _ _ Hjob), Hjob. simpl.
  unfold job_steps in Hsteps. unfold position_index, with_jobs, with_steps.
  assert (forall i, i <= List.length ss ->
            insert_all (List ss) i new_steps = Ok (List (splice i new_steps ss))) as Hins.
  { intros i Hi. apply insert_all_list. exact Hi. }
  assert (ss ++ new_steps = splice (List.length ss) new_steps ss) as Hext.
  { unfold splice. rewrite firstn_all, skipn_all, app_nil_r. reflexivity. }
  assert (Z.to_nat (Z.max 0 (Z.of_nat (List.length ss) - 1)) = List.length ss - 1) as Hmax
    by lia.
  destruct (dict_get (AStr "steps") j) as [sv |] eqn:Hget.
  - destruct sv as [| ss0 |]; try discriminate. injection Hsteps as ->.
    rewrite (dict_has_of_get _ _ _ Hget). simpl. rewrite Hget. simpl bind at 1.
    destruct (String.eqb p "end"); [rewrite Hext; reflexivity |].
    destruct (String.eqb p "after_build").
    + simpl. destruct (after_build_index ss 0 (List.length ss)) as [i |] eqn:E; simpl;
        [| reflexivity].
      rewrite Hins; [reflexivity |].
      apply after_build_index_bound in E. lia.
    + destruct (String.eqb p "before_end"); [| rewrite Hext; reflexivity].
      simpl. rewrite Hmax, Hins by lia. reflexivity.
  - injection Hsteps as <-.
    rewrite (proj2 (dict_get_none _ _) Hget). simpl. rewrite dict_get_set_same.
    simpl bind at 1.
    pose proof (Hins 0 (Nat.le_refl 0)) as Hnil.
    destruct (String.eqb p "end");
      [simpl; rewrite dict_set_set; unfold splice; simpl; rewrite app_nil_r; reflexivity |].
    destruct (String.eqb p "after_build");
      [simpl; rewrite Hnil; simpl; rewrite dict_set_set; reflexivity |].
    destruct (String.eqb p "before_end"); simpl.
    + change (Z.to_nat (Z.max 0 (0 - 1))) with 0.
      rewrite Hnil. simpl. rewrite dict_set_set. reflexivity.
    + rewrite dict_set_set. unfold splice. simpl. rewrite app_nil_r. reflexivity.
Qed.

(** ** The merge engine *)

Import Examples Engine.

Section Placement.

Context {text : Type}.
Variables (yaml_load : text -> result value) (yaml_dump : value -> text).

(** C8, as the code has it.  With a job id that is not yet a job,
    [merge_job_into_workflow] returns the dump of the document in which the
    new job stands right after the job that a non-empty [insert_after]
    names, whichever job that is, and at the end of the jobs when
    [insert_after] is absent, empty or names no job. *)
Theorem merge_job_placement (workflow_content job_yaml : text) (d js : entries)
    (F : value) (job_id : string) :
  yaml_load workflow_content = Ok (Dict d) ->
  yaml_load job_yaml = Ok F ->
  doc_jobs d = Some js ->
  distinct_keys js ->
  dict_has (AStr job_id) js = false ->
  (forall (a : string) (pre post : entries) (v : value),
      a <> EmptyString ->
      js = pre ++ (AStr a, v) :: post ->
      merge_job_into_workflow yaml_load yaml_dump workflow_content job_yaml job_id (Some a)
      = Ok (yaml_dump
              (with_jobs (pre ++ (AStr a, v) :: (AStr job_id, unwrap_job F) :: post) d)))
  /\ (forall insert_after : option string,
        names insert_after js = false ->
        merge_job_into_workflow yaml_load yaml_dump workflow_content job_yaml job_id
          insert_after
        = Ok (yaml_dump (with_jobs (js ++ [(AStr job_id, unwrap_job F)]) d))).
Proof.
  intros Hload Hfrag Hjobs Hd Hfresh.
  unfold merge_job_into_workflow. rewrite Hload, Hfrag. cbn [bind]. split.
  - intros a pre post v Ha Hjs.
    rewrite (merge_job_eq d js) by exact Hjobs. cbn [bind].
    assert (names (Some a) js = true) as ->.
    { unfold names. apply String.eqb_neq in Ha. rewrite Ha. simpl.
      subst js. rewrite dict_has_app. simpl. rewrite String.eqb_refl.
      apply orb_true_r. }
    subst js. rewrite rebuild_fresh by assumption. reflexivity.
  - intros insert_after Hn.
    rewrite (merge_job_eq d js) by exact Hjobs. cbn [bind].
    rewrite Hn, dict_set_fresh by exact Hfresh. reflexivity.
Qed.

End Placement.

Lemma merge_job_placement_witness :
  merge_job_into_workflow PyYAML.load PyYAML.dump (PyYAML.dump ci) (PyYAML.dump scan_job)
    "security-scan" (Some "build")
  = Ok (PyYAML.dump
          (with_jobs ([] ++ (AStr "build", Dict build_job_entries)
                         :: (AStr "security-scan", unwrap_job scan_job)
                         :: [(AStr "deploy", deploy_job)]) ci_entries)).
Proof.
  refine (proj1 (merge_job_placement PyYAML.load PyYAML.dump (PyYAML.dump ci)
                   (PyYAML.dump scan_job) ci_entries ci_jobs scan_job "security-scan"
                   _ _ eq_refl (conj eq_refl (conj eq_refl I)) eq_refl)
            "build" [] [(AStr "deploy", deploy_job)] (Dict build_job_entries) _ eq_refl).
  - vm_compute. reflexivity.
  - vm_compute. reflexivity.
  - discriminate.
Defined.

(** C8, as the claim has it, fails.  The job [deploy] is present and named
    by [insert_after], but the id [build] is taken by a job that stands
    before it: the fragment is stored in the place of that job, before
    [deploy].  In the second workflow the first job has the empty string for
    its id; [insert_after] names it, and the new job goes to the end, past
    the job [build]. *)
Lemma merge_job_placement_counterexample :
  PyYAML.load (PyYAML.dump ci) = Ok ci
  /\ PyYAML.load (PyYAML.dump (Dict unnamed_entries)) = Ok (Dict unnamed_entries)
  /\ PyYAML.load (PyYAML.dump scan_job) = Ok scan_job
  /\ dict_has (AStr "deploy") ci_jobs = true
  /\ merge_job_into_workflow PyYAML.load PyYAML.dump (PyYAML.dump ci)
       (PyYAML.dump scan_job) "build" (Some "deploy")
     = Ok (PyYAML.dump
             (Dict [(AStr "name", VStr "CI");
                    (AStr "on", List [VStr "push"; VStr "pull_request"]);
                    (AStr "jobs", Dict [(AStr "build", scan_job);
                                        (AStr "deploy", deploy_job)])]))
  /\ dict_has (AStr EmptyString) unnamed_jobs = true
  /\ dict_has (AStr "scan") unnamed_jobs = false
  /\ merge_job_into_workflow PyYAML.load PyYAML.dump (PyYAML.dump (Dict unnamed_entries))
       (PyYAML.dump scan_job) "scan" (Some EmptyString)
     = Ok (PyYAML.dump
             (Dict [(AStr "on", VStr "push");
                    (AStr "jobs", Dict [(AStr EmptyString, deploy_job);
                                        (AStr "build", Dict build_job_entries);
                                        (AStr "scan", scan_job)])])).
Proof. repeat split; vm_compute; reflexivity. Qed.




(** C9, as the code has it.  A body that is not a dict of one entry is
    inserted as it is, a wrapper around it is stripped, and both shapes give
    the same result; a dict of one entry is always taken for a wrapper, so
    that a body with a single key is replaced by the value of that key. *)
Theorem merge_job_fragment_shapes (D body : value) (k : atom) (job_id : string)
    (insert_after : option string) :
  (forall kv, body <> Dict [kv]) ->
  unwrap_job body = body
  /\ merge_job D (Dict [(k, body)]) job_id insert_after
     = merge_job D body job_id insert_after
  /\ (forall d js : entries,
        D = Dict d ->
        doc_jobs d = Some js ->
        merge_job D body job_id insert_after
        = Ok (with_jobs
                (if names insert_after js
                 then rebuild_jobs js (match insert_after with Some a => a | None => EmptyString end)
                        job_id body
                 else dict_set (AStr job_id) body js)
                d))
  /\ (forall (k' : atom) (inner : value), unwrap_job (Dict [(k', inner)]) = inner).
Proof.
  intros Hbare.
  assert (unwrap_job body = body) as Hun.
  { destruct body as [| | [| [k1 v1] [| kv2 r]]]; try reflexivity.
    exfalso. apply (Hbare (k1, v1)). reflexivity. }
  split; [exact Hun |]. split; [| split].
  - unfold merge_job. simpl unwrap_job. rewrite Hun. reflexivity.
  - intros d js -> Hjobs. rewrite (merge_job_eq d js) by exact Hjobs.
    rewrite Hun. reflexivity.
  - reflexivity.
Qed.

Lemma merge_job_fragment_shapes_witness :
  merge_job ci (Dict [(AStr "polaris-security-scan", scan_job)]) "security-scan" None
  = merge_job ci scan_job "security-scan" None.
Proof.
  refine (proj1 (proj2 (merge_job_fragment_shapes ci scan_job
                          (AStr "polaris-security-scan") "security-scan" None _))).
  intros kv. discriminate.
Defined.

(** C9, as the claim has it, fails: the bare body [steps_only_job] is taken
    for a wrapper, the new job is its list of steps, and the wrapped shape
    gives another document. *)
Lemma merge_job_fragment_shapes_counterexample :
  merge_job ci steps_only_job "security-scan" None
  = Ok (with_jobs (ci_jobs ++ [(AStr "security-scan", List [checkout; scan_step])])
          ci_entries)
  /\ merge_job ci (Dict [(AStr "security-scan", steps_only_job)]) "security-scan" None
     = Ok (with_jobs (ci_jobs ++ [(AStr "security-scan", steps_only_job)]) ci_entries)
  /\ merge_job ci steps_only_job "security-scan" None
     <> merge_job ci (Dict [(AStr "security-scan", steps_only_job)]) "security-scan" None.
Proof. repeat split; try reflexivity. discriminate. Qed.



(** C4, as the code has it.  [after_build] puts the steps of the fragment
    right after the last step whose name or command holds one of the
    keywords [build], [compile], [maven], [gradle], [npm run build], [test]
    (there is no keyword for installing), and at the end when no step has
    one; [before_end] puts them before the last step, at index 0 when the
    job has no step or one; [end] appends them; each time the steps of the
    fragment and the old steps keep their order. *)
Theorem insert_step_positions (d js j : entries) (ss new : list value)
    (step_data : value) (t : string) :
  dict_get (AStr "jobs") d = Some (Dict js) ->
  dict_get (AStr t) js = Some (Dict j) ->
  job_steps j = Some ss ->
  fragment_steps step_data = Some new ->
  let placed (i : nat) :=
    Ok (with_jobs (dict_set (AStr t) (with_steps (firstn i ss ++ new ++ skipn i ss) j) js) d) in
  (Forall step_ok ss ->
   insert_step (Dict d) step_data t "after_build"
   = placed (match last_match keyword_step ss with
             | Some m => S m
             | None => List.length ss
             end))
  /\ insert_step (Dict d) step_data t "before_end" = placed (List.length ss - 1)
  /\ insert_step (Dict d) step_data t "end" = placed (List.length ss)
  /\ firstn (List.length ss) ss ++ new ++ skipn (List.length ss) ss = ss ++ new
  /\ (List.length ss <= 1 -> List.length ss - 1 = 0).
Proof.
  intros Hjobs Hjob Hsteps Hfrag placed. unfold placed.
  repeat split.
  - intros Hok. rewrite (insert_step_eq d js j ss new) by assumption.
    unfold position_index. simpl String.eqb.
    rewrite after_build_index_last by exact Hok. reflexivity.
  - rewrite (insert_step_eq d js j ss new) by assumption. reflexivity.
  - rewrite (insert_step_eq d js j ss new) by assumption. reflexivity.
  - rewrite firstn_all, skipn_all, app_nil_r. reflexivity.
  - lia.
Qed.

Lemma insert_step_positions_witness :
  insert_step ci scan_step "build" "after_build"
  = Ok (with_jobs
          [(AStr "build",
            with_steps [checkout; build_step; test_step; scan_step; upload]
              build_job_entries);
           (AStr "deploy", deploy_job)] ci_entries).
Proof.
  refine (proj1 (insert_step_positions ci_entries ci_jobs build_job_entries
                   [checkout; build_step; test_step; upload] [scan_step] scan_step "build"
                   eq_refl eq_refl eq_refl eq_refl) _).
  repeat constructor.
Defined.

(** C4, as the claim has it, fails: the last step that builds, tests or
    installs is the step at index 1, which installs, and the fragment goes
    to index 1, before it. *)
Lemma insert_step_positions_counterexample :
  last_match in_named_family [build_step; install_step; upload] = Some 1
  /\ insert_step (Dict install_entries) scan_step "build" "after_build"
     = Ok (with_jobs
             [(AStr "build",
               with_steps [build_step; scan_step; install_step; upload]
                 install_job_entries)] install_entries).
Proof. split; reflexivity. Qed.

(** ** The duplicate detector *)

Section DeepEquality.

Lemma atom_eqb_eq (a b : atom) : atom_eqb a b = true <-> a = b.
Proof.
  destruct a as [| x | x | x], b as [| y | y | y]; simpl;
    first [ split; discriminate
          | split; reflexivity
          | rewrite Z.eqb_eq; split; congruence
          | rewrite String.eqb_eq; split; congruence
          | destruct x, y; simpl; split; congruence ].
Qed.

Lemma compare_dict (d1 d2 : entries) :
  compare_yaml_structures (Dict d1) (Dict d2)
  = same_key_set d1 d2
    && forallb (fun kv => match dict_get (fst kv) d2 with
                          | Some v2 => compare_yaml_structures (snd kv) v2
                          | None => false
                          end) d1.
Proof.
  simpl. f_equal. induction d1 as [| [k v] r IH]; simpl; [reflexivity |].
  rewrite IH. reflexivity.
Qed.

Lemma compare_list (l1 l2 : list value) :
  compare_yaml_structures (List l1) (List l2)
  = Nat.eqb (List.length l1) (List.length l2)
    && forallb (fun p => compare_yaml_structures (fst p) (snd p)) (combine l1 l2).
Proof.
  simpl. f_equal. revert l2. induction l1 as [| x r IH]; intros [| y l2]; simpl;
    try reflexivity.
  rewrite IH. reflexivity.
Qed.

Lemma well_formed_dict (d : entries) :
  well_formed (Dict d) <-> distinct_keys d /\ Forall (fun kv => well_formed (snd kv)) d.
Proof.
  simpl. apply and_iff_compat_l.
  induction d as [| kv r IH]; simpl.
  - split; [constructor | trivial].
  - rewrite IH. split.
    + intros [H1 H2]. constructor; assumption.
    + intros H. inversion H; subst. split; assumption.
Qed.

Lemma well_formed_list (l : list value) :
  well_formed (List l) <-> Forall well_formed l.
Proof.
  simpl. induction l as [| x r IH]; simpl.
  - split; [constructor | trivial].
  - rewrite IH. split.
    + intros [H1 H2]. constructor; assumption.
    + intros H. inversion H; subst. split; assumption.
Qed.

Lemma same_key_set_iff (d1 d2 : entries) :
  same_key_set d1 d2 = true <-> (forall k, dict_has k d1 = dict_has k d2).
Proof.
  unfold same_key_set. rewrite andb_true_iff, !forallb_forall. split.
  - intros [H12 H21] k.
    destruct (dict_has k d1) eqn:E1.
    + apply dict_has_in in E1 as [kv [Hin Hk]].
      rewrite (dict_has_congr _ _ _ Hk). symmetry. apply H12. exact Hin.
    + destruct (dict_has k d2) eqn:E2; [| reflexivity].
      apply dict_has_in in E2 as [kv [Hin Hk]].
      rewrite <- E1, (dict_has_congr _ _ _ Hk). apply H21. exact Hin.
  - intros H. split; intros kv Hin.
    + rewrite <- H. apply dict_has_in. exists kv. split; [exact Hin | apply key_eqb_refl].
    + rewrite H. apply dict_has_in. exists kv. split; [exact Hin | apply key_eqb_refl].
Qed.

(** A value found under a key is the value of an entry whose key is that
    key. *)
Lemma dict_get_in {V : Type} (k : atom) (v : V) (d : list (atom * V)) :
  dict_get k d = Some v -> exists k', In (k', v) d /\ key_eqb k k' = true.
Proof.
  induction d as [| [k1 v1] r IH]; simpl; [discriminate |].
  destruct (key_eqb k k1) eqn:E.
  - intros H. injection H as ->. exists k1. split; [left; reflexivity | exact E].
  - intros H. destruct (IH H) as [k' [Hin Hk]]. exists k'. split; [right; exact Hin | exact Hk].
Qed.

(** [compare_yaml_structures] decides deep equality. *)
Lemma compare_deep_eq (v1 : value) :
  well_formed v1 ->
  forall v2, compare_yaml_structures v1 v2 = true <-> deep_eq v1 v2.
Proof.
  induction v1 as [a | l1 IH | d1 IH] using value_induction; intros Hwf v2.
  - destruct v2 as [b | l2 | d2]; simpl.
    + rewrite atom_eqb_eq. split; [intros ->; constructor | intros H; inversion H; reflexivity].
    + split; [discriminate | intros H; inversion H].
    + split; [discriminate | intros H; inversion H].
  - destruct v2 as [b | l2 | d2];
      try (simpl; split; [discriminate | intros H; inversion H]).
    rewrite compare_list. apply well_formed_list in Hwf.
    assert (Nat.eqb (List.length l1) (List.length l2)
            && forallb (fun p => compare_yaml_structures (fst p) (snd p)) (combine l1 l2)
            = true <-> Forall2 deep_eq l1 l2) as Hl.
    { clear - IH Hwf. revert l2.
      induction l1 as [| x r IHr]; intros [| y l2]; simpl.
      - split; [constructor | reflexivity].
      - split; [discriminate | intros H; inversion H].
      - split; [discriminate | intros H; inversion H].
      - inversion IH as [| ? ? Hx Hr]; subst. inversion Hwf as [| ? ? Wx Wr]; subst.
        rewrite (andb_comm (compare_yaml_structures x y)), andb_assoc, andb_true_iff.
        rewrite (IHr Hr Wr l2), (Hx Wx y). split.
        + intros [H1 H2]. constructor; assumption.
        + intros H. inversion H; subst. split; assumption. }
    rewrite Hl. split; [intros H; constructor; exact H | intros H; inversion H; assumption].
  - destruct v2 as [b | l2 | d2];
      try (simpl; split; [discriminate | intros H; inversion H]).
    rewrite compare_dict, andb_true_iff, same_key_set_iff, forallb_forall.
    apply well_formed_dict in Hwf as [Hd Hwf].
    rewrite Forall_forall in IH, Hwf. split.
    + intros [Hkeys Hall]. constructor; [exact Hkeys |].
      intros k v1 v2 H1 H2.
      apply dict_get_in in H1 as [k' [Hin Hk]].
      specialize (Hall _ Hin). simpl in Hall.
      rewrite <- (dict_get_congr _ _ _ Hk), H2 in Hall.
      apply (IH _ Hin (Hwf _ Hin)). exact Hall.
    + intros H. inversion H as [| ? ? Hkeys Hvals |]; subst. split; [exact Hkeys |].
      intros [k v1] Hin. simpl.
      assert (dict_has k d2 = true) as Hk.
      { rewrite <- Hkeys. apply dict_has_in. exists (k, v1).
        split; [exact Hin | apply key_eqb_refl]. }
      apply dict_has_get in Hk as [v2 Hv2]. rewrite Hv2.
      apply (IH _ Hin (Hwf _ Hin)).
      apply (Hvals k); [apply distinct_keys_get; assumption | exact Hv2].
Qed.

(** The keys of a dict can come in any order. *)
Lemma distinct_keys_perm {V : Type} (d d' : list (atom * V)) :
  Permutation d d' -> distinct_keys d ->
  distinct_keys d' /\ (forall k, dict_get k d' = dict_get k d).
Proof.
  induction 1 as [| [k v] l l' Hp IH | [k1 v1] [k2 v2] l | l l' l'' Hp1 IH1 Hp2 IH2].
  - intros _. split; [exact I | reflexivity].
  - simpl. intros [Hk Hl]. destruct (IH Hl) as [Hl' Hget]. split.
    + split; [| exact Hl']. apply dict_get_none. rewrite Hget. apply dict_get_none. exact Hk.
    + intros k0. rewrite Hget. reflexivity.
  - simpl. intros [H2 [H1 Hl]]. apply orb_false_iff in H2 as [H21 H2].
    split.
    + repeat split; try assumption. rewrite key_eqb_sym, H21. exact H1.
    + intros k. destruct (key_eqb k k1) eqn:E1, (key_eqb k k2) eqn:E2; try reflexivity.
      exfalso. rewrite key_eqb_sym in E2.
      rewrite (key_eqb_trans _ _ _ E2 E1) in H21. discriminate.
  - intros Hd. destruct (IH1 Hd) as [Hd' Hg1]. destruct (IH2 Hd') as [Hd'' Hg2].
    split; [exact Hd'' |]. intros k. rewrite Hg2, Hg1. reflexivity.
Qed.

Lemma dict_has_perm {V : Type} (d d' : list (atom * V)) (k : atom) :
  Permutation d d' -> dict_has k d' = dict_has k d.
Proof.
  intros Hp. destruct (dict_has k d) eqn:E.
  - apply dict_has_in in E as [kv [Hin Hk]]. apply dict_has_in. exists kv.
    split; [eapply Permutation_in; eassumption | exact Hk].
  - apply dict_has_false_in. intros kv Hin.
    apply (proj1 (dict_has_false_in _ _) E).
    eapply Permutation_in; [apply Permutation_sym|]; eassumption.
Qed.

Lemma deep_eq_perm_l (d d' : entries) (v : value) :
  Permutation d d' -> distinct_keys d -> deep_eq (Dict d) v -> deep_eq (Dict d') v.
Proof.
  intros Hp Hd H. destruct (distinct_keys_perm _ _ Hp Hd) as [_ Hget].
  inversion H as [| ? d2 Hkeys Hvals |]; subst. constructor.
  - intros k. rewrite (dict_has_perm _ _ k Hp). apply Hkeys.
  - intros k v1 v2 H1 H2. rewrite Hget in H1. eapply Hvals; eassumption.
Qed.

Lemma deep_eq_perm_r (d d' : entries) (v : value) :
  Permutation d d' -> distinct_keys d -> deep_eq v (Dict d) -> deep_eq v (Dict d').
Proof.
  intros Hp Hd H. destruct (distinct_keys_perm _ _ Hp Hd) as [_ Hget].
  inversion H as [| d1 ? Hkeys Hvals |]; subst. constructor.
  - intros k. rewrite (dict_has_perm _ _ k Hp). apply Hkeys.
  - intros k v1 v2 H1 H2. rewrite Hget in H2. eapply Hvals; eassumption.
Qed.

Lemma well_formed_perm (d d' : entries) :
  Permutation d d' -> well_formed (Dict d) -> well_formed (Dict d').
Proof.
  intros Hp Hwf. apply well_formed_dict in Hwf as [Hd Hall]. apply well_formed_dict.
  split; [apply (distinct_keys_perm _ _ Hp Hd) |].
  eapply Permutation_Forall; eassumption.
Qed.

End DeepEquality.

Lemma distinct_keys_unique {V : Type} (k : atom) (v v' : V) (d : list (atom * V)) :
  distinct_keys d -> In (k, v) d -> In (k, v') d -> v = v'.
Proof.
  intros Hd H1 H2.
  pose proof (distinct_keys_get k v d Hd H1) as E1.
  pose proof (distinct_keys_get k v' d Hd H2) as E2.
  congruence.
Qed.

Section JobDetection.

Context {text : Type}.
Variable yaml_load : text -> result value.

(** C5, as the code has it.  [detect_job_duplicates] reports a job exactly
    when the template is a mapping with at least one key and the job is
    deeply equal to it; a template that is empty or is not a mapping is
    reported for no job.  The order of the keys of a mapping, in the job or
    in the template, does not count, and the order of the elements of a
    sequence does. *)
Theorem detect_job_duplicates_sound (workflow_content template_content : text)
    (d js : entries) (F : value) (template_name : string) (template_id : Z) :
  yaml_load workflow_content = Ok (Dict d) ->
  yaml_load template_content = Ok F ->
  doc_jobs d = Some js ->
  distinct_keys js ->
  (forall name J, In (name, J) js -> well_formed J) ->
  let found :=
    if reportable F
    then map (fun it => job_match_of (fst it) template_name template_id)
           (filter (fun it => compare_yaml_structures (snd it) F) js)
    else [] in
  detect_job_duplicates yaml_load workflow_content template_content template_name
    template_id = (found, [])
  /\ (forall name J, In (name, J) js ->
        (In (job_match_of name template_name template_id) found
         <-> reportable F = true /\ deep_eq J F))
  /\ (forall name J, In (name, J) js ->
        (compare_yaml_structures J F = true <-> deep_eq J F)
        /\ (forall j j', J = Dict j -> Permutation j j' ->
              compare_yaml_structures (Dict j') F = compare_yaml_structures (Dict j) F)
        /\ (forall f f', F = Dict f -> distinct_keys f -> Permutation f f' ->
              compare_yaml_structures J (Dict f') = compare_yaml_structures J (Dict f)))
  /\ (forall (a b : value) (r r' : list value),
        compare_yaml_structures a b = false ->
        compare_yaml_structures (List (a :: b :: r)) (List (b :: a :: r')) = false).
Proof.
  intros Hload Htemplate Hjobs Hd Hwf found.
  assert (forall v1 v2 v2', well_formed v1 ->
            (deep_eq v1 v2 <-> deep_eq v1 v2') ->
            compare_yaml_structures v1 v2 = compare_yaml_structures v1 v2') as Hsame.
  { intros v1 v2 v2' W H.
    destruct (compare_yaml_structures v1 v2) eqn:E1,
             (compare_yaml_structures v1 v2') eqn:E2; try reflexivity.
    - apply (compare_deep_eq v1 W), H, (compare_deep_eq v1 W) in E1. congruence.
    - apply (compare_deep_eq v1 W), H, (compare_deep_eq v1 W) in E2. congruence. }
  split; [| split; [| split]].
  - unfold detect_job_duplicates, normalize_yaml_content.
    rewrite Hload, Htemplate. unfold found, job_duplicates. cbn [truthy].
    destruct d as [| kv0 d0].
    + injection Hjobs as <-. cbn [List.length Nat.eqb negb orb filter map].
      destruct (reportable F); reflexivity.
    + cbn [List.length Nat.eqb negb orb].
      assert (get (Dict (kv0 :: d0)) "jobs" (Dict []) = Ok (Dict js)) as ->.
      { unfold doc_jobs in Hjobs. unfold get.
        destruct (dict_get (AStr "jobs") (kv0 :: d0)) as [[| | js0] |]; try discriminate;
          injection Hjobs as <-; reflexivity. }
      destruct F as [a | l | [| kv f0]]; cbn [truthy reportable bind items].
      * destruct (negb (truthy_atom a)); reflexivity.
      * destruct (negb (negb (List.length l =? 0)%nat)); reflexivity.
      * reflexivity.
      * reflexivity.
  - intros name J Hin. unfold found.
    destruct (reportable F); [| split; [intros [] | intros [H _]; discriminate H]].
    rewrite in_map_iff. split.
    + intros [[name' J'] [Heq Hin']]. apply filter_In in Hin' as [Hin' Hc].
      simpl in Heq, Hc. injection Heq as ->.
      rewrite (distinct_keys_unique _ _ _ _ Hd Hin Hin').
      split; [reflexivity |].
      apply (compare_deep_eq J' (Hwf _ _ Hin')). exact Hc.
    + intros [_ Heq]. exists (name, J). split; [reflexivity |].
      apply filter_In. split; [exact Hin |].
      apply (compare_deep_eq J (Hwf _ _ Hin)). exact Heq.
  - intros name J Hin. split; [apply compare_deep_eq; eauto |]. split.
    + intros j j' -> Hp.
      pose proof (Hwf _ _ Hin) as W.
      pose proof (well_formed_perm _ _ Hp W) as W'.
      pose proof (proj1 (proj1 (well_formed_dict _) W)) as D.
      pose proof (proj1 (proj1 (well_formed_dict _) W')) as D'.
      destruct (compare_yaml_structures (Dict j) F) eqn:E.
      * apply (compare_deep_eq _ W'). apply (deep_eq_perm_l j j'); try assumption.
        apply (compare_deep_eq _ W). exact E.
      * destruct (compare_yaml_structures (Dict j') F) eqn:E'; [| reflexivity].
        rewrite <- E. symmetry. apply (compare_deep_eq _ W).
        apply (deep_eq_perm_l j' j); [apply Permutation_sym | |]; try assumption.
        apply (compare_deep_eq _ W'). exact E'.
    + intros f f' -> Df Hp. apply Hsame; [eauto |]. split.
      * apply deep_eq_perm_r; [apply Permutation_sym; exact Hp |].
        apply (distinct_keys_perm _ _ Hp Df).
      * apply deep_eq_perm_r; assumption.
  - intros a b r r' Hab. rewrite compare_list. simpl. rewrite Hab.
    apply andb_false_r.
Qed.

End JobDetection.

Lemma detect_job_duplicates_sound_witness :
  detect_job_duplicates PyYAML.load (PyYAML.dump (Dict scanned_entries))
    (PyYAML.dump scan_job) "Polaris" 7
  = ([job_match_of (AStr "scan") "Polaris" 7], []).
Proof.
  refine (proj1 (detect_job_duplicates_sound PyYAML.load (PyYAML.dump (Dict scanned_entries))
                   (PyYAML.dump scan_job) scanned_entries scanned_jobs scan_job
                   "Polaris" 7 _ _ eq_refl _ _)).
  - vm_compute. reflexivity.
  - vm_compute. reflexivity.
  - simpl. auto.
  - intros name J [H | [H | [H | []]]]; injection H as <- <-; simpl; repeat split.
Defined.

(** C5, as the claim has it, fails: the job [todo] is an empty mapping and
    so is the template, the two are deeply equal, and nothing is
    reported. *)
Lemma detect_job_duplicates_counterexample :
  PyYAML.load (PyYAML.dump (Dict hollow_entries)) = Ok (Dict hollow_entries)
  /\ PyYAML.load (PyYAML.dump (Dict [])) = Ok (Dict [])
  /\ dict_get (AStr "todo") hollow_jobs = Some (Dict [])
  /\ deep_eq (Dict []) (Dict [])
  /\ compare_yaml_structures (Dict []) (Dict []) = true
  /\ detect_job_duplicates PyYAML.load (PyYAML.dump (Dict hollow_entries))
       (PyYAML.dump (Dict [])) "Empty" 1
     = ([], []).
Proof.
  repeat split; try (vm_compute; reflexivity).
  constructor; [reflexivity |]. intros k v1 v2 H. discriminate H.
Qed.

Lemma well_formed_get (j : entries) (k : atom) (v : value) :
  well_formed (Dict j) -> dict_get k j = Some v -> well_formed v.
Proof.
  intros W H. apply well_formed_dict in W as [_ W].
  apply dict_get_in in H as [k' [Hin _]].
  rewrite Forall_forall in W. exact (W _ Hin).
Qed.




(** When every job is a dict, the loop over the jobs ends without an
    exception and records the windows of every job in turn. *)
Lemma scan_steps_all (its : entries) (f : list value) (template_name : string)
    (template_id : Z) :
  f <> [] ->
  (forall name J, In (name, J) its -> exists j, J = Dict j) ->
  scan_steps its f template_name template_id
  = (flat_map (job_windows f template_name template_id) its, None).
Proof.
  intros Hf. induction its as [| [name J] r IH]; intros Hall; [reflexivity |].
  destruct (Hall name J (or_introl eq_refl)) as [j ->].
  cbn [scan_steps flat_map].
  rewrite IH by (intros n J' Hin; apply (Hall n J'); right; exact Hin).
  assert (job_windows f template_name template_id (name, Dict j)
          = match dict_get (AStr "steps") j with
            | Some (List ss) => step_windows name ss f template_name template_id
            | None => []
            | Some _ => []
            end) as ->.
  { unfold job_windows, job_steps. cbn [fst snd].
    destruct (dict_get (AStr "steps") j) as [[| ss |] |]; try reflexivity.
    unfold step_windows. destruct f as [| x f0]; [contradiction |].
    replace (Z.to_nat (Z.of_nat (List.length (@nil value))
                       - Z.of_nat (List.length (x :: f0)) + 1)) with 0
      by (simpl List.length; lia).
    reflexivity. }
  unfold get.
  destruct (dict_get (AStr "steps") j) as [[| ss |] |]; try reflexivity.
  unfold step_windows. destruct f as [| x f0]; [contradiction |].
  replace (Z.to_nat (Z.of_nat (List.length (@nil value))
                     - Z.of_nat (List.length (x :: f0)) + 1)) with 0
    by (simpl List.length; lia).
  reflexivity.
Qed.

Lemma seq_start (i i' n : nat) : n <> 0 -> seq i n = seq i' n -> i = i'.
Proof. destruct n; [contradiction |]. simpl. intros _ H. injection H. auto. Qed.




Section StepDetection.

Context {text : Type}.
Variable yaml_load : text -> result value.


End StepDetection.



(** ** The insertion-point planner *)

Section Planner.

Let jobs_list : Type := list (atom * WorkflowJob).

(** The loop keeps, for each of the three anchors, the last job that
    qualifies. *)
Lemma scan_jobs_last (js : jobs_list) (b t l : atom) :
  Forall scannable js ->
  scan_jobs js (b, t, l)
  = Ok (pick (build_anchor js) b, pick (test_anchor js) t, pick (fallback_anchor js) l).
Proof.
  intros Hok. revert b t l.
  induction Hok as [| [job_id job] r [_ Hrun] Hr IH]; intros b t l; [reflexivity |].
  cbn [scan_jobs]. simpl in Hrun.
  destruct (run_text job) as [text |] eqn:E; [| discriminate]. cbn [bind].
  rewrite IH.
  assert (is_build_job (job_id, job) = matches_any BUILD_PATTERNS text) as Hb.
  { unfold is_build_job, job_matches. cbn [snd]. rewrite E. reflexivity. }
  assert (is_test_job (job_id, job) = matches_any TEST_PATTERNS text) as Ht.
  { unfold is_test_job, job_matches. cbn [snd]. rewrite E. reflexivity. }
  unfold build_anchor, test_anchor, fallback_anchor. cbn [last_such fst].
  rewrite Hb, Ht.
  destruct (last_such is_build_job r), (last_such is_test_job r),
    (last_such (fun _ => true) r),
    (matches_any BUILD_PATTERNS text), (matches_any TEST_PATTERNS text);
    reflexivity.
Qed.

Lemma last_such_truthy {J : Type} (p : atom * J -> bool) (js : list (atom * J)) (x : atom) :
  Forall (fun it => truthy_atom (fst it) = true) js ->
  last_such p js = Some x -> truthy_atom x = true.
Proof.
  induction 1 as [| it r Hit Hr IH]; simpl; [discriminate |].
  destruct (last_such p r) as [y |].
  - intros H. injection H as <-. apply IH. reflexivity.
  - destruct (p it); [| discriminate]. intros H. injection H as <-. exact Hit.
Qed.

Lemma truthy_not_none (x : atom) : truthy_atom x = true -> key_eqb x ANone = false.
Proof. destruct x; simpl; [discriminate | reflexivity ..]. Qed.

End Planner.

(** The planner searches the commands of a job joined into one text, the
    classifier searches the command of each step: a build command spread
    over two steps makes a build job for the planner only. *)
Remark planner_joins_commands :
  _analyze_job split_command_job = Ok (false, false)
  /\ run_text split_command_job = Ok "mvn package"
  /\ is_build_job (AStr "package", split_command_job) = true.
Proof. repeat split; vm_compute; reflexivity. Qed.

(** C3, as the code has it.  On a document whose jobs can be scanned, the
    planner takes as build anchor the last job, in document order, whose
    step commands match a build pattern, and as test anchor the last job
    whose step commands match a test pattern, be it the build anchor or not;
    it returns, in this order: [after_build] at the build anchor if there is
    one; [after_test] at the test anchor if there is one and it is not the
    build anchor; [end] at the last job, or the first-job marker when there
    is no job. *)
Theorem find_insertion_points_plan (structure : WorkflowStructure) :
  Forall scannable (jobs structure) ->
  _find_insertion_points structure
  = Ok (candidates (build_anchor (jobs structure)) (test_anchor (jobs structure))
          (fallback_anchor (jobs structure)))
  /\ (jobs structure = [] <-> fallback_anchor (jobs structure) = None).
Proof.
  intros Hok. split.
  - unfold _find_insertion_points. rewrite scan_jobs_last by exact Hok. cbn [bind].
    assert (Forall (fun it => truthy_atom (fst it) = true) (jobs structure)) as Hids.
    { eapply Forall_impl; [| exact Hok]. intros it [H _]. exact H. }
    unfold emit_points, candidates. f_equal.
    destruct (build_anchor (jobs structure)) as [x |] eqn:Eb;
      destruct (test_anchor (jobs structure)) as [y |] eqn:Et;
      destruct (fallback_anchor (jobs structure)) as [z |] eqn:El; cbn [pick];
      try rewrite (last_such_truthy _ _ _ Hids Eb);
      try rewrite (last_such_truthy _ _ _ Hids Et);
      try rewrite (last_such_truthy _ _ _ Hids El);
      try rewrite (truthy_not_none _ (last_such_truthy _ _ _ Hids Et));
      cbn [truthy_atom andb negb app];
      try destruct (key_eqb y x); reflexivity.
  - unfold fallback_anchor. destruct (jobs structure) as [| it r]; simpl.
    + split; reflexivity.
    + split; [discriminate |]. destruct (last_such (fun _ => true) r); discriminate.
Qed.

(** C3, as the claim has it, fails: the job [unit] tests, the job [all]
    builds and tests; the last job that tests and is not the build anchor is
    [unit], and the planner returns no [after_test] candidate. *)
Lemma find_insertion_points_counterexample :
  parse_loaded (Dict pipeline_entries) = Ok pipeline_structure
  /\ build_anchor (jobs pipeline_structure) = Some (AStr "all")
  /\ test_anchor_as_specified (jobs pipeline_structure) = Some (AStr "unit")
  /\ _find_insertion_points pipeline_structure
     = Ok [after_build_point (AStr "all"); end_point (AStr "all")].
Proof. repeat split; vm_compute; reflexivity. Qed.

Lemma find_insertion_points_plan_witness :
  _find_insertion_points pipeline_structure
  = Ok [after_build_point (AStr "all"); end_point (AStr "all")].
Proof.
  refine (eq_trans (proj1 (find_insertion_points_plan pipeline_structure _)) _).
  - repeat constructor.
  - vm_compute. reflexivity.
Defined.

(** ** Texts that are not a mapping *)

Import Engine.

(** Case analysis on a value that is not a dict. *)
Ltac not_a_dict v H :=
  let a := fresh "a" in
  let l := fresh "l" in
  let d := fresh "d" in
  destruct v as [[| ? | ? | ?] | l | d];
  [ | | | | | exfalso; apply (H d); reflexivity ].

Section NotADict.

Variable v : value.
Hypothesis not_dict : forall d : entries, v <> Dict d.

(** [merge_job] raises on a document that is not a dict. *)
Lemma merge_job_not_dict (F : value) (job_id : string) (insert_after : option string) :
  merge_job v F job_id insert_after = Raise TypeError.
Proof.
  clear - not_dict. unfold merge_job. not_a_dict v not_dict; simpl; try reflexivity.
  - destruct (str_in "jobs" s); reflexivity.
  - destruct (existsb (is_str "jobs") l); reflexivity.
Qed.

(** [insert_step] raises on a document that is not a dict. *)
Lemma insert_step_not_dict (step_data : value) (t p : string) :
  exists e, insert_step v step_data t p = Raise e.
Proof.
  clear - not_dict. unfold insert_step.
  destruct step_data as [a | new | step]; simpl; [eauto | |];
    not_a_dict v not_dict; simpl; eauto;
    try (destruct (str_in "jobs" s); simpl; eauto);
    try (destruct (existsb (is_str "jobs") l); simpl; eauto).
Qed.

(** [remove_job] and [remove_steps] change nothing in a document that is
    not a dict. *)
Lemma remove_job_not_dict (job_name : string) :
  remove_job v job_name = Ok None \/ exists e, remove_job v job_name = Raise e.
Proof.
  clear - not_dict. unfold remove_job. not_a_dict v not_dict; simpl; eauto.
  - destruct (str_in "jobs" s); simpl; eauto.
  - destruct (existsb (is_str "jobs") l); simpl; eauto.
Qed.

Lemma remove_steps_not_dict (job_name : string) (step_indices : list Z) :
  remove_steps v job_name step_indices = Ok None
  \/ exists e, remove_steps v job_name step_indices = Raise e.
Proof.
  clear - not_dict. unfold remove_steps. not_a_dict v not_dict; simpl; eauto.
  - destruct (str_in "jobs" s); simpl; eauto.
  - destruct (existsb (is_str "jobs") l); simpl; eauto.
Qed.

(** The detectors find nothing in a document that is not a dict. *)
Lemma job_duplicates_not_dict (template_data : value) (template_name : string)
    (template_id : Z) :
  job_duplicates v template_data template_name template_id = Ok []
  \/ exists e, job_duplicates v template_data template_name template_id = Raise e.
Proof.
  clear - not_dict. unfold job_duplicates.
  destruct (negb (truthy v) || negb (truthy template_data)); [left; reflexivity |].
  right. not_a_dict v not_dict; simpl; eauto.
Qed.

Lemma step_duplicates_not_dict (template_data : value) (template_name : string)
    (template_id : Z) :
  fst (step_duplicates v template_data template_name template_id) = [].
Proof.
  clear - not_dict. unfold step_duplicates.
  destruct (negb (truthy v) || negb (truthy template_data)); [reflexivity |].
  not_a_dict v not_dict; reflexivity.
Qed.

Lemma parse_loaded_not_dict :
  parse_loaded v = Raise (ValueError "Workflow YAML must be a dictionary").
Proof. clear - not_dict. not_a_dict v not_dict; reflexivity. Qed.

End NotADict.

(** An empty dict is what [normalize_yaml_content] hands over when the
    loader fails: the detectors find nothing in it. *)
Lemma job_duplicates_empty (template_data : value) (template_name : string)
    (template_id : Z) :
  job_duplicates (Dict []) template_data template_name template_id = Ok [].
Proof. reflexivity. Qed.

Lemma step_duplicates_empty (template_data : value) (template_name : string)
    (template_id : Z) :
  step_duplicates (Dict []) template_data template_name template_id = ([], None).
Proof. reflexivity. Qed.

Section MalformedText.

Context {text : Type}.
Variables (yaml_load yaml_safe_load : text -> result value) (yaml_dump : value -> text).

(** C10, as the code has it.  On a text that is not a valid structured
    mapping, [parse_workflow] raises [ValueError] when the loader fails with
    the library's error or returns an object that is not a dict;
    [merge_job_into_workflow] and [insert_step_into_job] raise (the
    loader's exception, [TypeError] or [ValueError]); the removal functions
    return the text they were given and the detectors of jobs and of step
    runs return no match: they catch what is raised inside, print it and go
    on. *)
Theorem malformed_text_outcomes (content : text) :
  malformed yaml_safe_load content ->
  malformed yaml_load content ->
  (exists e, parse_workflow yaml_safe_load content = Raise e
             /\ (yaml_safe_load content = Raise YAMLError
                 \/ (exists v, yaml_safe_load content = Ok v) ->
                 exists msg, e = ValueError msg))
  /\ (forall job_yaml job_id insert_after,
        exists e,
          merge_job_into_workflow yaml_load yaml_dump content job_yaml job_id insert_after
          = Raise e)
  /\ (forall step_yaml target_job insert_position,
        exists e,
          insert_step_into_job yaml_load yaml_dump content step_yaml target_job
            insert_position = Raise e)
  /\ (forall job_name,
        fst (remove_job_from_workflow yaml_load yaml_dump content job_name) = content)
  /\ (forall job_name step_indices,
        fst (remove_steps_from_job yaml_load yaml_dump content job_name step_indices)
        = content)
  /\ (forall template_content template_name template_id,
        fst (detect_job_duplicates yaml_load content template_content template_name
               template_id) = [])
  /\ (forall template_content template_name template_id,
        fst (detect_step_duplicates yaml_load content template_content template_name
               template_id) = [])
  /\ (forall e job_name step_indices,
        yaml_load content = Raise e ->
        remove_job_from_workflow yaml_load yaml_dump content job_name
        = (content, [Print "Error removing job from workflow" e])
        /\ remove_steps_from_job yaml_load yaml_dump content job_name step_indices
           = (content, [Print "Error removing steps from job" e])).
Proof.
  unfold malformed. intros Hsafe Hload.
  assert (forall v, yaml_load content = Ok v -> forall d, v <> Dict d) as Hnd.
  { intros v E d ->. exact (Hload d E). }
  split; [| split; [| split; [| split; [| split; [| split; [| split]]]]]].
  - unfold parse_workflow. destruct (yaml_safe_load content) as [v | e] eqn:E.
    + rewrite parse_loaded_not_dict by (intros d ->; exact (Hsafe d eq_refl)). eauto.
    + destruct e; eexists; (split; [reflexivity |]); intros [H | [v H]];
        try discriminate; eauto.
  - intros job_yaml job_id insert_after. unfold merge_job_into_workflow.
    destruct (yaml_load content) as [v | e] eqn:E; simpl; [| eauto].
    destruct (yaml_load job_yaml) as [F | e]; simpl; [| eauto].
    rewrite merge_job_not_dict by exact (Hnd v eq_refl). simpl. eauto.
  - intros step_yaml target_job insert_position. unfold insert_step_into_job.
    destruct (yaml_load content) as [v | e] eqn:E; simpl; [| eauto].
    destruct (yaml_load step_yaml) as [F | e]; simpl; [| eauto].
    destruct (insert_step_not_dict v (Hnd v eq_refl) F target_job insert_position)
      as [e ->]. simpl. eauto.
  - intros job_name. unfold remove_job_from_workflow.
    destruct (yaml_load content) as [v | e] eqn:E; simpl; [| reflexivity].
    destruct (remove_job_not_dict v (Hnd v eq_refl) job_name) as [-> | [e ->]];
      reflexivity.
  - intros job_name step_indices. unfold remove_steps_from_job.
    destruct (yaml_load content) as [v | e] eqn:E; simpl; [| reflexivity].
    destruct (remove_steps_not_dict v (Hnd v eq_refl) job_name step_indices)
      as [-> | [e ->]]; reflexivity.
  - intros template_content template_name template_id.
    unfold detect_job_duplicates, normalize_yaml_content.
    destruct (yaml_load content) as [v | e] eqn:E.
    + destruct (yaml_load template_content) as [t | e'].
      * destruct (job_duplicates_not_dict v (Hnd v eq_refl) t template_name template_id)
          as [-> | [e0 ->]]; reflexivity.
      * destruct (job_duplicates_not_dict v (Hnd v eq_refl) (Dict []) template_name
                    template_id) as [-> | [e0 ->]]; reflexivity.
    + destruct (yaml_load template_content) as [t | e'];
        rewrite job_duplicates_empty; reflexivity.
  - intros template_content template_name template_id.
    unfold detect_step_duplicates, normalize_yaml_content.
    destruct (yaml_load content) as [v | e] eqn:E.
    + destruct (yaml_load template_content) as [t | e'].
      * pose proof (step_duplicates_not_dict v (Hnd v eq_refl) t template_name
                      template_id) as H.
        destruct (step_duplicates v t template_name template_id) as [found [e0 |]];
          exact H.
      * pose proof (step_duplicates_not_dict v (Hnd v eq_refl) (Dict []) template_name
                      template_id) as H.
        destruct (step_duplicates v (Dict []) template_name template_id)
          as [found [e0 |]]; exact H.
    + destruct (yaml_load template_content) as [t | e'];
        rewrite step_duplicates_empty; reflexivity.
  - intros e job_name step_indices E.
    unfold remove_job_from_workflow, remove_steps_from_job. rewrite E. split; reflexivity.
Qed.

End MalformedText.

(** ** The YAML library: integers *)

Import PyYAML.

Section Integers.

Lemma digits_no_underscore (d : Decimal.uint) :
  remove_char "_" (NilEmpty.string_of_uint d) = NilEmpty.string_of_uint d.
Proof. induction d; simpl; [reflexivity | rewrite IHd; reflexivity ..]. Qed.

Lemma digits_no_colon (d : Decimal.uint) :
  Repr.has_char ":" (NilEmpty.string_of_uint d) = false.
Proof. induction d; simpl; [reflexivity | exact IHd ..]. Qed.

Lemma to_uint_unorm (p : positive) : Decimal.unorm (Pos.to_uint p) = Pos.to_uint p.
Proof.
  rewrite <- (DecimalPos.Unsigned.to_of (Pos.to_uint p)).
  rewrite DecimalPos.Unsigned.of_to. reflexivity.
Qed.

Lemma to_uint_no_leading_zero (p : positive) (d : Decimal.uint) :
  Pos.to_uint p <> Decimal.D0 d.
Proof.
  intros H. pose proof (to_uint_unorm p) as Hn. rewrite H in Hn.
  rewrite DecimalFacts.unorm_D0 in Hn.
  assert (d = Decimal.Nil \/ d <> Decimal.Nil) as [-> | Hne]
    by (destruct d; [left; reflexivity | right; discriminate ..]).
  - apply (DecimalPos.Unsigned.to_uint_nonzero p). exact H.
  - pose proof (DecimalFacts.nb_digits_unorm d Hne) as Hle. rewrite Hn in Hle. simpl in Hle. lia.
Qed.

Lemma of_to_uint (p : positive) : Z.of_uint (Pos.to_uint p) = Zpos p.
Proof.
  unfold Z.of_uint. rewrite DecimalPos.Unsigned.of_to. reflexivity.
Qed.

Lemma int_decimal_digits (p : positive) :
  int_decimal (NilEmpty.string_of_uint (Pos.to_uint p)) = Ok (Zpos p).
Proof.
  unfold int_decimal.
  assert (NilZero.uint_of_string (NilEmpty.string_of_uint (Pos.to_uint p))
          = Some (Pos.to_uint p)) as ->.
  { pose proof (NilZero.usu (Pos.to_uint p) (DecimalPos.Unsigned.to_uint_nonnil p)) as H.
    unfold NilZero.string_of_uint in H.
    destruct (Pos.to_uint p) eqn:E;
      [exfalso; exact (DecimalPos.Unsigned.to_uint_nonnil p E) | exact H ..]. }
  rewrite of_to_uint. reflexivity.
Qed.

(** The constructor of integers reads back what [str] writes. *)
Lemma construct_yaml_int_str (n : Z) : construct_yaml_int (str_of_Z n) = Ok n.
Proof.
  destruct n as [| p | p]; [reflexivity | |].
  - unfold str_of_Z, Z.to_int, NilZero.string_of_int, NilZero.string_of_uint.
    pose proof (int_decimal_digits p) as Hd.
    pose proof (to_uint_no_leading_zero p) as Hz.
    pose proof (DecimalPos.Unsigned.to_uint_nonnil p) as Hn.
    unfold construct_yaml_int.
    destruct (Pos.to_uint p) as [| d | d | d | d | d | d | d | d | d | d];
      [contradiction | exfalso; exact (Hz d eq_refl) | ..];
      cbn [NilEmpty.string_of_uint remove_char Ascii.eqb Bool.eqb];
      rewrite digits_no_underscore;
      cbn [Ascii.eqb Bool.eqb orb String.eqb String.prefix Repr.has_char];
      rewrite digits_no_colon; cbn [NilEmpty.string_of_uint] in Hd;
      rewrite Hd; cbn [bind];
      repeat match goal with
             | |- context [ascii_dec ?a ?b] =>
                 destruct (ascii_dec a b) as [Hx | Hx]; [discriminate Hx |]
             end;
      f_equal; lia.
  - unfold str_of_Z, Z.to_int, NilZero.string_of_int, NilZero.string_of_uint.
    pose proof (int_decimal_digits p) as Hd.
    pose proof (to_uint_no_leading_zero p) as Hz.
    pose proof (DecimalPos.Unsigned.to_uint_nonnil p) as Hn.
    unfold construct_yaml_int.
    destruct (Pos.to_uint p) as [| d | d | d | d | d | d | d | d | d | d];
      [contradiction | exfalso; exact (Hz d eq_refl) | ..];
      cbn [NilEmpty.string_of_uint remove_char Ascii.eqb Bool.eqb];
      rewrite digits_no_underscore;
      cbn [Ascii.eqb Bool.eqb orb String.eqb String.prefix Repr.has_char];
      rewrite digits_no_colon; cbn [NilEmpty.string_of_uint] in Hd;
      rewrite Hd; cbn [bind];
      repeat match goal with
             | |- context [ascii_dec ?a ?b] =>
                 destruct (ascii_dec a b) as [Hx | Hx]; [discriminate Hx |]
             end;
      f_equal; lia.
Qed.

End Integers.

(** ** The YAML library: what is dumped is loaded back *)

Section RoundTrip.

Variable allow_plain : string -> bool.
Variable tbl : resolvers.

Lemma tag_eqb_eq (a b : tag) : tag_eqb a b = true -> a = b.
Proof. destruct a, b; simpl; intros H; try discriminate; reflexivity. Qed.

(** Whatever style the emitter chooses, the loader finds the tag of the
    node again: a plain scalar is written only when its text resolves to
    that tag in the table, which is the table of the loader too. *)
Lemma emit_scalar_tag (n : scalar_node) :
  exists explicit plain,
    emit_scalar allow_plain tbl n = Scalar explicit plain (node_value n)
    /\ scalar_tag tbl explicit plain (node_value n) = node_tag n.
Proof.
  unfold emit_scalar.
  destruct (negb (node_literal n) && tag_eqb (resolve tbl (node_value n)) (node_tag n)
            && allow_plain (node_value n)) eqn:E.
  - exists None, true. split; [reflexivity |]. simpl.
    apply andb_true_iff in E as [E _]. apply andb_true_iff in E as [_ E].
    apply tag_eqb_eq. exact E.
  - destruct (tag_eqb (node_tag n) tag_str) eqn:Es.
    + exists None, false. split; [reflexivity |]. simpl.
      symmetry. apply tag_eqb_eq. exact Es.
    + exists (Some (node_tag n)), false. split; reflexivity.
Qed.

Lemma construct_represent_atom (a : atom) :
  construct_scalar (node_tag (represent_atom a)) (node_value (represent_atom a))
  = Ok (clean_atom a).
Proof.
  destruct a as [| [|] | n | s]; try reflexivity.
  - simpl. rewrite construct_yaml_int_str. reflexivity.
  - simpl. unfold clean_str, represent_str. destruct (has_newline s); reflexivity.
Qed.

Lemma reload_atom (a : atom) :
  construct tbl (emit_scalar allow_plain tbl (represent_atom a)) = Ok (Atom (clean_atom a)).
Proof.
  destruct (emit_scalar_tag (represent_atom a)) as [explicit [plain [-> Ht]]].
  simpl. rewrite Ht, construct_represent_atom. reflexivity.
Qed.

(** A mapping is filled in the order of its entries. *)
Lemma dict_fill (es acc : entries) :
  (forall e, In e es -> dict_has (fst e) acc = false) ->
  distinct_keys es ->
  fold_left (fun m e => dict_set (fst e) (snd e) m) es acc = acc ++ es.
Proof.
  revert acc. induction es as [| [k v] r IH]; intros acc Hacc Hd; simpl.
  - rewrite app_nil_r. reflexivity.
  - destruct Hd as [Hk Hr].
    rewrite dict_set_fresh by (apply (Hacc (k, v)); left; reflexivity).
    rewrite IH; [rewrite <- app_assoc; reflexivity | | exact Hr].
    intros e Hin. rewrite dict_has_app, (Hacc e) by (right; exact Hin). simpl.
    rewrite orb_false_r, key_eqb_sym.
    exact (proj1 (dict_has_false_in _ _) Hk e Hin).
Qed.

(** The loader reads back what the dumper wrote, as the representer of
    strings left it. *)
Lemma reload (d : value) :
  well_formed (clean d) ->
  construct tbl (dump_tree allow_plain tbl d) = Ok (clean d).
Proof.
  induction d as [a | l IH | es IH] using value_induction; intros Hwf.
  - apply reload_atom.
  - cbn [dump_tree clean construct].
    apply well_formed_list in Hwf. cbn [clean] in Hwf.
    assert ((fix all (l0 : list tree) : result (list value) :=
               match l0 with
               | [] => Ok []
               | x :: r => y <- construct tbl x ;; ys <- all r ;; Ok (y :: ys)
               end) (map (dump_tree allow_plain tbl) l) = Ok (map clean l)) as ->.
    { induction l as [| x r IHr]; [reflexivity |].
      inversion IH as [| ? ? Hx Hr]; subst.
      simpl in Hwf. inversion Hwf as [| ? ? Wx Wr]; subst.
      cbn [map]. rewrite (Hx Wx). cbn [bind]. rewrite (IHr Hr Wr). reflexivity. }
    reflexivity.
  - cbn [dump_tree clean construct].
    apply well_formed_dict in Hwf as [Hd Hwf].
    assert (forall acc,
              (fix all (l : list (tree * tree)) (mapping : entries) : result entries :=
                 match l with
                 | [] => Ok mapping
                 | kv :: r =>
                     key <- construct tbl (fst kv) ;;
                     match key with
                     | Atom a =>
                         value <- construct tbl (snd kv) ;;
                         all r (dict_set a value mapping)
                     | _ => Raise YAMLError
                     end
                 end)
                (map (fun kv => (emit_scalar allow_plain tbl (represent_atom (fst kv)),
                                 dump_tree allow_plain tbl (snd kv))) es) acc
              = Ok (fold_left (fun m e => dict_set (fst e) (snd e) m)
                      (map (fun kv => (clean_atom (fst kv), clean (snd kv))) es) acc))
      as Hall.
    { clear Hd. induction es as [| [k v] r IHr]; intros acc; [reflexivity |].
      inversion IH as [| ? ? Hx Hr]; subst.
      cbn [map] in Hwf. inversion Hwf as [| ? ? Wx Wr]; subst.
      cbn [snd] in Hx, Wx.
      cbn [map fst snd fold_left]. rewrite reload_atom. cbn [bind].
      rewrite (Hx Wx). cbn [bind]. apply (IHr Hr Wr). }
    rewrite Hall, dict_fill; [reflexivity | reflexivity | exact Hd].
Qed.

End RoundTrip.

Section Strings.

Lemma join_cons (sep x : string) (y : string) (r : list string) :
  join sep (x :: y :: r) = (x ++ sep ++ join sep (y :: r))%string.
Proof. reflexivity. Qed.

Lemma split_lines_nonempty (s : string) : split_lines s <> [].
Proof.
  induction s as [| c r IH]; simpl; [discriminate |].
  destruct (Ascii.eqb c newline); [discriminate |].
  destruct (split_lines r); discriminate.
Qed.

(** Joining the lines of a string with line feeds gives the string back. *)
Lemma join_split_lines (s : string) :
  join (String newline EmptyString) (split_lines s) = s.
Proof.
  induction s as [| c r IH]; [reflexivity |].
  cbn [split_lines].
  pose proof (split_lines_nonempty r) as Hne.
  destruct (split_lines r) as [| l ls] eqn:El; [contradiction |].
  destruct (Ascii.eqb c newline) eqn:E.
  - apply Ascii.eqb_eq in E. subst c. rewrite join_cons, IH. reflexivity.
  - destruct ls as [| l2 ls].
    + simpl in *. rewrite IH. reflexivity.
    + rewrite join_cons. rewrite join_cons in IH. rewrite <- IH. reflexivity.
Qed.

(** A string is left as it is when it has one line, and when none of its
    lines ends in white space. *)
Lemma clean_str_stable (s : string) :
  has_newline s = false \/ Forall (fun line => rstrip line = line) (split_lines s) ->
  clean_str s = s.
Proof.
  unfold clean_str, represent_str. intros [H | H].
  - rewrite H. reflexivity.
  - destruct (has_newline s); [| reflexivity]. simpl.
    assert (map rstrip (split_lines s) = split_lines s) as ->.
    { induction H as [| x r Hx Hr IH]; [reflexivity |]. simpl. rewrite Hx, IH. reflexivity. }
    apply join_split_lines.
Qed.

End Strings.

(** ** Round trip and the key [on] *)

(** The loaders and the dumpers have no table of their own: they read the
    table of [Resolver], which the loop of the module has changed in
    place. *)
Lemma shared_table (c : class) :
  In c loaders_and_dumpers ->
  table_of module_loaded c = table_of module_loaded Resolver.
Proof.
  assert (getattr module_loaded Resolver = Some 1) as Hr by (vm_compute; reflexivity).
  unfold table_of. rewrite Hr.
  intros [<- | [<- | [<- | [<- | []]]]];
    match goal with
    | |- context [getattr module_loaded ?c] =>
        replace (getattr module_loaded c) with (Some 1) by (vm_compute; reflexivity)
    end; reflexivity.
Qed.

Lemma switch_words_are_strings :
  Forall (fun w => resolve (table_of module_loaded Resolver) w = tag_str) switch_words.
Proof. repeat (constructor; [vm_compute; reflexivity |]). constructor. Qed.

Lemma loaders_agree (content : text) : safe_load content = load content.
Proof.
  unfold safe_load, load.
  rewrite (shared_table SafeLoader), (shared_table WorkflowYAMLLoader);
    [reflexivity | simpl; auto ..].
Qed.

(** C1, as the code has it.  What is loaded back from the dump of a
    document is the document with the trailing white space of every line
    of its strings of several lines stripped, and the document itself when
    it has no such white space: the entries of every mapping (the jobs) and
    the elements of every sequence (the steps) keep their order.  The key
    [on] is written as the plain scalar [on] and read as the string [on]
    by every loader, [yaml.safe_load] of [parse_workflow] included, because
    all loaders and dumpers share the table that the module has changed. *)
Theorem roundtrip_stability (d : value) :
  well_formed (clean d) ->
  load (dump d) = Ok (clean d)
  /\ safe_load (dump d) = Ok (clean d)
  /\ parse_workflow safe_load (dump d) = parse_loaded (clean d)
  /\ (clean d = d -> load (dump d) = Ok d)
  /\ (forall l, clean (List l) = List (map clean l))
  /\ (forall e, clean (Dict e) = Dict (map (fun kv => (clean_atom (fst kv), clean (snd kv))) e))
  /\ (forall s, has_newline s = false
                \/ Forall (fun line => rstrip line = line) (split_lines s) ->
                clean_atom (AStr s) = AStr s)
  /\ (forall c, In c loaders_and_dumpers ->
        table_of module_loaded c = table_of module_loaded Resolver
        /\ Forall (fun w => resolve (table_of module_loaded c) w = tag_str) switch_words)
  /\ (forall t v, load (Parsed t) = Ok v ->
        load (Parsed (Map [(Scalar None true "on", t)])) = Ok (Dict [(AStr "on", v)])
        /\ safe_load (Parsed (Map [(Scalar None true "on", t)])) = Ok (Dict [(AStr "on", v)]))
  /\ dump (Dict [(AStr "on", VStr "push")])
     = Parsed (Map [(Scalar None true "on", Scalar None true "push")]).
Proof.
  intros Hwf.
  assert (load (dump d) = Ok (clean d)) as Hload.
  { unfold load, dump, load_text.
    rewrite (shared_table WorkflowYAMLLoader), (shared_table WorkflowYAMLDumper)
      by (simpl; auto).
    apply reload. exact Hwf. }
  split; [exact Hload |]. split; [exact (eq_trans (loaders_agree _) Hload) |].
  split; [unfold parse_workflow; rewrite (eq_trans (loaders_agree _) Hload); reflexivity |].
  split; [intros E; rewrite Hload, E; reflexivity |].
  split; [reflexivity |]. split; [reflexivity |].
  split; [intros s Hs; simpl; rewrite clean_str_stable by exact Hs; reflexivity |].
  split; [| split].
  - intros c Hc. split; [apply shared_table; exact Hc |].
    rewrite (shared_table c Hc). exact switch_words_are_strings.
  - intros t v Ht.
    assert (load (Parsed (Map [(Scalar None true "on", t)])) = Ok (Dict [(AStr "on", v)]))
      as Hon.
    { unfold load, load_text in *.
      assert (construct (table_of module_loaded WorkflowYAMLLoader)
                (Scalar None true "on") = Ok (Atom (AStr "on"))) as Hkey
        by (vm_compute; reflexivity).
      cbn [construct fst snd] in *. rewrite Hkey. cbn [bind]. rewrite Ht. reflexivity. }
    split; [exact Hon |].
    exact (eq_trans (loaders_agree _) Hon).
  - vm_compute. reflexivity.
Qed.

Lemma roundtrip_stability_witness :
  load (dump ci) = Ok ci.
Proof.
  refine (proj1 (proj2 (proj2 (proj2 (roundtrip_stability ci _)))) _).
  - vm_compute. repeat split.
  - vm_compute. reflexivity.
Defined.

(** C1, as the claim has it, fails: the text [padded_text] is loaded as a
    document whose command has a line that ends in two spaces; the dump of
    that document is loaded back without the two spaces. *)
Lemma roundtrip_counterexample :
  load padded_text = Ok (Dict (script_entries padded_script))
  /\ load (dump (Dict (script_entries padded_script)))
     = Ok (Dict (script_entries stripped_script))
  /\ load (dump (Dict (script_entries padded_script)))
     <> Ok (Dict (script_entries padded_script)).
Proof.
  split; [vm_compute; reflexivity |].
  split; [vm_compute; reflexivity |].
  vm_compute. intros H. discriminate H.
Qed.

(** ** Malformed texts, on the library *)

Lemma malformed_text_outcomes_witness :
  fst (remove_job_from_workflow load dump Unparsable "build") = Unparsable
  /\ fst (detect_job_duplicates load Unparsable (dump scan_job) "Polaris" 7) = []
  /\ exists e, merge_job_into_workflow load dump Unparsable (dump scan_job)
                 "security-scan" None = Raise e.
Proof.
  destruct (malformed_text_outcomes load safe_load dump Unparsable
              ltac:(intros d; discriminate) ltac:(intros d; discriminate))
    as [_ [Hmerge [_ [Hremove [_ [Hdetect _]]]]]].
  split; [apply Hremove |]. split; [apply Hdetect | apply Hmerge].
Defined.

(** C10, as the claim has it, fails: on a text that cannot be parsed, the
    removal of a job or of steps returns the text with no error raised, and
    the detector returns no match; on the text [- build], which is a
    sequence, the removal returns the text and prints nothing. *)
Lemma malformed_text_counterexample :
  load Unparsable = Raise YAMLError
  /\ remove_job_from_workflow load dump Unparsable "build"
     = (Unparsable, [Print "Error removing job from workflow" YAMLError])
  /\ remove_steps_from_job load dump Unparsable "build" [0%Z]
     = (Unparsable, [Print "Error removing steps from job" YAMLError])
  /\ detect_job_duplicates load Unparsable (dump scan_job) "Polaris" 7
     = ([], [Print "Error normalizing YAML" YAMLError])
  /\ load list_text = Ok (List [VStr "build"])
  /\ remove_job_from_workflow load dump list_text "build" = (list_text, []).
Proof. repeat split; vm_compute; reflexivity. Qed.

(** ** Removal of jobs and of steps *)

Section Removal.

Lemma others_absent {V : Type} (k : atom) (d : list (atom * V)) :
  dict_has k d = false -> others k d = d.
Proof.
  unfold others. induction d as [| [k' v'] r IH]; simpl; [reflexivity |].
  intros H. apply orb_false_iff in H as [H1 H2]. rewrite H1. simpl.
  rewrite IH by exact H2. reflexivity.
Qed.

(** In a dict, deleting a key leaves the entries under the other keys. *)
Lemma dict_del_others {V : Type} (k : atom) (d : list (atom * V)) :
  distinct_keys d -> dict_del k d = others k d.
Proof.
  induction d as [| [k' v'] r IH]; simpl; [reflexivity |].
  intros [Hk Hr]. destruct (key_eqb k k') eqn:E; simpl.
  - symmetry. apply others_absent. rewrite (dict_has_congr k k') by exact E. exact Hk.
  - rewrite IH by exact Hr. reflexivity.
Qed.

Lemma dict_has_others {V : Type} (k : atom) (d : list (atom * V)) :
  dict_has k (others k d) = false.
Proof.
  unfold others. induction d as [| [k' v'] r IH]; simpl; [reflexivity |].
  destruct (key_eqb k k') eqn:E; simpl; [exact IH |].
  rewrite E. exact IH.
Qed.

(** Storing under a key what the key holds changes nothing. *)
Lemma dict_set_get {V : Type} (k : atom) (v : V) (d : list (atom * V)) :
  dict_get k d = Some v -> dict_set k v d = d.
Proof.
  induction d as [| [k' v'] r IH]; simpl; [discriminate |].
  destruct (key_eqb k k').
  - intros H. injection H as ->. reflexivity.
  - intros H. rewrite IH by exact H. reflexivity.
Qed.

Lemma with_jobs_same (d js : entries) :
  dict_get (AStr "jobs") d = Some (Dict js) -> with_jobs js d = Dict d.
Proof. intros H. unfold with_jobs. rewrite dict_set_get by exact H. reflexivity. Qed.

Lemma with_jobs_get (d js : entries) :
  dict_get (AStr "jobs") (dict_set (AStr "jobs") (Dict js) d) = Some (Dict js).
Proof. apply dict_get_set_same. Qed.

(** What [remove_job] returns when the job is there. *)
Lemma remove_job_eq (d js : entries) (job_name : string) :
  dict_get (AStr "jobs") d = Some (Dict js) ->
  dict_has (AStr job_name) js = true ->
  remove_job (Dict d) job_name = Ok (Some (with_jobs (dict_del (AStr job_name) js) d)).
Proof.
  intros Hjobs Hhas. unfold remove_job, with_jobs. simpl.
  rewrite (dict_has_of_get _ _ _ Hjobs). simpl. rewrite Hjobs. simpl.
  rewrite Hhas. reflexivity.
Qed.

(** What [remove_job] returns when the job is not there. *)
Lemma remove_job_none (d js : entries) (job_name : string) :
  doc_jobs d = Some js ->
  dict_has (AStr job_name) js = false ->
  remove_job (Dict d) job_name = Ok None.
Proof.
  unfold doc_jobs, remove_job. intros Hjobs Hhas. simpl.
  destruct (dict_get (AStr "jobs") d) as [jv |] eqn:Hget.
  - destruct jv as [| | js0]; try discriminate. injection Hjobs as ->.
    rewrite (dict_has_of_get _ _ _ Hget). simpl.
    rewrite Hhas. reflexivity.
  - rewrite (proj2 (dict_get_none _ _) Hget). reflexivity.
Qed.

(** What [remove_steps] returns when the job is there and has a list of
    steps. *)
Lemma remove_steps_eq (d js j : entries) (ss : list value) (t : string)
    (step_indices : list Z) :
  dict_get (AStr "jobs") d = Some (Dict js) ->
  dict_get (AStr t) js = Some (Dict j) ->
  dict_get (AStr "steps") j = Some (List ss) ->
  remove_steps (Dict d) t step_indices
  = Ok (Some (with_jobs
                (dict_set (AStr t) (with_steps (delete_steps ss step_indices) j) js) d)).
Proof.
  intros Hjobs Hjob Hsteps. unfold remove_steps, with_jobs, with_steps. simpl.
  rewrite (dict_has_of_get _ _ _ Hjobs). simpl. rewrite Hjobs. simpl.
  rewrite (dict_has_of_get _ _ _ Hjob). simpl. rewrite Hjob. simpl.
  rewrite (dict_has_of_get _ _ _ Hsteps). simpl. rewrite Hsteps. reflexivity.
Qed.

(** *** The loop that deletes steps *)

Let del_step (ss : list value) (index : Z) : list value :=
  if ((0 <=? index)%Z && (index <? Z.of_nat (List.length ss))%Z)%bool
  then list_del (Z.to_nat index) ss
  else ss.

Lemma insert_desc_in (x y : Z) (l : list Z) :
  In y (insert_desc x l) <-> y = x \/ In y l.
Proof.
  induction l as [| z r IH]; simpl.
  - intuition congruence.
  - destruct (z <? x)%Z; simpl; [intuition congruence |].
    rewrite IH. intuition congruence.
Qed.

Lemma sorted_desc_in (y : Z) (l : list Z) : In y (sorted_desc l) <-> In y l.
Proof.
  unfold sorted_desc. induction l as [| x r IH]; simpl; [tauto |].
  rewrite insert_desc_in, IH. intuition congruence.
Qed.

Lemma insert_desc_sorted (x : Z) (l : list Z) :
  descending l -> ~ In x l -> descending (insert_desc x l).
Proof.
  induction l as [| z r IH]; intros Hl Hx; simpl.
  - split; [intros y [] | exact I].
  - destruct Hl as [Hz Hr]. destruct (z <? x)%Z eqn:E.
    + apply Z.ltb_lt in E. split; [| split; assumption].
      intros y [<- | Hy]; [exact E |]. specialize (Hz y Hy). lia.
    + apply Z.ltb_ge in E. split.
      * intros y Hy. apply insert_desc_in in Hy as [-> | Hy]; [| exact (Hz y Hy)].
        assert (x <> z) by (intros ->; apply Hx; left; reflexivity). lia.
      * apply IH; [exact Hr |]. intros H. apply Hx. right. exact H.
Qed.

Lemma sorted_desc_sorted (l : list Z) : NoDup l -> descending (sorted_desc l).
Proof.
  unfold sorted_desc. induction 1 as [| x r Hx Hr IH]; simpl.
  - exact I.
  - apply insert_desc_sorted; [exact IH |].
    intros H. apply Hx. apply (sorted_desc_in x r). exact H.
Qed.

Lemma drop_indices_ext (l l' : list Z) (i : Z) (ss : list value) :
  (forall y, In y l <-> In y l') -> drop_indices l i ss = drop_indices l' i ss.
Proof.
  intros H. revert i. induction ss as [| s r IH]; intros i; simpl; [reflexivity |].
  assert (existsb (Z.eqb i) l = existsb (Z.eqb i) l') as ->.
  { apply eq_true_iff_eq. rewrite !existsb_exists. split; intros [y [Hy E]];
      exists y; (split; [apply H; exact Hy | exact E]). }
  rewrite !IH. reflexivity.
Qed.

(** No index of [l] is met from [i] on. *)
Lemma drop_indices_none (l : list Z) (i : Z) (ss : list value) :
  (forall y, In y l -> (y < i)%Z \/ (i + Z.of_nat (List.length ss) <= y)%Z) ->
  drop_indices l i ss = ss.
Proof.
  revert i. induction ss as [| s r IH]; intros i H; simpl; [reflexivity |].
  assert (existsb (Z.eqb i) l = false) as ->.
  { apply not_true_is_false. rewrite existsb_exists. intros [y [Hy E]].
    apply Z.eqb_eq in E. subst y. specialize (H i Hy). simpl in H. lia. }
  rewrite IH; [reflexivity |].
  intros y Hy. specialize (H y Hy). simpl in H. lia.
Qed.

Lemma drop_indices_skip (x : Z) (l : list Z) (i : Z) (ss : list value) :
  (x < i)%Z \/ (i + Z.of_nat (List.length ss) <= x)%Z ->
  drop_indices (x :: l) i ss = drop_indices l i ss.
Proof.
  revert i. induction ss as [| s r IH]; intros i H; simpl; [reflexivity |].
  assert ((i =? x)%Z = false) as -> by (apply Z.eqb_neq; simpl in H; lia).
  simpl. rewrite IH by (simpl in H; lia). reflexivity.
Qed.

Lemma drop_indices_del (x : Z) (l : list Z) (i : Z) (ss : list value) :
  (i <= x < i + Z.of_nat (List.length ss))%Z ->
  (forall y, In y l -> (y < x)%Z) ->
  drop_indices l i (list_del (Z.to_nat (x - i)) ss) = drop_indices (x :: l) i ss.
Proof.
  intros Hx Hl. revert i Hx. induction ss as [| s r IH]; intros i Hx.
  - simpl in Hx. lia.
  - destruct (Z.eq_dec x i) as [-> | Hne].
    + rewrite Z.sub_diag. unfold list_del. cbn [Z.to_nat firstn skipn app drop_indices existsb].
      rewrite Z.eqb_refl. simpl orb.
      rewrite drop_indices_skip by lia.
      rewrite !drop_indices_none; [reflexivity | |];
        intros y Hy; specialize (Hl y Hy); lia.
    + replace (Z.to_nat (x - i)) with (S (Z.to_nat (x - (i + 1)))) by lia.
      unfold list_del. cbn [firstn skipn app drop_indices existsb].
      assert ((i =? x)%Z = false) as -> by (apply Z.eqb_neq; lia).
      simpl orb. fold (list_del (Z.to_nat (x - (i + 1))) r).
      rewrite IH by (simpl in Hx; lia).
      reflexivity.
Qed.

Lemma delete_loop (l : list Z) (ss : list value) :
  descending l -> fold_left del_step l ss = drop_indices l 0 ss.
Proof.
  revert ss. induction l as [| x r IH]; intros ss Hl; simpl.
  - symmetry. apply drop_indices_none. intros y [].
  - destruct Hl as [Hx Hr]. rewrite IH by exact Hr. unfold del_step.
    destruct ((0 <=? x)%Z && (x <? Z.of_nat (List.length ss))%Z)%bool eqn:E.
    + apply andb_true_iff in E as [E1 E2].
      apply Z.leb_le in E1. apply Z.ltb_lt in E2.
      replace (Z.to_nat x) with (Z.to_nat (x - 0)) by (f_equal; lia).
      apply drop_indices_del; [lia | exact Hx].
    + symmetry. apply drop_indices_skip.
      apply andb_false_iff in E as [E | E];
        [apply Z.leb_gt in E | apply Z.ltb_ge in E]; lia.
Qed.

(** The loop deletes the steps at the indices it is given, each once,
    whatever their order; an index that is negative or past the end is
    passed over. *)
Lemma delete_steps_drop (ss : list value) (step_indices : list Z) :
  NoDup step_indices -> delete_steps ss step_indices = drop_indices step_indices 0 ss.
Proof.
  intros Hnd. unfold delete_steps. fold del_step.
  rewrite delete_loop by (apply sorted_desc_sorted; exact Hnd).
  apply drop_indices_ext. intros y. apply sorted_desc_in.
Qed.

Lemma in_range (i n j : nat) :
  existsb (Z.eqb (Z.of_nat j)) (map Z.of_nat (seq i n)) = ((i <=? j) && (j <? i + n))%nat.
Proof.
  apply eq_true_iff_eq. rewrite existsb_exists, andb_true_iff, Nat.leb_le, Nat.ltb_lt.
  split.
  - intros [y [Hy E]]. apply in_map_iff in Hy as [m [<- Hm]].
    apply Z.eqb_eq in E. apply Nat2Z.inj in E. subst m. apply in_seq in Hm. lia.
  - intros H. exists (Z.of_nat j). split; [| apply Z.eqb_refl].
    apply in_map. apply in_seq. lia.
Qed.

(** Dropping a run of [n] indices from [i] on cuts the run out. *)
Lemma drop_indices_range (i n j : nat) (ss : list value) :
  drop_indices (map Z.of_nat (seq i n)) (Z.of_nat j) ss
  = firstn (i - j) ss ++ skipn (i + n - j) ss.
Proof.
  revert j. induction ss as [| s r IH]; intros j.
  - rewrite firstn_nil, skipn_nil. reflexivity.
  - cbn [drop_indices]. rewrite in_range.
    replace (Z.of_nat j + 1)%Z with (Z.of_nat (S j)) by lia. rewrite IH.
    destruct (i <=? j)%nat eqn:E1; [apply Nat.leb_le in E1 | apply Nat.leb_gt in E1].
    + destruct (j <? i + n)%nat eqn:E2; [apply Nat.ltb_lt in E2 | apply Nat.ltb_ge in E2];
        simpl andb; cbv iota.
      * replace (i - j) with 0 by lia. replace (i - S j) with 0 by lia.
        replace (i + n - j) with (S (i + n - S j)) by lia. reflexivity.
      * replace (i - j) with 0 by lia. replace (i - S j) with 0 by lia.
        replace (i + n - j) with 0 by lia. replace (i + n - S j) with 0 by lia.
        reflexivity.
    + simpl andb. cbv iota.
      replace (i - j) with (S (i - S j)) by lia.
      replace (i + n - j) with (S (i + n - S j)) by lia. reflexivity.
Qed.

Lemma NoDup_range (i n : nat) : NoDup (map Z.of_nat (seq i n)).
Proof.
  generalize (seq_NoDup n i). generalize (seq i n). intros l.
  induction 1 as [| x r Hx Hr IH]; simpl; constructor; [| exact IH].
  intros H. apply in_map_iff in H as [y [E Hy]].
  apply Nat2Z.inj in E. subst y. exact (Hx Hy).
Qed.

(** Deleting a run of consecutive indices cuts the run out. *)
Lemma delete_steps_range (ss : list value) (i n : nat) :
  delete_steps ss (map Z.of_nat (seq i n)) = firstn i ss ++ skipn (i + n) ss.
Proof.
  rewrite delete_steps_drop by apply NoDup_range.
  change 0%Z with (Z.of_nat 0). rewrite drop_indices_range.
  rewrite !Nat.sub_0_r. reflexivity.
Qed.

(** Cutting out what was spliced in gives back the list. *)
Lemma delete_steps_splice (ss new : list value) (i : nat) :
  i <= List.length ss ->
  delete_steps (splice i new ss) (map Z.of_nat (seq i (List.length new))) = ss.
Proof.
  intros Hi. rewrite delete_steps_range. unfold splice.
  assert (List.length (firstn i ss) = i) as Hlen by (rewrite length_firstn; lia).
  rewrite firstn_app, Hlen, Nat.sub_diag. simpl firstn at 2. rewrite app_nil_r.
  rewrite firstn_all2 by lia.
  rewrite skipn_app, Hlen.
  rewrite (skipn_all2 (firstn i ss)) by lia. simpl app.
  replace (i + List.length new - i) with (List.length new) by lia.
  rewrite skipn_app, Nat.sub_diag, skipn_all. simpl.
  apply firstn_skipn.
Qed.

End Removal.

(** ** What removal leaves *)

Lemma dict_del_fresh {V : Type} (k : atom) (v : V) (d1 d2 : list (atom * V)) :
  dict_has k d1 = false -> dict_del k (d1 ++ (k, v) :: d2) = d1 ++ d2.
Proof.
  induction d1 as [| [k' v'] r IH]; simpl.
  - rewrite key_eqb_refl. reflexivity.
  - intros H. apply orb_false_iff in H as [H1 H2]. rewrite H1, IH by exact H2.
    reflexivity.
Qed.

Lemma dict_has_split (s : string) (d : entries) :
  dict_has (AStr s) d = true -> exists pre v post, d = pre ++ (AStr s, v) :: post.
Proof.
  intros H. apply dict_has_in in H as [[k v] [Hin Hk]]. simpl in Hk.
  apply key_eqb_str in Hk. subst k.
  apply in_split in Hin as [pre [post ->]]. exists pre, v, post. reflexivity.
Qed.

(** When the document has the job, [remove_job] takes that job out of it
    and nothing else: the other jobs stay, in their order, and so does
    every other entry of the document; the job is gone afterwards. *)
Lemma remove_job_others (d js : entries) (job_name : string) :
  dict_get (AStr "jobs") d = Some (Dict js) ->
  distinct_keys js ->
  dict_has (AStr job_name) js = true ->
  remove_job (Dict d) job_name = Ok (Some (with_jobs (others (AStr job_name) js) d))
  /\ dict_has (AStr job_name) (others (AStr job_name) js) = false
  /\ others (AStr "jobs") (dict_set (AStr "jobs") (Dict (others (AStr job_name) js)) d)
     = others (AStr "jobs") d
  /\ remove_job (with_jobs (others (AStr job_name) js) d) job_name = Ok None.
Proof.
  intros Hjobs Hd Hhas. repeat split.
  - rewrite (remove_job_eq d js) by assumption.
    rewrite dict_del_others by exact Hd. reflexivity.
  - apply dict_has_others.
  - apply others_set.
  - unfold with_jobs.
    apply (remove_job_none _ (others (AStr job_name) js)).
    + unfold doc_jobs. rewrite dict_get_set_same. reflexivity.
    + apply dict_has_others.
Qed.

Section AbsentJob.

Context {text : Type}.
Variables (yaml_load : text -> result value) (yaml_dump : value -> text).

(** X2.  When the text is a mapping that has no job of that name,
    [remove_job_from_workflow] and [remove_steps_from_job] return the text
    they were given, character for character, and print nothing: the
    document is not dumped again.  [remove_steps_from_job] does the same
    when the job is a mapping whose [steps] are missing or are not a
    list. *)
Theorem removal_of_absent_keeps_text (content : text) (d js : entries)
    (job_name : string) (step_indices : list Z) :
  yaml_load content = Ok (Dict d) ->
  doc_jobs d = Some js ->
  (dict_has (AStr job_name) js = false ->
   remove_job_from_workflow yaml_load yaml_dump content job_name = (content, [])
   /\ remove_steps_from_job yaml_load yaml_dump content job_name step_indices
      = (content, []))
  /\ (forall j : entries,
        dict_get (AStr job_name) js = Some (Dict j) ->
        (forall ss, dict_get (AStr "steps") j <> Some (List ss)) ->
        remove_steps_from_job yaml_load yaml_dump content job_name step_indices
        = (content, [])).
Proof.
  intros Hload Hjobs. split.
  - intros Hhas. unfold remove_job_from_workflow, remove_steps_from_job.
    rewrite Hload. cbn [bind].
    rewrite (remove_job_none d js) by assumption.
    split; [reflexivity |].
    unfold doc_jobs in Hjobs. unfold remove_steps. simpl.
    destruct (dict_get (AStr "jobs") d) as [jv |] eqn:Hget.
    + destruct jv as [| | js0]; try discriminate. injection Hjobs as ->.
      rewrite (dict_has_of_get _ _ _ Hget). simpl. rewrite Hhas. reflexivity.
    + rewrite (proj2 (dict_get_none _ _) Hget). reflexivity.
  - intros j Hjob Hsteps. unfold remove_steps_from_job. rewrite Hload. cbn [bind].
    assert (dict_get (AStr "jobs") d = Some (Dict js)) as Hget.
    { unfold doc_jobs in Hjobs.
      destruct (dict_get (AStr "jobs") d) as [[| | js0] |]; try discriminate.
      - injection Hjobs as ->. reflexivity.
      - injection Hjobs as <-. discriminate. }
    unfold remove_steps. simpl.
    rewrite (dict_has_of_get _ _ _ Hget). simpl. rewrite Hget. simpl.
    rewrite (dict_has_of_get _ _ _ Hjob). simpl. rewrite Hjob. simpl.
    destruct (dict_get (AStr "steps") j) as [sv |] eqn:Hs.
    + rewrite (dict_has_of_get _ _ _ Hs). simpl.
      destruct sv as [a | ss | e]; try reflexivity.
      exfalso. exact (Hsteps ss eq_refl).
    + rewrite (proj2 (dict_get_none _ _) Hs). reflexivity.
Qed.

End AbsentJob.

Lemma removal_of_absent_keeps_text_witness :
  remove_job_from_workflow PyYAML.load PyYAML.dump (PyYAML.dump ci) "scan"
  = (PyYAML.dump ci, [])
  /\ remove_steps_from_job PyYAML.load PyYAML.dump (PyYAML.dump ci) "scan" [0%Z]
     = (PyYAML.dump ci, []).
Proof.
  apply (removal_of_absent_keeps_text PyYAML.load PyYAML.dump (PyYAML.dump ci)
           ci_entries ci_jobs "scan" [0%Z]).
  - vm_compute. reflexivity.
  - reflexivity.
  - reflexivity.
Defined.

(** [remove_job] undoes [merge_job] on a document that has a [jobs]
    mapping, for a new id. *)
Lemma merge_remove_dict (d js : entries) (job_id : string) :
  dict_get (AStr "jobs") d = Some (Dict js) ->
  distinct_keys js ->
  dict_has (AStr job_id) js = false ->
  forall (F : value) (insert_after : option string),
  exists merged : value,
    merge_job (Dict d) F job_id insert_after = Ok merged
    /\ remove_job merged job_id = Ok (Some (Dict d)).
Proof.
  intros Hjobs Hd Hfresh F insert_after.
  assert (doc_jobs d = Some js) as Hdoc by (unfold doc_jobs; rewrite Hjobs; reflexivity).
  rewrite (merge_job_eq d js) by exact Hdoc.
  eexists. split; [reflexivity |].
  assert (forall js' : entries,
             dict_has (AStr job_id) js' = true ->
             dict_del (AStr job_id) js' = js ->
             remove_job (with_jobs js' d) job_id = Ok (Some (Dict d))) as Hback.
  { intros js' Hhas Hdel. unfold with_jobs.
    rewrite (remove_job_eq _ js') by (try apply dict_get_set_same; exact Hhas).
    unfold with_jobs. rewrite dict_set_set, Hdel, dict_set_get by exact Hjobs.
    reflexivity. }
  destruct (names insert_after js) eqn:Hn.
  - destruct insert_after as [a |]; [| discriminate]. unfold names in Hn.
    apply andb_true_iff in Hn as [_ Ha].
    destruct (dict_has_split a js Ha) as [pre [v [post E]]]. subst js.
    rewrite rebuild_fresh by assumption.
    rewrite dict_has_app in Hfresh. apply orb_false_iff in Hfresh as [Hpre Hpost].
    simpl in Hpost. apply orb_false_iff in Hpost as [Hne Hpost].
    apply Hback.
    + rewrite dict_has_app. simpl. rewrite String.eqb_refl.
      rewrite orb_true_r. apply orb_true_r.
    + change (pre ++ (AStr a, v) :: (AStr job_id, unwrap_job F) :: post)
        with (pre ++ [(AStr a, v)] ++ (AStr job_id, unwrap_job F) :: post).
      rewrite app_assoc, dict_del_fresh.
      * rewrite <- app_assoc. reflexivity.
      * rewrite dict_has_app, Hpre. simpl. rewrite Hne. reflexivity.
  - rewrite dict_set_fresh by exact Hfresh. apply Hback.
    + rewrite dict_has_app. simpl. rewrite String.eqb_refl. apply orb_true_r.
    + rewrite dict_del_fresh by exact Hfresh. apply app_nil_r.
Qed.

(** X4.  When the job is a mapping with a list of steps and no index is
    given twice, [remove_steps] deletes the steps at the given indices,
    counted in the list as it was, in whatever order the indices come; an
    index that is negative or past the end is passed over.  The jobs, the
    other entries of the job and of the document keep their places. *)
Theorem remove_steps_drops_indices (d js j : entries) (ss : list value) (t : string)
    (step_indices : list Z) :
  dict_get (AStr "jobs") d = Some (Dict js) ->
  dict_get (AStr t) js = Some (Dict j) ->
  dict_get (AStr "steps") j = Some (List ss) ->
  NoDup step_indices ->
  remove_steps (Dict d) t step_indices
  = Ok (Some (with_jobs
                (dict_set (AStr t) (with_steps (drop_indices step_indices 0 ss) j) js) d)).
Proof.
  intros Hjobs Hjob Hsteps Hnd.
  rewrite (remove_steps_eq d js j ss) by assumption.
  rewrite delete_steps_drop by exact Hnd. reflexivity.
Qed.

Lemma remove_steps_drops_indices_witness :
  remove_steps ci "build" [7%Z; 2%Z; (-1)%Z; 0%Z]
  = Ok (Some (with_jobs
                (dict_set (AStr "build")
                   (with_steps [build_step; upload] build_job_entries) ci_jobs)
                ci_entries)).
Proof.
  apply (remove_steps_drops_indices ci_entries ci_jobs build_job_entries
           [checkout; build_step; test_step; upload] "build").
  - reflexivity.
  - reflexivity.
  - reflexivity.
  - repeat constructor; simpl; intuition discriminate.
Defined.

(** X5.  Every match that the detector of step runs reports for a job names
    a run of consecutive indices inside the steps of the job, as long as
    the template; handing these indices to [remove_steps] cuts exactly that
    run out of the job. *)
Theorem reported_run_is_removed (d js j : entries) (ss f : list value) (t : string)
    (template_name : string) (template_id : Z) (m : step_match) :
  dict_get (AStr "jobs") d = Some (Dict js) ->
  dict_get (AStr t) js = Some (Dict j) ->
  dict_get (AStr "steps") j = Some (List ss) ->
  In m (step_windows (AStr t) ss f template_name template_id) ->
  exists i : nat,
    sm_step_indices m = seq i (List.length f)
    /\ i + List.length f <= List.length ss
    /\ compare_yaml_structures (List (window ss i (List.length f))) (List f) = true
    /\ remove_steps (Dict d) t (map Z.of_nat (sm_step_indices m))
       = Ok (Some (with_jobs
                     (dict_set (AStr t)
                        (with_steps (firstn i ss ++ skipn (i + List.length f) ss) j) js)
                     d)).
Proof.
  intros Hjobs Hjob Hsteps Hin. unfold step_windows in Hin.
  apply in_map_iff in Hin as [i [<- Hi]].
  apply filter_In in Hi as [Hi Hc]. apply in_seq in Hi.
  exists i. cbn [sm_step_indices step_match_of].
  repeat split.
  - lia.
  - exact Hc.
  - rewrite (remove_steps_eq d js j ss) by assumption.
    rewrite delete_steps_range. reflexivity.
Qed.

Lemma reported_run_is_removed_witness :
  exists i : nat,
    sm_step_indices (step_match_of (AStr "twice") 2 2 "scan" 7) = seq i 2
    /\ i + 2 <= 4
    /\ compare_yaml_structures
         (List (window [checkout; build_step; checkout; build_step] i 2))
         (List [checkout; build_step]) = true
    /\ remove_steps (Dict twice_entries) "twice"
         (map Z.of_nat (sm_step_indices (step_match_of (AStr "twice") 2 2 "scan" 7)))
       = Ok (Some (with_jobs
                     (dict_set (AStr "twice")
                        (with_steps
                           (firstn i [checkout; build_step; checkout; build_step]
                              ++ skipn (i + 2) [checkout; build_step; checkout; build_step])
                           [(AStr "runs-on", VStr "ubuntu-latest");
                            (AStr "steps",
                             List [checkout; build_step; checkout; build_step])])
                        twice_jobs)
                     twice_entries)).
Proof.
  apply (reported_run_is_removed twice_entries twice_jobs
           [(AStr "runs-on", VStr "ubuntu-latest");
            (AStr "steps", List [checkout; build_step; checkout; build_step])]
           [checkout; build_step; checkout; build_step] [checkout; build_step]
           "twice" "scan" 7).
  - reflexivity.
  - reflexivity.
  - reflexivity.
  - vm_compute. right. left. reflexivity.
Defined.

(** [remove_steps] undoes [insert_step] on a job that has a list of
    steps. *)
Lemma insert_remove_dict (d js j : entries) (ss new : list value) (step_data : value)
    (t p : string) (i : nat) :
  dict_get (AStr "jobs") d = Some (Dict js) ->
  dict_get (AStr t) js = Some (Dict j) ->
  dict_get (AStr "steps") j = Some (List ss) ->
  fragment_steps step_data = Some new ->
  position_index p ss = Ok i ->
  exists inserted : value,
    insert_step (Dict d) step_data t p = Ok inserted
    /\ remove_steps inserted t (map Z.of_nat (seq i (List.length new)))
       = Ok (Some (Dict d)).
Proof.
  intros Hjobs Hjob Hsteps Hfrag Hpos.
  assert (job_steps j = Some ss) as Hjs by (unfold job_steps; rewrite Hsteps; reflexivity).
  rewrite (insert_step_eq d js j ss new) by assumption.
  rewrite Hpos. cbn [bind]. eexists. split; [reflexivity |].
  unfold with_jobs, with_steps.
  rewrite (remove_steps_eq _ (dict_set (AStr t) (Dict (dict_set (AStr "steps") (List (splice i new ss)) j)) js)
             (dict_set (AStr "steps") (List (splice i new ss)) j) (splice i new ss))
    by apply dict_get_set_same.
  rewrite delete_steps_splice by (eapply position_index_bound; exact Hpos).
  unfold with_jobs, with_steps.
  rewrite !dict_set_set.
  rewrite (dict_set_get (AStr "steps")) by exact Hsteps.
  rewrite (dict_set_get (AStr t)) by exact Hjob.
  rewrite dict_set_get by exact Hjobs.
  reflexivity.
Qed.


(** ** Deep comparison as an equivalence, and detection of what was put in *)

Section Equivalence.


Lemma deep_eq_sym (v1 : value) : forall v2, deep_eq v1 v2 -> deep_eq v2 v1.
Proof.
  induction v1 as [a | l1 IH | d1 IH] using value_induction; intros v2 H;
    inversion H as [b | e1 e2 Hk Hv | m1 m2 Hl]; subst.
  - constructor.
  - constructor. clear H. induction Hl as [| x y r1 r2 Hxy Hr IHr]; constructor.
    + inversion IH; subst. auto.
    + inversion IH; subst. auto.
  - constructor.
    + intros k. symmetry. apply Hk.
    + intros k w2 w1 H2 H1.
      pose proof (dict_get_in _ _ _ H1) as [k' [Hin _]].
      rewrite Forall_forall in IH. apply (IH _ Hin). simpl.
      exact (Hv k w1 w2 H1 H2).
Qed.

Lemma deep_eq_trans (v1 : value) :
  forall v2 v3, deep_eq v1 v2 -> deep_eq v2 v3 -> deep_eq v1 v3.
Proof.
  induction v1 as [a | l1 IH | d1 IH] using value_induction; intros v2 v3 H12 H23;
    inversion H12 as [b | e1 e2 Hk Hv | m1 m2 Hl]; subst;
    inversion H23 as [b' | e1' e2' Hk' Hv' | m1' m2' Hl']; subst.
  - constructor.
  - constructor. clear H12 H23. revert m2' Hl'.
    induction Hl as [| x y r1 r2 Hxy Hr IHr]; intros l3 Hl3;
      inversion Hl3; subst; constructor.
    + inversion IH; subst. eauto.
    + inversion IH; subst. eauto.
  - constructor.
    + intros k. rewrite Hk. apply Hk'.
    + intros k w1 w3 H1 H3.
      assert (dict_has k e2 = true) as Hhas.
      { rewrite <- Hk. apply dict_has_get. eauto. }
      apply dict_has_get in Hhas as [w2 H2].
      pose proof (dict_get_in _ _ _ H1) as [k' [Hin _]].
      rewrite Forall_forall in IH. apply (IH _ Hin w2); simpl; eauto.
Qed.


(** No value is deeply equal to a mapping that holds it. *)
Lemma deep_eq_not_inside (v : value) :
  forall (k : atom) (d : entries), dict_get k d = Some v -> ~ deep_eq v (Dict d).
Proof.
  induction v as [a | l IH | d1 IH] using value_induction; intros k d Hget H;
    inversion H as [b | e1 e2 Hk Hv | m1 m2 Hl]; subst.
  assert (dict_has k d1 = true) as Hhas.
  { rewrite Hk. apply dict_has_get. eauto. }
  apply dict_has_get in Hhas as [v1 H1].
  pose proof (dict_get_in _ _ _ H1) as [k' [Hin _]].
  rewrite Forall_forall in IH.
  exact (IH _ Hin k d1 H1 (Hv k v1 (Dict d1) H1 Hget)).
Qed.

End Equivalence.

(** X7.  On values whose mappings have pairwise different keys, as every
    loaded document has, the answer of [compare_yaml_structures] does not
    depend on which of the two values is the workflow and which the
    template, and two values that match a third match each other. *)
Theorem compare_symmetric_transitive (a b c : value) :
  well_formed a ->
  well_formed b ->
  compare_yaml_structures a b = compare_yaml_structures b a
  /\ (compare_yaml_structures a b = true ->
      compare_yaml_structures b c = true ->
      compare_yaml_structures a c = true)
  /\ (compare_yaml_structures a b = true ->
      compare_yaml_structures a c = compare_yaml_structures b c).
Proof.
  intros Wa Wb.
  assert (compare_yaml_structures a b = compare_yaml_structures b a) as Hsym.
  { destruct (compare_yaml_structures a b) eqn:E1,
             (compare_yaml_structures b a) eqn:E2; try reflexivity.
    - apply (compare_deep_eq a Wa), deep_eq_sym, (compare_deep_eq b Wb) in E1. congruence.
    - apply (compare_deep_eq b Wb), deep_eq_sym, (compare_deep_eq a Wa) in E2. congruence. }
  assert (forall x, compare_yaml_structures a b = true ->
                    compare_yaml_structures b x = true ->
                    compare_yaml_structures a x = true) as Htrans.
  { intros x H1 H2.
    apply (compare_deep_eq a Wa) in H1. apply (compare_deep_eq b Wb) in H2.
    apply (compare_deep_eq a Wa). exact (deep_eq_trans a b x H1 H2). }
  split; [exact Hsym |]. split; [apply Htrans |].
  intros Hab.
  destruct (compare_yaml_structures b c) eqn:Hbc; [apply Htrans; assumption |].
  destruct (compare_yaml_structures a c) eqn:Hac; [| reflexivity].
  rewrite <- Hbc. symmetry.
  apply (compare_deep_eq b Wb).
  apply (deep_eq_trans b a c).
  - apply deep_eq_sym. apply (compare_deep_eq a Wa). exact Hab.
  - apply (compare_deep_eq a Wa). exact Hac.
Qed.

Lemma compare_symmetric_transitive_witness :
  compare_yaml_structures scan_job scan_job_permuted
  = compare_yaml_structures scan_job_permuted scan_job
  /\ (compare_yaml_structures scan_job scan_job_permuted = true ->
      compare_yaml_structures scan_job_permuted scan_job_reordered = true ->
      compare_yaml_structures scan_job scan_job_reordered = true)
  /\ (compare_yaml_structures scan_job scan_job_permuted = true ->
      compare_yaml_structures scan_job scan_job_reordered
      = compare_yaml_structures scan_job_permuted scan_job_reordered).
Proof.
  apply (compare_symmetric_transitive scan_job scan_job_permuted scan_job_reordered).
  - simpl. repeat split; reflexivity.
  - simpl. repeat split; reflexivity.
Defined.

Section Detection.

Variables (template_name : string) (template_id : Z).

Lemma dict_set_length {V : Type} (k : atom) (v : V) (d : list (atom * V)) :
  (List.length (dict_set k v d) =? 0)%nat = false.
Proof.
  destruct d as [| [k' v'] r]; simpl; [reflexivity |].
  destruct (key_eqb k k'); reflexivity.
Qed.

(** The detector of jobs on a document with the jobs [js]. *)
Lemma job_duplicates_with_jobs (d js f : entries) :
  f <> [] ->
  job_duplicates (with_jobs js d) (Dict f) template_name template_id
  = Ok (map (fun it => job_match_of (fst it) template_name template_id)
          (filter (fun it => compare_yaml_structures (snd it) (Dict f)) js)).
Proof.
  intros Hf. unfold job_duplicates, with_jobs. cbn [truthy].
  rewrite dict_set_length.
  destruct f as [| kv f0]; [contradiction |]. cbn [List.length Nat.eqb negb orb].
  unfold get. rewrite dict_get_set_same. reflexivity.
Qed.

(** The detector of step runs on a document whose jobs [js] are all
    mappings. *)
Lemma step_duplicates_with_jobs (d js : entries) (f : list value) :
  f <> [] ->
  (forall name J, In (name, J) js -> exists j, J = Dict j) ->
  step_duplicates (with_jobs js d) (List f) template_name template_id
  = (flat_map (job_windows f template_name template_id) js, None).
Proof.
  intros Hf Hall. unfold step_duplicates, with_jobs. cbn [truthy].
  rewrite dict_set_length.
  destruct f as [| x f0] eqn:E; [contradiction |]. cbn [List.length Nat.eqb negb orb].
  unfold get. rewrite dict_get_set_same. cbn [items].
  apply scan_steps_all; [discriminate | exact Hall].
Qed.

Lemma in_dict_set {V : Type} (k k0 : atom) (v v0 : V) (d : list (atom * V)) :
  In (k, v) (dict_set k0 v0 d) -> In (k, v) d \/ v = v0.
Proof.
  induction d as [| [k1 v1] r IH]; simpl.
  - intros [H | []]. right. congruence.
  - destruct (key_eqb k0 k1); simpl.
    + intros [H | H]; [right; congruence | left; right; exact H].
    + intros [H | H]; [left; left; exact H |].
      destruct (IH H) as [H' | H']; [left; right; exact H' | right; exact H'].
Qed.

Lemma dict_set_in (s : string) (v v0 : value) (d : entries) :
  dict_get (AStr s) d = Some v0 -> In (AStr s, v) (dict_set (AStr s) v d).
Proof.
  induction d as [| [k1 v1] r IH]; cbn [dict_set dict_get]; [discriminate |].
  destruct (key_eqb (AStr s) k1) eqn:E.
  - intros _. apply key_eqb_str in E. subst k1. left. reflexivity.
  - intros H. right. exact (IH H).
Qed.

Lemma window_splice (ss new : list value) (i : nat) :
  i <= List.length ss -> window (splice i new ss) i (List.length new) = new.
Proof.
  intros Hi. unfold window, splice.
  assert (List.length (firstn i ss) = i) as Hlen by (rewrite length_firstn; lia).
  rewrite skipn_app, Hlen, Nat.sub_diag.
  rewrite (skipn_all2 (firstn i ss)) by lia. simpl.
  rewrite firstn_app, Nat.sub_diag. simpl. rewrite app_nil_r.
  apply firstn_all.
Qed.

Lemma splice_length (ss new : list value) (i : nat) :
  List.length (splice i new ss) = List.length ss + List.length new.
Proof.
  unfold splice. rewrite !length_app.
  pose proof (firstn_skipn i ss) as E. apply (f_equal (@List.length value)) in E.
  rewrite length_app in E. lia.
Qed.

End Detection.

(** X9.  A job fragment that is a mapping of one key is stored without that
    key, whereas the detector of jobs compares every job with the fragment
    as it is given: after [merge_job] has put such a fragment into a
    workflow under a new id, the detector, given the same fragment, does
    not report the job of that id. *)
Theorem wrapped_job_is_not_detected (d js : entries) (k : atom) (inner : value)
    (job_id template_name : string) (template_id : Z) (insert_after : option string) :
  doc_jobs d = Some js ->
  distinct_keys js ->
  dict_has (AStr job_id) js = false ->
  well_formed inner ->
  exists (merged : value) (found : list job_match),
    merge_job (Dict d) (Dict [(k, inner)]) job_id insert_after = Ok merged
    /\ job_duplicates merged (Dict [(k, inner)]) template_name template_id = Ok found
    /\ ~ In (job_match_of (AStr job_id) template_name template_id) found.
Proof.
  intros Hdoc Hd Hfresh W.
  rewrite (merge_job_eq d js) by exact Hdoc. cbn [unwrap_job].
  eexists. eexists. split; [reflexivity |].
  rewrite job_duplicates_with_jobs by discriminate. split; [reflexivity |].
  intros Hin. apply in_map_iff in Hin as [[name J] [Heq Hin]].
  apply filter_In in Hin as [Hin Hc]. simpl in Heq, Hc.
  apply (f_equal jm_job_name) in Heq. simpl in Heq. subst name.
  assert (J = inner) as ->.
  { assert (forall pre post : entries,
               dict_has (AStr job_id) (pre ++ post) = false ->
               In (AStr job_id, J) (pre ++ (AStr job_id, inner) :: post) -> J = inner) as Hone.
    { intros pre post Hf Hi. rewrite dict_has_app in Hf.
      apply orb_false_iff in Hf as [Hpre Hpost].
      apply in_app_or in Hi as [Hi | [Hi | Hi]].
      - pose proof (proj1 (dict_has_false_in _ _) Hpre _ Hi) as Hk. simpl in Hk.
        rewrite String.eqb_refl in Hk. discriminate.
      - congruence.
      - pose proof (proj1 (dict_has_false_in _ _) Hpost _ Hi) as Hk. simpl in Hk.
        rewrite String.eqb_refl in Hk. discriminate. }
    destruct (names insert_after js) eqn:Hn.
    - destruct insert_after as [a |]; [| discriminate]. unfold names in Hn.
      apply andb_true_iff in Hn as [_ Ha].
      destruct (dict_has_split a js Ha) as [pre [v [post E]]]. subst js.
      rewrite rebuild_fresh in Hin by assumption.
      apply (Hone (pre ++ [(AStr a, v)]) post).
      + rewrite <- app_assoc. exact Hfresh.
      + rewrite <- app_assoc. exact Hin.
    - rewrite dict_set_fresh in Hin by exact Hfresh.
      apply (Hone js []); [rewrite app_nil_r; exact Hfresh | exact Hin]. }
  apply (compare_deep_eq inner W) in Hc.
  apply (deep_eq_not_inside inner k [(k, inner)]); [| exact Hc].
  simpl. rewrite key_eqb_refl. reflexivity.
Qed.

Lemma wrapped_job_is_not_detected_witness :
  exists (merged : value) (found : list job_match),
    merge_job ci (Dict [(AStr "polaris-scan", scan_job)]) "scan" None = Ok merged
    /\ job_duplicates merged (Dict [(AStr "polaris-scan", scan_job)]) "scan" 7 = Ok found
    /\ ~ In (job_match_of (AStr "scan") "scan" 7) found.
Proof.
  apply (wrapped_job_is_not_detected ci_entries ci_jobs (AStr "polaris-scan") scan_job
           "scan" "scan" 7 None).
  - reflexivity.
  - simpl. repeat split; reflexivity.
  - reflexivity.
  - simpl. repeat split; reflexivity.
Defined.


(** ** Patterns and substrings *)

Section Patterns.

Import Re.

Lemma prefix_app (w s : string) : String.prefix w (w ++ s) = true.
Proof.
  induction w as [| c w IH]; simpl; [destruct s; reflexivity |].
  destruct (ascii_dec c c) as [_ | N]; [exact IH | contradiction].
Qed.

Lemma prefix_split (w s : string) :
  String.prefix w s = true -> exists r, s = (w ++ r)%string.
Proof.
  revert s. induction w as [| c w IH]; intros s; simpl.
  - intros _. exists s. reflexivity.
  - destruct s as [| c' s]; simpl; [discriminate |].
    destruct (ascii_dec c c') as [<- | N]; [| discriminate].
    intros H. destruct (IH s H) as [r ->]. exists r. reflexivity.
Qed.

Lemma str_in_prefix (w s : string) : String.prefix w s = true -> str_in w s = true.
Proof. intros H. destruct s; cbn [str_in]; rewrite H; reflexivity. Qed.

(** [w in s] holds exactly when [w] lies somewhere in [s]. *)
Lemma str_in_iff (w s : string) :
  str_in w s = true <-> exists pre post, s = (pre ++ w ++ post)%string.
Proof.
  split.
  - induction s as [| c s IH]; cbn [str_in].
    + rewrite orb_false_r. intros H. apply prefix_split in H as [r ->].
      exists EmptyString, r. reflexivity.
    + intros H. apply orb_true_iff in H as [H | H].
      * apply prefix_split in H as [r ->]. exists EmptyString, r. reflexivity.
      * destruct (IH H) as [pre [post ->]]. exists (String c pre), post. reflexivity.
  - intros [pre [post ->]]. induction pre as [| c pre IH].
    + cbn [String.append]. apply str_in_prefix. apply prefix_app.
    + cbn [String.append str_in]. rewrite IH. apply orb_true_r.
Qed.

Lemma string_app_assoc (a b c : string) : ((a ++ b) ++ c = a ++ (b ++ c))%string.
Proof. induction a as [| x a IH]; simpl; [reflexivity | rewrite IH; reflexivity]. Qed.

Lemma string_app_nil_r (a : string) : (a ++ EmptyString)%string = a.
Proof. induction a as [| x a IH]; simpl; [reflexivity | rewrite IH; reflexivity]. Qed.

(** [in] is transitive. *)
Lemma str_in_trans (a b c : string) :
  str_in a b = true -> str_in b c = true -> str_in a c = true.
Proof.
  rewrite !str_in_iff. intros [p1 [q1 ->]] [p2 [q2 ->]].
  exists (p2 ++ p1)%string, (q1 ++ q2)%string.
  rewrite !string_app_assoc. reflexivity.
Qed.

(** A literal matches where it stands. *)
Lemma accepts_lit (w s : string) (k : string -> bool) :
  accepts (lit w) s k = true <-> exists r, s = (w ++ r)%string /\ k r = true.
Proof.
  revert s. induction w as [| c w IH]; intros s; simpl.
  - split; [intros H; exists s; auto | intros [r [-> H]]; exact H].
  - destruct s as [| c' s].
    + split; [discriminate | intros [r [E _]]; discriminate].
    + rewrite andb_true_iff, IH. split.
      * intros [E [r [-> H]]]. apply Ascii.eqb_eq in E. subst c'. exists r. auto.
      * intros [r [E H]]. injection E as -> ->. split; [apply Ascii.eqb_refl | eauto].
Qed.

(** One step of a starred character class. *)
Lemma accepts_star_chr (p : ascii -> bool) (s : string) (k : string -> bool) :
  accepts (Star (Chr p)) s k
  = k s || match s with
           | String c s' => p c && accepts (Star (Chr p)) s' k
           | EmptyString => false
           end.
Proof.
  destruct s as [| c s'].
  - reflexivity.
  - cbn [accepts String.length].
    rewrite (proj2 (Nat.ltb_lt _ _) (Nat.lt_succ_diag_r _)). reflexivity.
Qed.

(** What a plain pattern accepts, it accepts with more text after it. *)
Lemma accepts_append (r : re) :
  plain r = true ->
  forall (s t : string) (k k' : string -> bool),
    (forall s', k s' = true -> k' (s' ++ t)%string = true) ->
    accepts r s k = true -> accepts r (s ++ t)%string k' = true.
Proof.
  induction r as [| p | a IHa b IHb | a IHa b IHb | a IHa |]; intros Hp s t k k' Hk;
    try discriminate.
  - simpl. apply Hk.
  - destruct s as [| c s]; simpl; [discriminate |].
    intros H. apply andb_true_iff in H as [H1 H2]. rewrite H1. simpl. apply Hk. exact H2.
  - simpl in Hp. apply andb_true_iff in Hp as [Ha Hb]. cbn [accepts].
    apply (IHa Ha). intros s'. apply (IHb Hb). exact Hk.
  - simpl in Hp. apply andb_true_iff in Hp as [Ha Hb]. cbn [accepts].
    intros H. apply orb_true_iff in H as [H | H].
    + rewrite (IHa Ha s t k k' Hk H). reflexivity.
    + rewrite (IHb Hb s t k k' Hk H). apply orb_true_r.
  - destruct a as [| p | | | |]; try discriminate. clear IHa Hp.
    induction s as [| c s IH].
    + rewrite accepts_star_chr, orb_false_r. intros H.
      rewrite accepts_star_chr. rewrite (Hk _ H). reflexivity.
    + rewrite accepts_star_chr. intros H. apply orb_true_iff in H as [H | H].
      * rewrite accepts_star_chr. rewrite (Hk _ H). reflexivity.
      * apply andb_true_iff in H as [H1 H2].
        rewrite accepts_star_chr. cbn [String.append]. rewrite H1, (IH H2).
        apply orb_true_r.
Qed.

(** What the pattern finds, it finds in a longer text. *)
Lemma search_grows (r : re) (t : string) :
  (forall s, accepts r s (fun _ => true) = true ->
             accepts r (s ++ t)%string (fun _ => true) = true) ->
  forall pre s, search r s = true -> search r (pre ++ s ++ t)%string = true.
Proof.
  intros Hr pre s H. induction pre as [| c pre IH].
  - simpl. induction s as [| c s IH].
    + simpl in H. rewrite orb_false_r in H. specialize (Hr _ H). simpl in Hr.
      destruct t; simpl; rewrite Hr; reflexivity.
    + simpl in H. apply orb_true_iff in H as [H | H].
      * specialize (Hr _ H). cbn [String.append search] in *. rewrite Hr. reflexivity.
      * cbn [String.append search]. rewrite (IH H). apply orb_true_r.
  - cbn [String.append search]. rewrite IH. apply orb_true_r.
Qed.

Lemma search_grows_plain (r : re) (pre s t : string) :
  plain r = true -> search r s = true -> search r (pre ++ s ++ t)%string = true.
Proof.
  intros Hp. apply search_grows. intros s0.
  apply (accepts_append r Hp). reflexivity.
Qed.

(** The literal a pattern begins with lies in every text where the pattern
    is found. *)
Lemma search_lit_in (w : string) (r : re) (s : string) :
  search (Cat (lit w) r) s = true -> str_in w s = true.
Proof.
  induction s as [| c s IH]; cbn [search accepts].
  - rewrite orb_false_r. intros H. apply accepts_lit in H as [r0 [E _]].
    rewrite E. apply str_in_prefix, prefix_app.
  - intros H. apply orb_true_iff in H as [H | H].
    + apply accepts_lit in H as [r0 [E _]]. rewrite E. apply str_in_prefix, prefix_app.
    + cbn [str_in]. rewrite (IH H). apply orb_true_r.
Qed.

Lemma search_lit_only (w s : string) : search (lit w) s = true -> str_in w s = true.
Proof.
  induction s as [| c s IH]; cbn [search].
  - rewrite orb_false_r. intros H. apply accepts_lit in H as [r0 [E _]].
    rewrite E. apply str_in_prefix, prefix_app.
  - intros H. apply orb_true_iff in H as [H | H].
    + apply accepts_lit in H as [r0 [E _]]. rewrite E. apply str_in_prefix, prefix_app.
    + cbn [str_in]. rewrite (IH H). apply orb_true_r.
Qed.

(** A literal is found wherever it lies. *)
Lemma search_lit (w s : string) : str_in w s = true -> search (lit w) s = true.
Proof.
  intros H. apply str_in_iff in H as [pre [post ->]].
  induction pre as [| c pre IH].
  - assert (accepts (lit w) (w ++ post) (fun _ => true) = true) as E
        by (apply accepts_lit; eauto).
    simpl. destruct (w ++ post)%string; simpl; rewrite E; reflexivity.
  - cbn [String.append search]. rewrite IH. apply orb_true_r.
Qed.

(** What comes after [.*] in a pattern lies in every text where the
    pattern is found. *)
Lemma accepts_dot_star_lit (w s : string) (k : string -> bool) :
  accepts (Cat dot_star (lit w)) s k = true -> str_in w s = true.
Proof.
  change (accepts (Cat dot_star (lit w)) s k)
    with (accepts (Star dot) s (fun s' => accepts (lit w) s' k)).
  unfold dot. induction s as [| c s IH]; rewrite accepts_star_chr.
  - rewrite orb_false_r. intros H. apply accepts_lit in H as [r0 [E _]].
    rewrite E. apply str_in_prefix, prefix_app.
  - intros H. apply orb_true_iff in H as [H | H].
    + apply accepts_lit in H as [r0 [E _]]. rewrite E. apply str_in_prefix, prefix_app.
    + apply andb_true_iff in H as [_ H]. cbn [str_in]. rewrite (IH H). apply orb_true_r.
Qed.

Lemma search_lit_star_lit (a w s : string) :
  search (Cat (lit a) (Cat dot_star (lit w))) s = true -> str_in w s = true.
Proof.
  assert (forall s, accepts (Cat (lit a) (Cat dot_star (lit w))) s (fun _ => true) = true ->
                    str_in w s = true) as Hacc.
  { intros s0 H.
    change (accepts (lit a) s0 (fun s' => accepts (Cat dot_star (lit w)) s' (fun _ => true))
            = true) in H.
    apply accepts_lit in H as [r0 [-> H]].
    apply (accepts_dot_star_lit w r0 (fun _ => true)) in H.
    apply str_in_iff in H as [pre [post ->]].
    apply str_in_iff. exists (a ++ pre)%string, post.
    rewrite string_app_assoc. reflexivity. }
  induction s as [| c s IH]; cbn [search].
  - rewrite orb_false_r. apply Hacc.
  - intros H. apply orb_true_iff in H as [H | H].
    + apply Hacc. exact H.
    + cbn [str_in]. rewrite (IH H). apply orb_true_r.
Qed.

End Patterns.

(** ** The analysis of a step *)

Section StepAnalysis.

Import Re.

(** The text that [_analyze_step] reads the command as. *)
Let run_text_of (info : StepAnalysis) : string := lower (Repr.str (step_run info)).

(** What [step_info] returns, field by field. *)
Lemma step_info_fields (step : value) (info : StepAnalysis) :
  step_info step = Ok info ->
  get step "run" VNone = Ok (step_run info)
  /\ get step "uses" VNone = Ok (step_uses info)
  /\ is_build_step info
     = truthy (step_run info) && matches_any BUILD_PATTERNS (run_text_of info)
  /\ is_test_step info
     = truthy (step_run info) && matches_any TEST_PATTERNS (run_text_of info)
  /\ build_tool info
     = (if is_build_step info then _extract_build_tool (run_text_of info) else None)
  /\ (truthy (step_uses info) = false ->
      is_security_scan info
      = truthy (step_run info) && matches_any SECURITY_TOOL_PATTERNS (run_text_of info)
      /\ security_tool info
         = (if is_security_scan info then _extract_security_tool (run_text_of info)
            else None)).
Proof.
  unfold step_info, run_text_of.
  destruct (get step "name" (VStr "Unnamed step")) as [name |]; [| discriminate].
  destruct (get step "uses" VNone) as [uses |]; [| discriminate].
  destruct (get step "run" VNone) as [run |]; [| discriminate].
  cbn [bind].
  destruct (truthy run) eqn:Hrun; destruct (truthy uses) eqn:Huses;
    try destruct (matches_any SECURITY_TOOL_PATTERNS (lower (Repr.str uses)));
    intros H; injection H as <-; cbn [step_run step_uses is_build_step is_test_step
      build_tool is_security_scan security_tool]; rewrite ?Hrun, ?Huses;
    repeat split; try reflexivity; try discriminate;
    try (destruct (matches_any BUILD_PATTERNS (lower (Repr.str run))); reflexivity);
    try (destruct (matches_any SECURITY_TOOL_PATTERNS (lower (Repr.str run))); reflexivity).
Qed.

(** The two flags of [_analyze_step] are those of [step_info]. *)
Lemma analyze_step_flags (step : value) :
  _analyze_step step
  = (info <- step_info step ;; Ok (is_build_step info, is_test_step info)).
Proof.
  unfold _analyze_step, step_info.
  destruct (get step "name" (VStr "Unnamed step")) as [name |]; [| reflexivity].
  destruct (get step "uses" VNone) as [uses |]; [| reflexivity].
  destruct (get step "run" VNone) as [run |]; [| reflexivity].
  cbn [bind].
  destruct (truthy run); destruct (truthy uses);
    try destruct (matches_any SECURITY_TOOL_PATTERNS (lower (Repr.str uses)));
    reflexivity.
Qed.

(** A command in which a build pattern is found names a build tool. *)
Lemma build_pattern_tool (text : string) :
  matches_any BUILD_PATTERNS text = true -> _extract_build_tool text <> None.
Proof.
  unfold matches_any, BUILD_PATTERNS. cbn [existsb]. rewrite !orb_true_iff.
  intros H. unfold _extract_build_tool.
  destruct (str_in "mvn" text) eqn:E1; [discriminate |].
  destruct (str_in "maven" text) eqn:E1'; [discriminate |].
  destruct (str_in "gradle" text) eqn:E2; [discriminate |].
  destruct (str_in "npm" text) eqn:E3; [discriminate |].
  destruct (str_in "dotnet" text) eqn:E4; [discriminate |].
  destruct (str_in "go" text) eqn:E5;
    destruct (str_in "build" text) eqn:E5'; try discriminate;
    (destruct (str_in "cargo" text) eqn:E6; [discriminate |]);
    (destruct (str_in "make" text) eqn:E7; [discriminate |]);
    cbn [orb andb]; exfalso;
    destruct H as [H | [H | [H | [H | [H | [H | [H | H]]]]]]];
    try discriminate H;
    try (apply search_lit_in in H; congruence);
    pose proof (search_lit_in _ _ _ H) as H1;
    pose proof (search_lit_star_lit _ _ _ H) as H2; congruence.
Qed.

End StepAnalysis.

(** X11.  A step that [_analyze_step] takes for a build step is given a
    build tool: whenever [is_build_step] is true, [build_tool] is not
    [None], and it is what [_extract_build_tool] reads in the command of
    the step in lower case. *)
Theorem build_step_has_tool (step : value) (info : StepAnalysis) :
  step_info step = Ok info ->
  is_build_step info = true ->
  build_tool info = _extract_build_tool (lower (Repr.str (step_run info)))
  /\ build_tool info <> None.
Proof.
  intros Hinfo Hb.
  destruct (step_info_fields step info Hinfo) as [_ [_ [Hbuild [_ [Htool _]]]]].
  rewrite Hb in Htool. split; [exact Htool |].
  rewrite Htool. apply build_pattern_tool.
  rewrite Hb in Hbuild. symmetry in Hbuild. apply andb_true_iff in Hbuild as [_ H].
  exact H.
Qed.

Lemma build_step_has_tool_witness :
  build_tool
    {| step_name := VStr "Build"; step_uses := VNone; step_run := VStr "npm run build";
       is_build_step := true; is_test_step := false; is_security_scan := false;
       build_tool := Some "npm"; language := None; security_tool := None |}
  = _extract_build_tool (lower (Repr.str (VStr "npm run build")))
  /\ Some "npm" <> None.
Proof.
  apply (build_step_has_tool build_step
           {| step_name := VStr "Build"; step_uses := VNone;
              step_run := VStr "npm run build";
              is_build_step := true; is_test_step := false; is_security_scan := false;
              build_tool := Some "npm"; language := None; security_tool := None |}).
  - vm_compute. reflexivity.
  - reflexivity.
Defined.

(** X12.  [_extract_build_tool] looks for [go] before it looks for [cargo],
    and [cargo] has [go] in it: a step whose command has [cargo] followed
    by [build] is a build step whose tool is never [cargo]; it is [go],
    unless the command also names one of the tools that are looked for
    earlier. *)
Theorem cargo_build_is_not_cargo (step : value) (info : StepAnalysis) :
  step_info step = Ok info ->
  truthy (step_run info) = true ->
  Re.search (Re.cat [Re.lit "cargo"; Re.dot_star; Re.lit "build"])
    (lower (Repr.str (step_run info))) = true ->
  is_build_step info = true
  /\ build_tool info <> Some "cargo"
  /\ (build_tool info = Some "go"
      \/ build_tool info = Some "maven" \/ build_tool info = Some "gradle"
      \/ build_tool info = Some "npm" \/ build_tool info = Some "dotnet").
Proof.
  intros Hinfo Hrun Hs.
  destruct (step_info_fields step info Hinfo) as [_ [_ [Hbuild [_ [Htool _]]]]].
  assert (is_build_step info = true) as Hb.
  { rewrite Hbuild, Hrun. unfold matches_any, BUILD_PATTERNS. cbn [existsb andb].
    rewrite Hs. rewrite !orb_true_r. reflexivity. }
  rewrite Hb in Htool. split; [exact Hb |].
  pose proof (search_lit_in _ _ _ Hs) as Hcargo.
  pose proof (search_lit_star_lit _ _ _ Hs) as Hbuildw.
  assert (str_in "go" (lower (Repr.str (step_run info))) = true) as Hgo.
  { apply (str_in_trans "go" "cargo"); [reflexivity | exact Hcargo]. }
  rewrite Htool. unfold _extract_build_tool. rewrite Hgo, Hbuildw. cbn [andb].
  destruct (str_in "mvn" _ || str_in "maven" _);
    [split; [discriminate | tauto] |].
  destruct (str_in "gradle" _); [split; [discriminate | tauto] |].
  destruct (str_in "npm" _); [split; [discriminate | tauto] |].
  destruct (str_in "dotnet" _); [split; [discriminate | tauto] |].
  split; [discriminate | tauto].
Qed.

Lemma cargo_build_is_not_cargo_witness :
  is_build_step
    {| step_name := VStr "Build"; step_uses := VNone;
       step_run := VStr "cargo build --release";
       is_build_step := true; is_test_step := false; is_security_scan := false;
       build_tool := Some "go"; language := None; security_tool := None |} = true
  /\ Some "go" <> Some "cargo"
  /\ (Some "go" = Some "go"
      \/ Some "go" = Some "maven" \/ Some "go" = Some "gradle"
      \/ Some "go" = Some "npm" \/ Some "go" = Some "dotnet").
Proof.
  apply (cargo_build_is_not_cargo (step "Build" "cargo build --release")
           {| step_name := VStr "Build"; step_uses := VNone;
              step_run := VStr "cargo build --release";
              is_build_step := true; is_test_step := false; is_security_scan := false;
              build_tool := Some "go"; language := None; security_tool := None |}).
  - vm_compute. reflexivity.
  - reflexivity.
  - vm_compute. reflexivity.
Defined.

(** X13.  [SECURITY_TOOL_PATTERNS] knows [owasp], [_extract_security_tool]
    does not: a step without an action whose command has [owasp] in it and
    none of the names that [_extract_security_tool] looks for is flagged as
    a security scan, and its [security_tool] is [None]. *)
Theorem owasp_scan_has_no_tool (step : value) (info : StepAnalysis) :
  step_info step = Ok info ->
  truthy (step_run info) = true ->
  truthy (step_uses info) = false ->
  str_in "owasp" (lower (Repr.str (step_run info))) = true ->
  Forall (fun w => str_in w (lower (Repr.str (step_run info))) = false)
    ["polaris"; "coverity"; "blackduck"; "black-duck"; "codeql"; "snyk"; "sonar"] ->
  is_security_scan info = true /\ security_tool info = None.
Proof.
  intros Hinfo Hrun Huses Ho Hnone.
  destruct (step_info_fields step info Hinfo) as [_ [_ [_ [_ [_ Hsec]]]]].
  destruct (Hsec Huses) as [Hscan Htool].
  assert (is_security_scan info = true) as Hs.
  { rewrite Hscan, Hrun. unfold matches_any, SECURITY_TOOL_PATTERNS. cbn [existsb andb].
    rewrite (search_lit "owasp") by exact Ho. rewrite !orb_true_r. reflexivity. }
  split; [exact Hs |]. rewrite Htool, Hs.
  repeat match goal with
         | H : Forall _ (_ :: _) |- _ => inversion H; subst; clear H
         end.
  assert (str_in "sonarqube" (lower (Repr.str (step_run info))) = false) as Hq.
  { destruct (str_in "sonarqube" _) eqn:E; [| reflexivity].
    assert (str_in "sonar" (lower (Repr.str (step_run info))) = true) as E'
        by (apply (str_in_trans "sonar" "sonarqube"); [reflexivity | exact E]).
    congruence. }
  unfold _extract_security_tool.
  repeat match goal with
         | H : str_in _ _ = false |- _ => rewrite H; clear H
         end.
  reflexivity.
Qed.

Lemma owasp_scan_has_no_tool_witness :
  is_security_scan
    {| step_name := VStr "Scan"; step_uses := VNone;
       step_run := VStr "owasp-dependency-check --scan .";
       is_build_step := false; is_test_step := false; is_security_scan := true;
       build_tool := None; language := None; security_tool := None |} = true
  /\ @None string = None.
Proof.
  apply (owasp_scan_has_no_tool (step "Scan" "owasp-dependency-check --scan .")
           {| step_name := VStr "Scan"; step_uses := VNone;
              step_run := VStr "owasp-dependency-check --scan .";
              is_build_step := false; is_test_step := false; is_security_scan := true;
              build_tool := None; language := None; security_tool := None |}).
  - vm_compute. reflexivity.
  - reflexivity.
  - reflexivity.
  - vm_compute. reflexivity.
  - repeat constructor.
Defined.

(** ** The analysis of a job and of a workflow *)

Section Loops.

(** A loop that stops at the first exception. *)
Lemma fold_raise {A B : Type} (f : A -> B -> result A) (l : list B) (e : exn) :
  fold_left (fun acc b => a <- acc ;; f a b) l (Raise e) = Raise e.
Proof. induction l as [| b r IH]; simpl; [reflexivity | exact IH]. Qed.

Lemma fold_ok_cons {A B : Type} (f : A -> B -> result A) (b : B) (l : list B)
    (a a' : A) :
  fold_left (fun acc b => a <- acc ;; f a b) (b :: l) (Ok a) = Ok a' ->
  exists a1, f a b = Ok a1 /\ fold_left (fun acc b => a <- acc ;; f a b) l (Ok a1) = Ok a'.
Proof.
  cbn [fold_left bind]. destruct (f a b) as [a1 | e] eqn:E.
  - intros H. exists a1. split; [reflexivity | exact H].
  - rewrite fold_raise. discriminate.
Qed.

Lemma add_new_in (l : list string) (x y : string) :
  In y (add_new l x) <-> In y l \/ y = x.
Proof.
  unfold add_new. destruct (existsb (String.eqb x) l) eqn:E.
  - split; [tauto |]. intros [H | ->]; [exact H |].
    apply existsb_exists in E as [z [Hz Ez]]. apply String.eqb_eq in Ez. subst z. exact Hz.
  - rewrite in_app_iff. simpl. intuition congruence.
Qed.

Lemma add_new_NoDup (l : list string) (x : string) : NoDup l -> NoDup (add_new l x).
Proof.
  intros H. unfold add_new. destruct (existsb (String.eqb x) l) eqn:E; [exact H |].
  apply NoDup_app; [exact H | repeat constructor; intros [] |].
  intros y Hy [E' | []]. subst y.
  assert (existsb (String.eqb x) l = true) as E'; [| congruence].
  apply existsb_exists. exists x. split; [exact Hy | apply String.eqb_refl].
Qed.

Lemma add_found_NoDup (l : list string) (t : option string) :
  NoDup l -> NoDup (add_found l t).
Proof.
  intros H. destruct t as [x |]; simpl; [| exact H].
  destruct (String.eqb x EmptyString); [exact H | apply add_new_NoDup; exact H].
Qed.

Lemma fold_add_new_NoDup (xs l : list string) :
  NoDup l -> NoDup (fold_left add_new xs l).
Proof.
  revert l. induction xs as [| x r IH]; intros l H; simpl; [exact H |].
  apply IH. apply add_new_NoDup. exact H.
Qed.

Lemma fold_add_found_NoDup (ts : list (option string)) (l : list string) :
  NoDup l -> NoDup (fold_left add_found ts l).
Proof.
  revert l. induction ts as [| t r IH]; intros l H; simpl; [exact H |].
  apply IH. apply add_found_NoDup. exact H.
Qed.

Lemma add_new_nonempty (l : list string) (x : string) : add_new l x <> [].
Proof.
  unfold add_new. destruct (existsb (String.eqb x) l) eqn:E.
  - intros ->. discriminate.
  - destruct l; discriminate.
Qed.

Lemma fold_add_new_keeps (xs l : list string) :
  l <> [] -> fold_left add_new xs l <> [].
Proof.
  revert l. induction xs as [| x r IH]; intros l H; simpl; [exact H |].
  apply IH. apply add_new_nonempty.
Qed.

Lemma fold_add_new_nil (xs l : list string) :
  fold_left add_new xs l = [] <-> xs = [] /\ l = [].
Proof.
  split.
  - destruct xs as [| x r]; simpl; [tauto |].
    intros H. exfalso. exact (fold_add_new_keeps r _ (add_new_nonempty l x) H).
  - intros [-> ->]. reflexivity.
Qed.

Lemma add_found_recorded (l : list string) (t : option string) :
  add_found l t = (if recorded t then add_new l (match t with Some x => x | None => EmptyString end) else l).
Proof.
  destruct t as [x |]; simpl; [| reflexivity].
  destruct (String.eqb x EmptyString); reflexivity.
Qed.

Lemma fold_add_found_keeps (ts : list (option string)) (l : list string) :
  l <> [] -> fold_left add_found ts l <> [].
Proof.
  revert l. induction ts as [| t r IH]; intros l H; simpl; [exact H |].
  apply IH. rewrite add_found_recorded. destruct (recorded t); [| exact H].
  apply add_new_nonempty.
Qed.

Lemma fold_add_found_nil (ts : list (option string)) :
  fold_left add_found ts [] <> [] <-> existsb recorded ts = true.
Proof.
  induction ts as [| t r IH]; simpl.
  - split; [intros H; contradiction | discriminate].
  - rewrite add_found_recorded. destruct (recorded t) eqn:E; simpl.
    + split; [reflexivity |]. intros _. apply fold_add_found_keeps, add_new_nonempty.
    + exact IH.
Qed.

(** *** The loop of [_analyze_job] *)

Let job_step (info : JobAnalysis) (step : value) : result JobAnalysis :=
  step_analysis <- step_info step ;;
  Ok {| job_name := job_name info;
        job_runs_on := job_runs_on info;
        step_count := step_count info;
        has_build_steps := has_build_steps info || is_build_step step_analysis;
        has_test_steps := has_test_steps info || is_test_step step_analysis;
        job_security_scan := job_security_scan info || is_security_scan step_analysis;
        job_build_tools := add_found (job_build_tools info) (build_tool step_analysis);
        job_languages := add_found (job_languages info) (language step_analysis);
        job_security_tools :=
          add_found (job_security_tools info) (security_tool step_analysis);
        step_infos := step_infos info ++ [step_analysis] |}.

Lemma job_loop (ss : list value) :
  forall acc ja : JobAnalysis,
    fold_left (fun acc step => info <- acc ;; job_step info step) ss (Ok acc) = Ok ja ->
    exists infos : list StepAnalysis,
      Forall2 (fun step info => step_info step = Ok info) ss infos
      /\ step_infos ja = step_infos acc ++ infos
      /\ step_count ja = step_count acc
      /\ has_build_steps ja = has_build_steps acc || existsb is_build_step infos
      /\ has_test_steps ja = has_test_steps acc || existsb is_test_step infos
      /\ job_security_scan ja = job_security_scan acc || existsb is_security_scan infos
      /\ job_build_tools ja
         = fold_left add_found (map build_tool infos) (job_build_tools acc)
      /\ job_languages ja = fold_left add_found (map language infos) (job_languages acc)
      /\ job_security_tools ja
         = fold_left add_found (map security_tool infos) (job_security_tools acc).
Proof.
  induction ss as [| step r IH]; intros acc ja H.
  - simpl in H. injection H as <-. exists []. simpl.
    rewrite app_nil_r, !orb_false_r. repeat split. constructor.
  - apply fold_ok_cons in H as [a1 [H1 H2]].
    unfold job_step in H1.
    destruct (step_info step) as [info |] eqn:E; [| discriminate]. cbn [bind] in H1.
    injection H1 as <-.
    destruct (IH _ _ H2) as [infos [F [S1 [S2 [S3 [S4 [S5 [S6 [S7 S8]]]]]]]]].
    cbn [step_infos step_count has_build_steps has_test_steps job_security_scan
           job_build_tools job_languages job_security_tools] in *.
    exists (info :: infos). cbn [existsb map fold_left].
    rewrite S1, S2, S3, S4, S5, S6, S7, S8, <- app_assoc, !orb_assoc.
    repeat split. constructor; assumption.
Qed.

Lemma length_list_ascii (s : string) :
  List.length (list_ascii_of_string s) = String.length s.
Proof. induction s as [| c s IH]; simpl; [reflexivity | rewrite IH; reflexivity]. Qed.

Lemma len_iter (v : value) (n : nat) (ss : list value) :
  len v = Ok n -> iter v = Ok ss -> n = List.length ss.
Proof.
  destruct v as [[| b | z | s] | l | d]; simpl; try discriminate;
    intros H1 H2; injection H1 as <-; injection H2 as <-.
  - rewrite length_map, length_list_ascii. reflexivity.
  - reflexivity.
  - rewrite length_map. reflexivity.
Qed.

(** What [job_info] returns: the analyses of the steps of the job, in
    order, and what the loop draws from them. *)
Lemma job_info_steps (job : WorkflowJob) (ja : JobAnalysis) :
  job_info job = Ok ja ->
  exists (ss : list value) (infos : list StepAnalysis),
    iter (steps job) = Ok ss
    /\ Forall2 (fun step info => step_info step = Ok info) ss infos
    /\ step_infos ja = infos
    /\ step_count ja = List.length ss
    /\ has_build_steps ja = existsb is_build_step infos
    /\ has_test_steps ja = existsb is_test_step infos
    /\ job_security_scan ja = existsb is_security_scan infos
    /\ job_build_tools ja = fold_left add_found (map build_tool infos) []
    /\ job_languages ja = fold_left add_found (map language infos) []
    /\ job_security_tools ja = fold_left add_found (map security_tool infos) [].
Proof.
  unfold job_info.
  destruct (len (steps job)) as [n |] eqn:Hn; [| discriminate].
  destruct (iter (steps job)) as [ss |] eqn:Hss; [| discriminate]. cbn [bind].
  intros H. apply (job_loop ss) in H.
  destruct H as [infos [F [S1 [S2 [S3 [S4 [S5 [S6 [S7 S8]]]]]]]]].
  cbn [step_infos step_count has_build_steps has_test_steps job_security_scan
         job_build_tools job_languages job_security_tools app orb] in *.
  exists ss, infos. rewrite (len_iter _ _ _ Hn Hss) in S2.
  repeat split; assumption.
Qed.

(** The two flags of [_analyze_job] are those of [job_info]. *)
Lemma analyze_job_flags (job : WorkflowJob) (ja : JobAnalysis) :
  job_info job = Ok ja ->
  _analyze_job job = Ok (has_build_steps ja, has_test_steps ja).
Proof.
  intros H. destruct (job_info_steps job ja H) as [ss [infos [Hss [F [_ [_ [Hb [Ht _]]]]]]]].
  unfold _analyze_job. rewrite Hss. cbn [bind]. rewrite Hb, Ht. clear H Hss Hb Ht.
  assert (forall b t,
             fold_left
               (fun acc step =>
                  flags <- acc ;;
                  step_analysis <- _analyze_step step ;;
                  Ok (fst flags || fst step_analysis, snd flags || snd step_analysis))
               ss (Ok (b, t))
             = Ok (b || existsb is_build_step infos, t || existsb is_test_step infos)) as G.
  { induction F as [| step info r infos' Hstep Hr IH]; intros b t.
    - simpl. rewrite !orb_false_r. reflexivity.
    - cbn [fold_left bind existsb]. rewrite analyze_step_flags, Hstep.
      cbn [bind fst snd]. rewrite IH, !orb_assoc. reflexivity. }
  exact (G false false).
Qed.

(** *** The loop of [analyze_workflow] *)

Let workflow_step (a : WorkflowAnalysis) (it : atom * WorkflowJob)
  : result WorkflowAnalysis :=
  let (job_id, job) := it in
  job_analysis <- job_info job ;;
  Ok {| file_name := file_name a;
        analysis_name := analysis_name a;
        has_jobs := has_jobs a;
        job_count := job_count a;
        job_infos := dict_set job_id job_analysis (job_infos a);
        has_build_job := has_build_job a || has_build_steps job_analysis;
        has_test_job := has_test_job a || has_test_steps job_analysis;
        has_security_scan := has_security_scan a || job_security_scan job_analysis;
        build_tools := fold_left add_new (job_build_tools job_analysis) (build_tools a);
        languages := fold_left add_new (job_languages job_analysis) (languages a);
        security_tools :=
          fold_left add_new (job_security_tools job_analysis) (security_tools a);
        triggers := triggers a;
        pr_trigger := pr_trigger a;
        insertion_points := insertion_points a |}.

Lemma workflow_loop (js : list (atom * WorkflowJob)) :
  forall acc a : WorkflowAnalysis,
    fold_left (fun acc it => a <- acc ;; workflow_step a it) js (Ok acc) = Ok a ->
    exists jas : list JobAnalysis,
      Forall2 (fun it ja => job_info (snd it) = Ok ja) js jas
      /\ job_infos a
         = fold_left (fun d p => dict_set (fst (fst p)) (snd p) d) (combine js jas)
             (job_infos acc)
      /\ has_build_job a = has_build_job acc || existsb has_build_steps jas
      /\ has_test_job a = has_test_job acc || existsb has_test_steps jas
      /\ has_security_scan a = has_security_scan acc || existsb job_security_scan jas
      /\ build_tools a
         = fold_left add_new (flat_map job_build_tools jas) (build_tools acc)
      /\ languages a = fold_left add_new (flat_map job_languages jas) (languages acc)
      /\ security_tools a
         = fold_left add_new (flat_map job_security_tools jas) (security_tools acc)
      /\ (file_name a, analysis_name a, has_jobs a, job_count a, triggers a, pr_trigger a,
          insertion_points a)
         = (file_name acc, analysis_name acc, has_jobs acc, job_count acc, triggers acc,
            pr_trigger acc, insertion_points acc).
Proof.
  induction js as [| [job_id job] r IH]; intros acc a H.
  - simpl in H. injection H as <-. exists []. simpl. rewrite !orb_false_r.
    repeat split. constructor.
  - apply fold_ok_cons in H as [a1 [H1 H2]].
    unfold workflow_step in H1.
    destruct (job_info job) as [ja |] eqn:E; [| discriminate]. cbn [bind] in H1.
    injection H1 as <-.
    destruct (IH _ _ H2) as [jas [F [S1 [S2 [S3 [S4 [S5 [S6 [S7 S8]]]]]]]]].
    cbn [file_name analysis_name has_jobs job_count job_infos has_build_job has_test_job
           has_security_scan build_tools languages security_tools triggers pr_trigger
           insertion_points] in *.
    exists (ja :: jas). cbn [existsb flat_map combine fold_left fst snd].
    rewrite S1, S2, S3, S4, S5, S6, S7, S8, !fold_left_app, !orb_assoc.
    repeat split. constructor; assumption.
Qed.

(** What [analysis] returns: the analyses of the jobs, in order, what the
    loop draws from them, and the insertion points of the planner. *)
Lemma analysis_jobs (structure : WorkflowStructure) (file : string) (a : WorkflowAnalysis) :
  analysis structure file = Ok a ->
  exists jas : list JobAnalysis,
    Forall2 (fun it ja => job_info (snd it) = Ok ja) (jobs structure) jas
    /\ job_infos a
       = fold_left (fun d p => dict_set (fst (fst p)) (snd p) d)
           (combine (jobs structure) jas) []
    /\ has_build_job a = existsb has_build_steps jas
    /\ has_test_job a = existsb has_test_steps jas
    /\ has_security_scan a = existsb job_security_scan jas
    /\ build_tools a = fold_left add_new (flat_map job_build_tools jas) []
    /\ languages a = fold_left add_new (flat_map job_languages jas) []
    /\ security_tools a = fold_left add_new (flat_map job_security_tools jas) []
    /\ job_count a = List.length (jobs structure)
    /\ has_jobs a = (0 <? List.length (jobs structure))%nat
    /\ pr_trigger a = has_pr_trigger (on_triggers structure)
    /\ _find_insertion_points structure = Ok (insertion_points a).
Proof.
  unfold analysis.
  match goal with
  | |- context [fold_left ?f ?l (Ok ?init)] =>
      change f with (fun acc it => a <- acc ;; workflow_step a it);
      destruct (fold_left (fun acc it => a <- acc ;; workflow_step a it) l (Ok init))
        as [a0 |] eqn:Hloop; [| discriminate]
  end.
  cbn [bind].
  destruct (_find_insertion_points structure) as [points |] eqn:Hp; [| discriminate].
  cbn [bind]. intros H. injection H as <-.
  apply workflow_loop in Hloop.
  destruct Hloop as [jas [F [S1 [S2 [S3 [S4 [S5 [S6 [S7 S8]]]]]]]]].
  cbn [file_name analysis_name has_jobs job_count job_infos has_build_job has_test_job
         has_security_scan build_tools languages security_tools triggers pr_trigger
         insertion_points orb] in *.
  injection S8 as _ _ E1 E2 _ E3 _.
  exists jas. repeat split; assumption.
Qed.

End Loops.

(** ** What the analysis reports *)

Section Reports.

Import Re.

Lemma extract_build_tool_name (text x : string) :
  _extract_build_tool text = Some x -> x <> EmptyString.
Proof.
  unfold _extract_build_tool.
  repeat match goal with
         | |- context [if ?c then _ else _] => destruct c
         end;
    intros H; try discriminate H; injection H as <-; discriminate.
Qed.

Lemma extract_security_tool_name (text x : string) :
  _extract_security_tool text = Some x -> x <> EmptyString.
Proof.
  unfold _extract_security_tool.
  repeat match goal with
         | |- context [if ?c then _ else _] => destruct c
         end;
    intros H; try discriminate H; injection H as <-; discriminate.
Qed.

(** The build tool of a step is recorded exactly when the step is a build
    step. *)
Lemma step_build_recorded (step : value) (info : StepAnalysis) :
  step_info step = Ok info -> recorded (build_tool info) = is_build_step info.
Proof.
  intros H.
  destruct (step_info_fields step info H) as [_ [_ [Hbuild [_ [Htool _]]]]].
  destruct (is_build_step info) eqn:Hb.
  - symmetry in Hbuild. apply andb_true_iff in Hbuild as [_ Hm].
    pose proof (build_pattern_tool _ Hm) as Hne. rewrite Htool.
    destruct (_extract_build_tool _) as [x |] eqn:E; [| contradiction].
    simpl. apply extract_build_tool_name in E. apply String.eqb_neq in E.
    rewrite E. reflexivity.
  - rewrite Htool. reflexivity.
Qed.

(** A step whose security tool is known is flagged as a security scan. *)
Lemma step_security_recorded (step : value) (info : StepAnalysis) :
  step_info step = Ok info ->
  recorded (security_tool info) = true -> is_security_scan info = true.
Proof.
  unfold step_info.
  destruct (get step "name" (VStr "Unnamed step")) as [name |]; [| discriminate].
  destruct (get step "uses" VNone) as [uses |]; [| discriminate].
  destruct (get step "run" VNone) as [run |]; [| discriminate].
  cbn [bind].
  destruct (truthy run); destruct (truthy uses);
    try destruct (matches_any SECURITY_TOOL_PATTERNS (lower (Repr.str uses)));
    try destruct (matches_any SECURITY_TOOL_PATTERNS (lower (Repr.str run)));
    intros H; injection H as <-; cbn [security_tool is_security_scan];
    try reflexivity; discriminate.
Qed.

Lemma Forall2_existsb {A B : Type} (R : A -> B -> Prop) (p : B -> bool)
    (l : list A) (l' : list B) :
  Forall2 R l l' -> existsb p l' = true ->
  exists a b, In a l /\ R a b /\ p b = true.
Proof.
  induction 1 as [| a b r r' Hab Hr IH]; simpl; [discriminate |].
  intros H. apply orb_true_iff in H as [H | H].
  - exists a, b. auto.
  - destruct (IH H) as [a' [b' [Hin [HR Hp]]]]. exists a', b'. auto.
Qed.

Lemma Forall2_existsb_eq {A B : Type} (R : A -> B -> Prop) (p q : B -> bool)
    (l : list A) (l' : list B) :
  Forall2 R l l' -> (forall a b, R a b -> p b = q b) -> existsb p l' = existsb q l'.
Proof.
  induction 1 as [| a b r r' Hab Hr IH]; intros Hpq; simpl; [reflexivity |].
  rewrite (Hpq a b Hab), IH by exact Hpq. reflexivity.
Qed.

Lemma Forall2_existsb_le {A B : Type} (R : A -> B -> Prop) (p q : B -> bool)
    (l : list A) (l' : list B) :
  Forall2 R l l' -> (forall a b, R a b -> p b = true -> q b = true) ->
  existsb p l' = true -> existsb q l' = true.
Proof.
  induction 1 as [| a b r r' Hab Hr IH]; intros Hpq; simpl; [discriminate |].
  intros H. apply orb_true_iff in H as [H | H].
  - rewrite (Hpq a b Hab H). reflexivity.
  - rewrite IH by assumption. apply orb_true_r.
Qed.

Lemma existsb_map {A B : Type} (f : A -> B) (p : B -> bool) (l : list A) :
  existsb p (map f l) = existsb (fun a => p (f a)) l.
Proof. induction l as [| a r IH]; simpl; [reflexivity | rewrite IH; reflexivity]. Qed.

(** A job lists a build tool exactly when it has a build step. *)
Lemma job_build_tools_iff (job : WorkflowJob) (ja : JobAnalysis) :
  job_info job = Ok ja ->
  (has_build_steps ja = true <-> job_build_tools ja <> []).
Proof.
  intros H.
  destruct (job_info_steps job ja H)
    as [ss [infos [Hss [F [S1 [S2 [S3 [S4 [S5 [S6 [S7 S8]]]]]]]]]]].
  rewrite S3, S6, fold_add_found_nil, existsb_map.
  rewrite (Forall2_existsb_eq _ (fun a => recorded (build_tool a)) is_build_step _ _ F).
  - tauto.
  - intros a b. apply step_build_recorded.
Qed.

(** A job that lists a security tool is flagged as a security scan. *)
Lemma job_security_tools_scan (job : WorkflowJob) (ja : JobAnalysis) :
  job_info job = Ok ja ->
  job_security_tools ja <> [] -> job_security_scan ja = true.
Proof.
  intros H.
  destruct (job_info_steps job ja H)
    as [ss [infos [Hss [F [S1 [S2 [S3 [S4 [S5 [S6 [S7 S8]]]]]]]]]]].
  rewrite S5, S8, fold_add_found_nil, existsb_map.
  apply (Forall2_existsb_le _ _ _ _ _ F).
  intros a b. apply step_security_recorded.
Qed.

(** *** Commands joined by spaces *)

Lemma lower_app (a b : string) : lower (a ++ b) = (lower a ++ lower b)%string.
Proof. induction a as [| c a IH]; simpl; [reflexivity | rewrite IH; reflexivity]. Qed.

Lemma boundary_lower (t : string) : boundary t = true -> boundary (lower t) = true.
Proof.
  destruct t as [| c t]; simpl; [reflexivity |].
  destruct c as [[] [] [] [] [] [] [] []]; try discriminate; reflexivity.
Qed.

(** An element of a list lies in the list joined by spaces, and what
    follows it there, if anything, begins with a space. *)
Lemma join_middle (l1 l2 : list string) (x : string) :
  exists pre post,
    join " " (l1 ++ x :: l2) = (pre ++ x ++ post)%string /\ boundary post = true.
Proof.
  induction l1 as [| z l1 IH].
  - destruct l2 as [| y r].
    + exists EmptyString, EmptyString. simpl. rewrite string_app_nil_r. auto.
    + exists EmptyString, (" " ++ join " " (y :: r))%string. split; reflexivity.
  - destruct IH as [pre [post [E Hb]]].
    exists (z ++ " " ++ pre)%string, post. split; [| exact Hb].
    assert (exists y r, l1 ++ x :: l2 = y :: r) as [y [r Hy]]
        by (destruct l1; simpl; eauto).
    cbn [app]. rewrite Hy in *. rewrite join_cons, E.
    rewrite !string_app_assoc. reflexivity.
Qed.

(** What a build pattern finds in a command, it finds in the commands
    joined by spaces. *)
Lemma build_patterns_grow (pre s t : string) :
  boundary t = true ->
  matches_any BUILD_PATTERNS s = true ->
  matches_any BUILD_PATTERNS (pre ++ s ++ t) = true.
Proof.
  intros Hb. unfold matches_any, BUILD_PATTERNS. cbn [existsb].
  rewrite !orb_true_iff.
  intros [H | [H | [H | [H | [H | [H | [H | H]]]]]]]; try discriminate H;
    try (apply (search_grows_plain _ pre s t) in H; [| reflexivity]; rewrite H;
         rewrite ?orb_true_r; tauto).
  assert (search (cat [lit "make"; alt [space; Eos]]) (pre ++ s ++ t) = true) as G.
  { revert H. apply search_grows. intros s0 H0.
    change (accepts (lit "make") s0 (fun s' => accepts (Alt space Eos) s' (fun _ => true))
            = true) in H0.
    change (accepts (lit "make") (s0 ++ t)
              (fun s' => accepts (Alt space Eos) s' (fun _ => true)) = true).
    revert H0. apply accepts_append; [reflexivity |].
    intros s'. destruct s' as [| c s']; cbn [String.append].
    - intros _. destruct t as [| c t]; [reflexivity |].
      simpl in Hb. cbn [accepts space]. rewrite Hb. reflexivity.
    - cbn [accepts space]. intros H1. apply orb_true_iff in H1 as [H1 | H1].
      + rewrite H1. reflexivity.
      + destruct s'; [| discriminate].
        apply andb_true_iff in H1 as [H1 _]. apply Ascii.eqb_eq in H1. subst c.
        reflexivity. }
  rewrite G. rewrite ?orb_true_r. tauto.
Qed.

(** The command of a step, as the planner reads it. *)
Let run_of (s : value) : string :=
  match get s "run" (VStr EmptyString) with
  | Ok v => Repr.str v
  | Raise _ => EmptyString
  end.

Lemma runs_ok (ss : list value) :
  Forall (fun s => is_ok (get s "run" (VStr EmptyString)) = true) ss ->
  fold_right
    (fun s acc =>
       r <- get s "run" (VStr EmptyString) ;;
       rest <- acc ;;
       Ok (Repr.str r :: rest))
    (Ok []) ss
  = Ok (map run_of ss).
Proof.
  induction 1 as [| s r Hs Hr IH]; [reflexivity |].
  cbn [fold_right map]. rewrite IH. unfold run_of.
  destruct (get s "run" (VStr EmptyString)); [reflexivity | discriminate].
Qed.

Lemma step_info_run_ok (step : value) (info : StepAnalysis) :
  step_info step = Ok info -> is_ok (get step "run" (VStr EmptyString)) = true.
Proof.
  intros H. destruct (step_info_fields step info H) as [Hrun _].
  destruct step as [a | l | e]; try discriminate Hrun.
  simpl. destruct (dict_get (AStr "run") e); reflexivity.
Qed.

Lemma step_info_run_of (step : value) (info : StepAnalysis) :
  step_info step = Ok info -> truthy (step_run info) = true ->
  run_of step = Repr.str (step_run info).
Proof.
  intros H Ht. destruct (step_info_fields step info H) as [Hrun _].
  destruct step as [a | l | e]; try discriminate Hrun.
  unfold run_of. simpl in *. destruct (dict_get (AStr "run") e).
  - injection Hrun as <-. reflexivity.
  - injection Hrun as E. rewrite <- E in Ht. discriminate.
Qed.

(** A job in which [_analyze_job] sees a build step is a job in whose
    joined commands the planner finds a build pattern. *)
Lemma build_steps_build_job (job : WorkflowJob) (ja : JobAnalysis) :
  job_info job = Ok ja ->
  has_build_steps ja = true ->
  exists text, run_text job = Ok text /\ matches_any BUILD_PATTERNS text = true.
Proof.
  intros H Hb.
  destruct (job_info_steps job ja H) as [ss [infos [Hss [F [_ [_ [S3 _]]]]]]].
  rewrite S3 in Hb.
  destruct (Forall2_existsb _ _ _ _ F Hb) as [step [info [Hin [Hinfo Hbuild]]]].
  unfold run_text. rewrite Hss. cbn [bind].
  rewrite runs_ok.
  - cbn [bind]. eexists. split; [reflexivity |].
    apply in_split in Hin as [l1 [l2 ->]].
    rewrite map_app. cbn [map].
    destruct (join_middle (map run_of l1) (map run_of l2) (run_of step))
      as [pre [post [E Hpost]]].
    rewrite E, !lower_app.
    apply build_patterns_grow; [apply boundary_lower; exact Hpost |].
    destruct (step_info_fields step info Hinfo) as [_ [_ [Hb' _]]].
    rewrite Hbuild in Hb'. symmetry in Hb'. apply andb_true_iff in Hb' as [Ht Hm].
    rewrite (step_info_run_of step info Hinfo Ht). exact Hm.
  - clear - F. induction F as [| s i r r' Hs Hr IH]; constructor.
    + eapply step_info_run_ok. exact Hs.
    + exact IH.
Qed.

(** The loop of the planner ends with a build job whose id counts as true
    when it has met a job in whose commands a build pattern is found. *)
Lemma scan_jobs_build (js : list (atom * WorkflowJob)) :
  forall b t l b' t' l',
    scan_jobs js (b, t, l) = Ok (b', t', l') ->
    Forall (fun it => truthy_atom (fst it) = true) js ->
    truthy_atom b = true
    \/ (exists it text, In it js /\ run_text (snd it) = Ok text
                        /\ matches_any BUILD_PATTERNS text = true) ->
    truthy_atom b' = true.
Proof.
  induction js as [| [job_id job] r IH]; intros b t l b' t' l' H Hid Hor.
  - simpl in H. injection H as <- _ _.
    destruct Hor as [Hb | [it [text [[] _]]]]. exact Hb.
  - cbn [scan_jobs] in H.
    destruct (run_text job) as [text |] eqn:E; [| discriminate]. cbn [bind] in H.
    inversion Hid as [| x y Hx Hy]; subst. simpl in Hx.
    apply (IH _ _ _ _ _ _ H Hy).
    destruct Hor as [Hb | [it [text' [[<- | Hin] [Hrun Hm]]]]].
    + left. destruct (matches_any BUILD_PATTERNS text); assumption.
    + left. simpl in Hrun. rewrite E in Hrun. injection Hrun as <-.
      rewrite Hm. exact Hx.
    + right. exists it, text'. auto.
Qed.

Lemma Forall2_right {A B : Type} (R : A -> B -> Prop) (P : B -> Prop)
    (l : list A) (l' : list B) :
  Forall2 R l l' -> (forall a b, R a b -> P b) -> Forall P l'.
Proof.
  induction 1 as [| a b r r' Hab Hr IH]; intros H; constructor; eauto.
Qed.

Lemma flat_map_nonempty_iff {B : Type} (f : B -> list string) (p : B -> bool)
    (l : list B) :
  Forall (fun b => p b = true <-> f b <> []) l ->
  (existsb p l = true <-> flat_map f l <> []).
Proof.
  induction 1 as [| b r Hb Hr IH]; simpl.
  - split; [discriminate | intros H; contradiction].
  - rewrite orb_true_iff, IH, Hb. destruct (f b); simpl.
    + split; [intros [H | H]; [contradiction | exact H] | auto].
    + split; [discriminate | intros _; left; discriminate].
Qed.

Lemma flat_map_nonempty_le {B : Type} (f : B -> list string) (p : B -> bool)
    (l : list B) :
  Forall (fun b => f b <> [] -> p b = true) l ->
  flat_map f l <> [] -> existsb p l = true.
Proof.
  induction 1 as [| b r Hb Hr IH]; simpl; [intros H; contradiction |].
  destruct (f b) eqn:E; simpl.
  - intros H. rewrite (IH H). apply orb_true_r.
  - intros _. rewrite Hb by discriminate. reflexivity.
Qed.

End Reports.

(** X14.  In what [_analyze_job] returns for a job, [step_count] is the
    number of step analyses; no build tool, language or security tool is
    listed twice; a build tool is listed exactly when the job has a build
    step; and a job that lists a security tool is flagged as a security
    scan. *)
Theorem job_analysis_invariants (job : WorkflowJob) (ja : JobAnalysis) :
  job_info job = Ok ja ->
  step_count ja = List.length (step_infos ja)
  /\ NoDup (job_build_tools ja)
  /\ NoDup (job_languages ja)
  /\ NoDup (job_security_tools ja)
  /\ (has_build_steps ja = true <-> job_build_tools ja <> [])
  /\ (job_security_tools ja <> [] -> job_security_scan ja = true).
Proof.
  intros H.
  destruct (job_info_steps job ja H)
    as [ss [infos [Hss [F [S1 [S2 [S3 [S4 [S5 [S6 [S7 S8]]]]]]]]]]].
  split; [| split; [| split; [| split; [| split]]]].
  - rewrite S2, S1. exact (Forall2_length F).
  - rewrite S6. apply fold_add_found_NoDup. constructor.
  - rewrite S7. apply fold_add_found_NoDup. constructor.
  - rewrite S8. apply fold_add_found_NoDup. constructor.
  - exact (job_build_tools_iff job ja H).
  - exact (job_security_tools_scan job ja H).
Qed.

(** X15.  In what [analyze_workflow] returns, no build tool, language or
    security tool is listed twice; [job_count] is the number of jobs of the
    structure and [has_jobs] says whether there is one; the workflow has a
    build job exactly when a build tool is listed; and a workflow that
    lists a security tool is flagged as having a security scan. *)
Theorem workflow_analysis_invariants (structure : WorkflowStructure) (file : string)
    (a : WorkflowAnalysis) :
  analysis structure file = Ok a ->
  NoDup (build_tools a)
  /\ NoDup (languages a)
  /\ NoDup (security_tools a)
  /\ job_count a = List.length (jobs structure)
  /\ (has_jobs a = true <-> jobs structure <> [])
  /\ (has_build_job a = true <-> build_tools a <> [])
  /\ (security_tools a <> [] -> has_security_scan a = true).
Proof.
  intros H.
  destruct (analysis_jobs structure file a H)
    as [jas [F [S1 [S2 [S3 [S4 [S5 [S6 [S7 [S8 [S9 _]]]]]]]]]]].
  split; [| split; [| split; [| split; [| split; [| split]]]]].
  - rewrite S5. apply fold_add_new_NoDup. constructor.
  - rewrite S6. apply fold_add_new_NoDup. constructor.
  - rewrite S7. apply fold_add_new_NoDup. constructor.
  - exact S8.
  - rewrite S9. destruct (jobs structure); simpl; split;
      intros; try discriminate; try reflexivity; try contradiction.
  - rewrite S2, S5.
    rewrite (flat_map_nonempty_iff job_build_tools has_build_steps jas).
    + rewrite fold_add_new_nil. split.
      * intros Hne [Hnil _]. exact (Hne Hnil).
      * intros Hne Hnil. apply Hne. split; [exact Hnil | reflexivity].
    + apply (Forall2_right _ _ _ _ F). intros it ja Hja.
      exact (job_build_tools_iff _ _ Hja).
  - rewrite S4, S7. intros Hne.
    apply (flat_map_nonempty_le job_security_tools).
    + apply (Forall2_right _ _ _ _ F). intros it ja Hja.
      exact (job_security_tools_scan _ _ Hja).
    + intros Hnil. apply Hne. rewrite Hnil. reflexivity.
Qed.

(** X14 at work: a job that sets up Node, builds twice, tests and scans
    has one build tool, one language and one security tool. *)
Lemma job_analysis_invariants_witness :
  exists ja : JobAnalysis,
    job_info full_job = Ok ja
    /\ job_build_tools ja = ["npm"]
    /\ job_languages ja = ["javascript"]
    /\ job_security_tools ja = ["snyk"]
    /\ step_count ja = List.length (step_infos ja)
    /\ NoDup (job_build_tools ja)
    /\ NoDup (job_languages ja)
    /\ NoDup (job_security_tools ja)
    /\ (has_build_steps ja = true <-> job_build_tools ja <> [])
    /\ (job_security_tools ja <> [] -> job_security_scan ja = true).
Proof.
  eexists. split; [vm_compute; reflexivity |].
  split; [reflexivity |]. split; [reflexivity |]. split; [reflexivity |].
  apply (job_analysis_invariants full_job).
  vm_compute. reflexivity.
Defined.

Lemma workflow_analysis_invariants_witness :
  exists a : WorkflowAnalysis,
    analysis pipeline_structure "ci.yml" = Ok a
    /\ NoDup (build_tools a)
    /\ NoDup (languages a)
    /\ NoDup (security_tools a)
    /\ job_count a = List.length (jobs pipeline_structure)
    /\ (has_jobs a = true <-> jobs pipeline_structure <> [])
    /\ (has_build_job a = true <-> build_tools a <> [])
    /\ (security_tools a <> [] -> has_security_scan a = true).
Proof.
  eexists. split; [vm_compute; reflexivity |].
  apply (workflow_analysis_invariants pipeline_structure "ci.yml").
  vm_compute. reflexivity.
Defined.

(** X16.  The analysis and the planner agree on build jobs in one
    direction: when [analyze_workflow] reports a build job, in a workflow
    whose job ids count as true, the insertion points it returns have an
    [after_build] point.  (A build pattern that a step matches is also
    found in the commands of the job joined by spaces.) *)
Theorem build_job_has_insertion_point (structure : WorkflowStructure) (file : string)
    (a : WorkflowAnalysis) :
  analysis structure file = Ok a ->
  Forall (fun it => truthy_atom (fst it) = true) (jobs structure) ->
  has_build_job a = true ->
  exists build_job : atom,
    truthy_atom build_job = true
    /\ In (after_build_point build_job) (insertion_points a).
Proof.
  intros H Hid Hb.
  destruct (analysis_jobs structure file a H)
    as [jas [F [_ [S2 [_ [_ [_ [_ [_ [_ [_ [_ Hp]]]]]]]]]]]].
  rewrite S2 in Hb.
  destruct (Forall2_existsb _ _ _ _ F Hb) as [it [ja [Hin [Hja Hbs]]]].
  destruct (build_steps_build_job _ _ Hja Hbs) as [text [Hrun Hm]].
  unfold _find_insertion_points in Hp.
  destruct (scan_jobs (jobs structure) (ANone, ANone, ANone)) as [[[b t] l] |] eqn:E;
    [| discriminate].
  cbn [bind] in Hp. injection Hp as Hp.
  assert (truthy_atom b = true) as Hbt.
  { apply (scan_jobs_build _ _ _ _ _ _ _ E Hid). right. exists it, text. auto. }
  exists b. split; [exact Hbt |].
  rewrite <- Hp. unfold emit_points. rewrite Hbt. left. reflexivity.
Qed.

Lemma build_job_has_insertion_point_witness :
  exists a : WorkflowAnalysis,
    analysis pipeline_structure "ci.yml" = Ok a
    /\ exists build_job : atom,
         truthy_atom build_job = true
         /\ In (after_build_point build_job) (insertion_points a).
Proof.
  eexists. split; [vm_compute; reflexivity |].
  apply (build_job_has_insertion_point pipeline_structure "ci.yml").
  - vm_compute. reflexivity.
  - vm_compute. repeat constructor.
  - vm_compute. reflexivity.
Defined.

(** ** What [parse_workflow] keeps of a document *)

Section Parse.

(** The job that [parse_workflow] makes of the mapping [c] under [job_id]. *)
Let job_of (job_id : atom) (c : entries) : WorkflowJob :=
  {| name := get_or c "name" (Atom job_id);
     runs_on := get_or c "runs-on" (VStr "ubuntu-latest");
     steps := get_or c "steps" (List []);
     needs := get_or c "needs" VNone;
     if_condition := get_or c "if" VNone;
     strategy := get_or c "strategy" VNone;
     environment := get_or c "environment" VNone |}.

Let add_job (jobs : list (atom * WorkflowJob)) (it : atom * value)
  : list (atom * WorkflowJob) :=
  match snd it with
  | Dict c => dict_set (fst it) (job_of (fst it) c) jobs
  | _ => jobs
  end.

Let parsed (it : atom * value) : list (atom * WorkflowJob) :=
  match snd it with
  | Dict c => [(fst it, job_of (fst it) c)]
  | _ => []
  end.

Lemma parse_jobs_fold (its : entries) :
  forall acc : list (atom * WorkflowJob),
    distinct_keys its ->
    (forall it, In it its -> dict_has (fst it) acc = false) ->
    fold_left add_job its acc = acc ++ flat_map parsed its.
Proof.
  induction its as [| [job_id v] r IH]; intros acc Hd Hfresh.
  - simpl. rewrite app_nil_r. reflexivity.
  - destruct Hd as [Hid Hr]. cbn [fold_left flat_map].
    assert (forall acc', (forall it, In it r -> dict_has (fst it) acc' = false) ->
                         fold_left add_job r acc' = acc' ++ flat_map parsed r) as IH'
        by (intros acc' H'; apply IH; assumption).
    unfold add_job at 2, parsed at 1. cbn [fst snd].
    destruct v as [a | l | c].
    + apply IH'. intros it Hin. apply Hfresh. right. exact Hin.
    + apply IH'. intros it Hin. apply Hfresh. right. exact Hin.
    + rewrite dict_set_fresh by (apply (Hfresh (job_id, Dict c)); left; reflexivity).
      rewrite IH'.
      * rewrite <- app_assoc. reflexivity.
      * intros it Hin. rewrite dict_has_app, (Hfresh it (or_intror Hin)). simpl.
        rewrite orb_false_r, key_eqb_sym.
        exact (proj1 (dict_has_false_in _ _) Hid it Hin).
Qed.

Lemma parsed_ids (its : entries) :
  map fst (flat_map parsed its) = map fst (filter (fun it => is_dict (snd it)) its).
Proof.
  induction its as [| [job_id v] r IH]; [reflexivity |].
  cbn [flat_map filter snd]. unfold parsed at 1. cbn [fst snd].
  destruct v; simpl; rewrite IH; reflexivity.
Qed.

Lemma fold_left_ext {A B : Type} (f g : A -> B -> A) :
  (forall a b, f a b = g a b) -> forall l a, fold_left f l a = fold_left g l a.
Proof.
  intros H l. induction l as [| b r IH]; intros a; simpl; [reflexivity |].
  rewrite H. apply IH.
Qed.

(** What [parse_loaded] returns on a document whose jobs are a dict. *)
Lemma parse_loaded_eq (d js : entries) :
  doc_jobs d = Some js ->
  distinct_keys js ->
  parse_loaded (Dict d)
  = Ok {| workflow_name := get_or d "name" (VStr "Unnamed Workflow");
          on_triggers :=
            match get_or d "on" (Dict []) with
            | Atom (AStr s) => Dict [(AStr s, Dict [])]
            | _ => get_or d "on" (Dict [])
            end;
          jobs := flat_map parsed js;
          env := get_or d "env" VNone;
          defaults := get_or d "defaults" VNone |}.
Proof.
  intros Hjobs Hd.
  assert (forall k default, get (Dict d) k default = Ok (get_or d k default)) as G.
  { intros k default. unfold get, get_or. destruct (dict_get (AStr k) d); reflexivity. }
  assert (get_or d "jobs" (Dict []) = Dict js) as J.
  { unfold doc_jobs in Hjobs. unfold get_or.
    destruct (dict_get (AStr "jobs") d) as [[| | js0] |]; try discriminate Hjobs;
      injection Hjobs as <-; reflexivity. }
  unfold parse_loaded. rewrite !G. cbn [bind]. rewrite J. cbn [items bind].
  f_equal. f_equal; try reflexivity.
  transitivity (fold_left add_job js []).
  - apply fold_left_ext. intros acc [job_id w]. reflexivity.
  - rewrite parse_jobs_fold; [reflexivity | assumption | reflexivity].
Qed.

(** X17.  On a document whose [jobs] are a mapping, or that has none,
    [parse_workflow] keeps the jobs that are mappings, in the order of the
    document, and passes over the others.  A job without [name] is named
    by its id, a job without [runs-on] is given [ubuntu-latest], a job
    without [steps] has the empty list.  A trigger given as one string
    becomes a mapping with that one key, so that [has_pr_trigger], which
    answers [False] on a string, sees a [pull_request] trigger written
    that way. *)
Theorem parse_keeps_mapping_jobs (d js : entries) :
  doc_jobs d = Some js ->
  distinct_keys js ->
  exists structure : WorkflowStructure,
    parse_loaded (Dict d) = Ok structure
    /\ map fst (jobs structure) = map fst (filter (fun it => is_dict (snd it)) js)
    /\ (forall (job_id : atom) (c : entries),
          In (job_id, Dict c) js ->
          exists job : WorkflowJob,
            In (job_id, job) (jobs structure)
            /\ name job = get_or c "name" (Atom job_id)
            /\ runs_on job = get_or c "runs-on" (VStr "ubuntu-latest")
            /\ steps job = get_or c "steps" (List []))
    /\ (forall t : string,
          dict_get (AStr "on") d = Some (VStr t) ->
          on_triggers structure = Dict [(AStr t, Dict [])]
          /\ has_pr_trigger (on_triggers structure)
             = String.eqb "pull_request" t || String.eqb "pull_request_target" t
          /\ has_pr_trigger (VStr t) = false).
Proof.
  intros Hjobs Hd. eexists. split; [apply (parse_loaded_eq d js); assumption |].
  cbn [jobs on_triggers]. split; [apply parsed_ids | split].
  - intros job_id c Hin. exists (job_of job_id c). split; [| repeat split].
    apply in_flat_map. exists (job_id, Dict c). split; [exact Hin | left; reflexivity].
  - intros t Ht. unfold get_or. rewrite Ht. split; [reflexivity |].
    split; [| reflexivity].
    simpl. rewrite !orb_false_r. reflexivity.
Qed.

End Parse.

Lemma parse_keeps_mapping_jobs_witness :
  exists structure : WorkflowStructure,
    parse_loaded (Dict skipped_entries) = Ok structure
    /\ map fst (jobs structure)
       = map fst (filter (fun it => is_dict (snd it)) skipped_jobs)
    /\ (forall (job_id : atom) (c : entries),
          In (job_id, Dict c) skipped_jobs ->
          exists job : WorkflowJob,
            In (job_id, job) (jobs structure)
            /\ name job = get_or c "name" (Atom job_id)
            /\ runs_on job = get_or c "runs-on" (VStr "ubuntu-latest")
            /\ steps job = get_or c "steps" (List []))
    /\ (forall t : string,
          dict_get (AStr "on") skipped_entries = Some (VStr t) ->
          on_triggers structure = Dict [(AStr t, Dict [])]
          /\ has_pr_trigger (on_triggers structure)
             = String.eqb "pull_request" t || String.eqb "pull_request_target" t
          /\ has_pr_trigger (VStr t) = false).
Proof.
  apply (parse_keeps_mapping_jobs skipped_entries skipped_jobs).
  - reflexivity.
  - simpl. repeat split; reflexivity.
Defined.

(** ** [add_job_dependency] *)



(** ** [generate_job_yaml] *)

Section Placeholders.

Import Repr.

Lemma prefix_first (c0 c : ascii) (w r : string) :
  Ascii.eqb c0 c = false -> String.prefix (String c0 w) (String c r) = false.
Proof.
  intros H. simpl. destruct (ascii_dec c0 c) as [-> | _]; [| reflexivity].
  rewrite Ascii.eqb_refl in H. discriminate.
Qed.

(** A text without the first character of [old] has no [old] in it. *)
Lemma replace_from_absent (c0 : ascii) (w new s : string) :
  has_char c0 s = false -> replace_from (String c0 w) new 0 s = s.
Proof.
  induction s as [| c s IH]; [reflexivity |].
  cbn [has_char]. intros H. apply orb_false_iff in H as [H1 H2].
  cbn [replace_from]. rewrite (prefix_first c0 c w s H1), IH by exact H2. reflexivity.
Qed.

Lemma replace_from_pre (c0 : ascii) (w new pre s : string) :
  has_char c0 pre = false ->
  replace_from (String c0 w) new 0 (pre ++ s)
  = (pre ++ replace_from (String c0 w) new 0 s)%string.
Proof.
  induction pre as [| c pre IH]; [reflexivity |].
  cbn [has_char]. intros H. apply orb_false_iff in H as [H1 H2].
  cbn [String.append replace_from].
  rewrite (prefix_first c0 c w _ H1), IH by exact H2. reflexivity.
Qed.

Lemma replace_from_skip (old new w s : string) :
  replace_from old new (String.length w) (w ++ s) = replace_from old new 0 s.
Proof. induction w as [| c w IH]; [reflexivity | exact IH]. Qed.

Lemma replace_from_here (c0 : ascii) (w new s : string) :
  replace_from (String c0 w) new 0 (String c0 w ++ s)
  = (new ++ replace_from (String c0 w) new 0 s)%string.
Proof.
  cbn [String.append replace_from].
  change (String c0 (w ++ s)) with (String c0 w ++ s)%string.
  rewrite prefix_app.
  cbn [String.length]. rewrite Nat.sub_succ, Nat.sub_0_r, replace_from_skip.
  reflexivity.
Qed.

Lemma has_char_app (c : ascii) (a b : string) :
  has_char c (a ++ b) = has_char c a || has_char c b.
Proof.
  induction a as [| x a IH]; [reflexivity |].
  cbn [String.append has_char]. rewrite IH, orb_assoc. reflexivity.
Qed.

(** One occurrence of [old], in a text that has its first character
    nowhere else, is replaced. *)
Lemma replace_once (c0 : ascii) (w new pre post : string) :
  has_char c0 pre = false ->
  has_char c0 post = false ->
  replace (String c0 w) new (pre ++ String c0 w ++ post) = (pre ++ new ++ post)%string.
Proof.
  intros Hpre Hpost. unfold replace.
  rewrite replace_from_pre by exact Hpre.
  rewrite replace_from_here, replace_from_absent by exact Hpost. reflexivity.
Qed.

Lemma replace_absent (c0 : ascii) (w new s : string) :
  has_char c0 s = false -> replace (String c0 w) new s = s.
Proof. apply replace_from_absent. Qed.

Lemma generate_loop_absent (placeholders : list (string * string)) (s : string) :
  has_char "$" s = false ->
  fold_left
    (fun acc (it : string * string) =>
       content <- acc ;;
       let (placeholder, value) := it in
       content <- replace_in content (dollar ++ "{" ++ placeholder ++ "}")%string value ;;
       replace_in content (dollar ++ placeholder)%string value)
    placeholders (Ok (VStr s))
  = Ok (VStr s).
Proof.
  intros H. induction placeholders as [| [p v] r IH]; [reflexivity |].
  unfold VStr in *. cbn [fold_left bind replace_in]. unfold dollar, VStr.
  cbn [String.append].
  rewrite (replace_absent "$" _ v s H). cbn [bind replace_in]. unfold VStr.
  rewrite (replace_absent "$" _ v s H). exact IH.
Qed.

End Placeholders.

(** X19.  A template whose content has no dollar sign comes back from
    [generate_job_yaml] as it is, whatever the placeholders are. *)
Theorem content_without_dollar (t : entries) (s : string)
    (placeholders : list (string * string)) :
  dict_get (AStr "content") t = Some (VStr s) ->
  Repr.has_char "$" s = false ->
  generate_job_yaml (Dict t) placeholders = Ok (VStr s).
Proof.
  intros Hc Hs. unfold generate_job_yaml, get. rewrite Hc. cbn [bind].
  apply generate_loop_absent. exact Hs.
Qed.

Lemma content_without_dollar_witness :
  generate_job_yaml (Dict [(AStr "content", VStr "runs-on: ubuntu-latest")])
    [("RUNNER", "self-hosted")]
  = Ok (VStr "runs-on: ubuntu-latest").
Proof.
  apply (content_without_dollar [(AStr "content", VStr "runs-on: ubuntu-latest")]).
  - reflexivity.
  - reflexivity.
Defined.

(** X20.  A placeholder that stands once in the content, in a text that
    has no other dollar sign, is replaced by its value in both of its
    forms: [${NAME}], and [$NAME] whatever follows it, also when [NAME]
    is the beginning of a longer name (the name itself has no dollar sign,
    and what follows the dollar sign is not the name in braces). *)
Theorem placeholder_is_replaced (t : entries) (pre post placeholder value : string) :
  Repr.has_char "$" pre = false ->
  Repr.has_char "$" post = false ->
  Repr.has_char "$" value = false ->
  (dict_get (AStr "content") t
   = Some (VStr (pre ++ ("$" ++ "{" ++ placeholder ++ "}") ++ post)) ->
   generate_job_yaml (Dict t) [(placeholder, value)] = Ok (VStr (pre ++ value ++ post)))
  /\ (dict_get (AStr "content") t = Some (VStr (pre ++ ("$" ++ placeholder) ++ post)) ->
      Repr.has_char "$" placeholder = false ->
      String.prefix ("{" ++ placeholder ++ "}") (placeholder ++ post) = false ->
      generate_job_yaml (Dict t) [(placeholder, value)] = Ok (VStr (pre ++ value ++ post))).
Proof.
  intros Hpre Hpost Hv.
  assert (Repr.has_char "$" (pre ++ value ++ post) = false) as Hall.
  { rewrite !has_char_app, Hpre, Hv, Hpost. reflexivity. }
  split.
  - intros Hc. unfold generate_job_yaml, get. rewrite Hc.
    cbn [bind fold_left]. unfold dollar. cbn [replace_in bind VStr].
    change ("$" ++ "{" ++ placeholder ++ "}")%string
      with (String "$" ("{" ++ placeholder ++ "}")).
    rewrite replace_once by assumption. cbn [bind replace_in VStr].
    change ("$" ++ placeholder)%string with (String "$" placeholder).
    rewrite replace_absent by exact Hall. reflexivity.
  - intros Hc Hph Hp. unfold generate_job_yaml, get. rewrite Hc.
    cbn [bind fold_left]. unfold dollar. cbn [replace_in bind VStr].
    change ("$" ++ "{" ++ placeholder ++ "}")%string
      with (String "$" ("{" ++ placeholder ++ "}")).
    change ("$" ++ placeholder)%string with (String "$" placeholder).
    assert (replace (String "$" ("{" ++ placeholder ++ "}")) value
              (pre ++ String "$" placeholder ++ post)
            = (pre ++ String "$" placeholder ++ post)%string) as E.
    { unfold replace. rewrite replace_from_pre by exact Hpre.
      cbn [String.append replace_from String.prefix].
      destruct (ascii_dec "$" "$") as [_ | N]; [| contradiction].
      cbn [String.append] in Hp. rewrite Hp.
      rewrite replace_from_absent; [reflexivity |].
      rewrite has_char_app, Hph, Hpost. reflexivity. }
    rewrite E. cbn [bind replace_in VStr].
    rewrite replace_once by assumption. reflexivity.
Qed.

Lemma placeholder_is_replaced_witness :
  generate_job_yaml (Dict [(AStr "content", VStr "runs-on: ${RUNNER}")])
    [("RUNNER", "self-hosted")]
  = Ok (VStr "runs-on: self-hosted")
  /\ generate_job_yaml (Dict [(AStr "content", VStr "image: $TAGGED")])
       [("TAG", "v1")]
     = Ok (VStr "image: v1GED").
Proof.
  split.
  - apply (proj1 (placeholder_is_replaced [(AStr "content", VStr "runs-on: ${RUNNER}")]
                    "runs-on: " EmptyString "RUNNER" "self-hosted"
                    eq_refl eq_refl eq_refl)).
    reflexivity.
  - apply (proj2 (placeholder_is_replaced [(AStr "content", VStr "image: $TAGGED")]
                    "image: " "GED" "TAG" "v1" eq_refl eq_refl eq_refl)).
    + reflexivity.
    + reflexivity.
    + reflexivity.
Defined.

(** ** [detect_all_duplicates] *)

Section AllDuplicates.

Context {text : Type}.
Variable yaml_load : text -> result value.
Variable is_empty : text -> bool.

Let Template : Type := @Engine.Template text.
Let Results : Type := Engine.Results.

(** Something has been found. *)
Let found (r : Results) : Prop :=
  complete_workflow_duplicate r <> None \/ dup_jobs r <> [] \/ dup_steps r <> [].

Lemma scan_templates_flag (workflow_content : text) (templates : list Template) :
  forall (r : Results) (out : list printed),
    (has_duplicates r = true <-> found r) ->
    let r' := fst (scan_templates yaml_load is_empty workflow_content templates r out) in
    has_duplicates r' = true <-> found r'.
Proof.
  induction templates as [| t rest IH]; intros r out Hr; [exact Hr |].
  cbn [scan_templates].
  destruct (t_content t) as [c |]; [| apply IH; exact Hr].
  destruct (is_empty c); [apply IH; exact Hr |].
  destruct (String.eqb _ "workflow").
  - destruct (detect_workflow_duplicate yaml_load workflow_content c) as [[|] o].
    + cbn [fst has_duplicates]. unfold found. cbn [complete_workflow_duplicate].
      split; [intros _; left; discriminate | reflexivity].
    + apply IH. exact Hr.
  - destruct (String.eqb _ "job").
    + destruct (detect_job_duplicates yaml_load workflow_content c (t_name t) (t_id t))
        as [[| m ms] o]; apply IH; [exact Hr |].
      unfold found. cbn [has_duplicates complete_workflow_duplicate dup_jobs dup_steps].
      split; [intros _ | reflexivity].
      right. left. destruct (dup_jobs r); discriminate.
    + destruct (String.eqb _ "step"); [| apply IH; exact Hr].
      destruct (detect_step_duplicates yaml_load workflow_content c (t_name t) (t_id t))
        as [[| m ms] o]; apply IH; [exact Hr |].
      unfold found. cbn [has_duplicates complete_workflow_duplicate dup_jobs dup_steps].
      split; [intros _ | reflexivity].
      right. right. destruct (dup_steps r); discriminate.
Qed.

(** X21.  In what [detect_all_duplicates] returns, [has_duplicates] is true
    exactly when something is reported: a duplicate of the whole workflow,
    a duplicate job or a duplicate run of steps. *)
Theorem has_duplicates_iff_found (workflow_content : text) (workflow_file_path : string)
    (templates : list Template) :
  let results :=
    fst (detect_all_duplicates yaml_load is_empty workflow_content workflow_file_path
           templates) in
  has_duplicates results = true
  <-> (complete_workflow_duplicate results <> None
       \/ dup_jobs results <> []
       \/ dup_steps results <> []).
Proof.
  unfold detect_all_duplicates. apply scan_templates_flag.
  unfold found. cbn [has_duplicates complete_workflow_duplicate dup_jobs dup_steps].
  split; [discriminate | intros [H | [H | H]]; contradiction].
Qed.

(** X22.  A template for a whole workflow that the workflow matches ends
    the search: the templates that come after it in the list are not looked
    at, whatever they are, so that their jobs and steps are never
    reported. *)
Theorem whole_match_ends_search (workflow_content : text) (workflow_file_path : string)
    (before after : list Template) (t : Template) (c : text) :
  t_content t = Some c ->
  is_empty c = false ->
  t_type t = None \/ t_type t = Some "workflow" ->
  fst (detect_workflow_duplicate yaml_load workflow_content c) = true ->
  detect_all_duplicates yaml_load is_empty workflow_content workflow_file_path
    (before ++ t :: after)
  = detect_all_duplicates yaml_load is_empty workflow_content workflow_file_path
      (before ++ [t]).
Proof.
  intros Hc He Ht Hm. unfold detect_all_duplicates.
  generalize ({| workflow_file := workflow_file_path;
                 has_duplicates := false;
                 complete_workflow_duplicate := None;
                 dup_jobs := [];
                 dup_steps := [] |} : Results).
  generalize (@nil printed).
  induction before as [| b r IH]; intros out results.
  - cbn [app scan_templates]. rewrite Hc, He.
    assert (String.eqb (match t_type t with Some s => s | None => "workflow" end)
              "workflow" = true) as ->
        by (destruct Ht as [-> | ->]; reflexivity).
    destruct (detect_workflow_duplicate yaml_load workflow_content c) as [dup o].
    simpl in Hm. subst dup. reflexivity.
  - cbn [app scan_templates].
    destruct (t_content b) as [cb |]; [| apply IH].
    destruct (is_empty cb); [apply IH |].
    destruct (String.eqb _ "workflow").
    + destruct (detect_workflow_duplicate yaml_load workflow_content cb) as [[|] o];
        [reflexivity | apply IH].
    + destruct (String.eqb _ "job").
      * destruct (detect_job_duplicates yaml_load workflow_content cb (t_name b) (t_id b))
          as [job_dups o]. apply IH.
      * destruct (String.eqb _ "step"); [| apply IH].
        destruct (detect_step_duplicates yaml_load workflow_content cb (t_name b) (t_id b))
          as [step_dups o]. apply IH.
Qed.

End AllDuplicates.

Lemma whole_match_ends_search_witness :
  detect_all_duplicates PyYAML.load (fun _ => false) (PyYAML.dump ci) "ci.yml"
    ([] ++ {| t_id := 1; t_name := "ci"; t_content := Some (PyYAML.dump ci);
              t_type := None |}
        :: [{| t_id := 2; t_name := "deploy"; t_content := Some (PyYAML.dump deploy_job);
               t_type := Some "job" |}])
  = detect_all_duplicates PyYAML.load (fun _ => false) (PyYAML.dump ci) "ci.yml"
      ([] ++ [{| t_id := 1; t_name := "ci"; t_content := Some (PyYAML.dump ci);
                 t_type := None |}]).
Proof.
  apply (whole_match_ends_search PyYAML.load (fun _ => false) (PyYAML.dump ci) "ci.yml"
           [] _ _ (PyYAML.dump ci)).
  - reflexivity.
  - reflexivity.
  - left. reflexivity.
  - vm_compute. reflexivity.
Defined.

(** ** [add_enhancement_comments] *)

Section Comments.

Variables (original_yaml template_name enhancement_description : string).

Let loop := mark_job original_yaml template_name enhancement_description.

(** From the line of index [i] on, a line of two spaces stands at an index
    that is three or more, inside the jobs or after a line that reads
    [jobs:]. *)
Let bad (lines : list string) (i : nat) (in_jobs : bool) : Prop :=
  exists k : nat,
    nth_error lines k = Some "  "
    /\ 3 <= i + k
    /\ (in_jobs = true
        \/ exists (k' : nat) (line : string),
             k' < k /\ nth_error lines k' = Some line /\ strip line = "jobs:").

Lemma bad_nil (i : nat) (in_jobs : bool) : ~ bad [] i in_jobs.
Proof. intros [k [H _]]. destruct k; discriminate. Qed.

Lemma bad_cons (line : string) (rest : list string) (i : nat) (in_jobs : bool) :
  bad (line :: rest) i in_jobs
  <-> (line = "  " /\ 3 <= i /\ in_jobs = true)
      \/ bad rest (S i) (in_jobs || String.eqb (strip line) "jobs:").
Proof.
  unfold bad. split.
  - intros [k [Hk [Hi Hj]]]. destruct k as [| k].
    + left. simpl in Hk. injection Hk as ->. split; [reflexivity |].
      split; [lia |]. destruct Hj as [Hj | [k' [l [Hlt _]]]]; [exact Hj | lia].
    + right. exists k. simpl in Hk. split; [exact Hk |]. split; [lia |].
      destruct Hj as [-> | [k' [l [Hlt [Hl Hs]]]]]; [left; reflexivity |].
      destruct k' as [| k'].
      * simpl in Hl. injection Hl as ->. left. rewrite Hs. apply orb_true_r.
      * right. exists k', l. simpl in Hl. split; [lia | split; assumption].
  - intros [[-> [Hi Hj]] | [k [Hk [Hi Hj]]]].
    + exists 0. split; [reflexivity |]. split; [lia | left; exact Hj].
    + exists (S k). split; [exact Hk |]. split; [lia |].
      destruct Hj as [Hj | [k' [l [Hlt [Hl Hs]]]]].
      * apply orb_true_iff in Hj as [Hj | Hj]; [left; exact Hj |].
        right. exists 0, line. apply String.eqb_eq in Hj.
        split; [lia | split; [reflexivity | exact Hj]].
      * right. exists (S k'), l. split; [lia | split; assumption].
Qed.

(** A line that begins with two spaces and has no third character is the
    line of two spaces. *)
Lemma two_spaces (line : string) :
  String.prefix "  " line = true -> String.get 2 line = None -> line = "  ".
Proof.
  intros Hp Hg. apply prefix_split in Hp as [r ->].
  destruct r; [reflexivity | discriminate Hg].
Qed.

(** The loop raises, and then it is [IndexError], exactly when it meets
    such a line. *)
Lemma mark_job_raises (lines : list string) :
  forall (i : nat) (in_jobs job_added : bool) (acc : list string),
    (bad lines i in_jobs -> loop lines i in_jobs job_added acc = Raise IndexError)
    /\ (~ bad lines i in_jobs -> exists out, loop lines i in_jobs job_added acc = Ok out).
Proof.
  induction lines as [| line rest IH]; intros i in_jobs job_added acc.
  - split; [intros H; destruct (bad_nil _ _ H) | intros _; eexists; reflexivity].
  - rewrite bad_cons. unfold loop. cbn [mark_job].
    fold loop.
    destruct ((i <? 3)%nat && String.eqb (strip line) EmptyString) eqn:Hskip.
    + apply andb_true_iff in Hskip as [Hi Hblank].
      apply Nat.ltb_lt in Hi. apply String.eqb_eq in Hblank.
      rewrite Hblank. cbn [String.eqb]. rewrite orb_false_r.
      destruct (IH (S i) in_jobs job_added acc) as [IH1 IH2]. split.
      * intros [[_ [H3 _]] | H]; [lia | exact (IH1 H)].
      * intros H. apply IH2. intros Hb. apply H. right. exact Hb.
    + destruct (String.eqb (strip line) "jobs:") eqn:Hjobs.
      * rewrite orb_true_r.
        destruct (IH (S i) true job_added (acc ++ [line])) as [IH1 IH2]. split.
        -- intros [[-> _] | H]; [discriminate Hjobs | exact (IH1 H)].
        -- intros H. apply IH2. intros Hb. apply H. right. exact Hb.
      * rewrite orb_false_r.
        destruct (in_jobs && String.prefix "  " line) eqn:Hin.
        -- apply andb_true_iff in Hin as [-> Hp]. unfold char_at.
           destruct (String.get 2 line) as [c |] eqn:Hget.
           ++ assert (line <> "  ") as Hne by (intros ->; discriminate Hget).
              cbn [bind].
              assert (forall ja acc',
                         (bad rest (S i) true -> loop rest (S i) true ja acc' = Raise IndexError)
                         /\ (~ bad rest (S i) true ->
                             exists out, loop rest (S i) true ja acc' = Ok out)) as IH'
                  by (intros; apply IH).
              destruct (negb (Ascii.eqb c " ") && Repr.has_char ":" line && negb job_added);
                [destruct (negb (str_in _ original_yaml)) |];
                (split;
                 [ intros [[E _] | H]; [contradiction | exact (proj1 (IH' _ _) H)]
                 | intros H; apply (proj2 (IH' _ _)); intros Hb; apply H; right; exact Hb ]).
           ++ cbn [bind]. pose proof (two_spaces line Hp Hget) as ->. split.
              ** reflexivity.
              ** intros H. exfalso. apply H. left.
                 split; [reflexivity |]. split; [| reflexivity].
                 apply andb_false_iff in Hskip as [Hs | Hs];
                   [apply Nat.ltb_ge in Hs; exact Hs | discriminate Hs].
        -- cbn [bind].
           destruct (IH (S i) in_jobs job_added (acc ++ [line])) as [IH1 IH2]. split.
           ++ intros [[-> [_ ->]] | H]; [discriminate Hin | exact (IH1 H)].
           ++ intros H. apply IH2. intros Hb. apply H. right. exact Hb.
Qed.

(** What the loop returns: the lines it was given, but for the blank ones
    among the first three, with the marker put in at most once. *)
Lemma mark_job_keeps (lines : list string) :
  forall (i : nat) (in_jobs job_added : bool) (acc out : list string),
    loop lines i in_jobs job_added acc = Ok out ->
    exists b1 m b2 : list string,
      out = acc ++ b1 ++ m ++ b2
      /\ b1 ++ b2 = kept_lines lines i
      /\ (m = [] \/ (m = job_marker template_name enhancement_description
                     /\ job_added = false)).
Proof.
  induction lines as [| line rest IH]; intros i in_jobs job_added acc out.
  - simpl. intros H. injection H as <-. exists [], [], []. simpl.
    rewrite app_nil_r. auto.
  - unfold loop. cbn [mark_job kept_lines]. fold loop.
    destruct ((i <? 3)%nat && String.eqb (strip line) EmptyString) eqn:Hskip.
    + apply IH.
    + assert (forall ia ja m0,
                 (m0 = [] /\ ja = job_added)
                 \/ (m0 = job_marker template_name enhancement_description
                     /\ job_added = false /\ ja = true) ->
                 loop rest (S i) ia ja (acc ++ m0 ++ [line]) = Ok out ->
                 exists b1 m b2 : list string,
                   out = acc ++ b1 ++ m ++ b2
                   /\ b1 ++ b2 = line :: kept_lines rest (S i)
                   /\ (m = [] \/ (m = job_marker template_name enhancement_description
                                  /\ job_added = false))) as Step.
      { intros ia ja m0 Hm0 H.
        destruct (IH _ _ _ _ _ H) as [b1 [m [b2 [E [Hk Hm]]]]].
        destruct Hm0 as [[-> ->] | [-> [Hfalse ->]]].
        - exists (line :: b1), m, b2. split; [| split].
          + rewrite E. simpl. rewrite <- !app_assoc. reflexivity.
          + simpl. rewrite Hk. reflexivity.
          + exact Hm.
        - destruct Hm as [-> | [_ Hj]]; [| discriminate Hj].
          exists [], (job_marker template_name enhancement_description), (line :: b1 ++ b2).
          split; [| split].
          + rewrite E. simpl. rewrite <- !app_assoc. simpl. reflexivity.
          + simpl. rewrite Hk. reflexivity.
          + right. split; [reflexivity | exact Hfalse]. }
      destruct (String.eqb (strip line) "jobs:").
      * intros H. apply (Step true job_added []); auto.
      * destruct (in_jobs && String.prefix "  " line).
        -- destruct (char_at line 2) as [c |]; [| discriminate]. cbn [bind].
           destruct (negb (Ascii.eqb c " ") && Repr.has_char ":" line && negb job_added)
             eqn:Hc.
           ++ destruct (negb (str_in _ original_yaml)).
              ** intros H.
                 apply (Step in_jobs true
                          (job_marker template_name enhancement_description)); [| exact H].
                 right. split; [reflexivity |]. split; [| reflexivity].
                 apply andb_true_iff in Hc as [_ Hc]. destruct job_added;
                   [discriminate Hc | reflexivity].
              ** intros H. apply (Step in_jobs job_added []); auto.
           ++ intros H. apply (Step in_jobs job_added []); auto.
        -- cbn [bind]. intros H. apply (Step in_jobs job_added []); auto.
Qed.

End Comments.

(** X23.  [add_enhancement_comments] reads the third character of every
    line that begins with two spaces once it is past the line [jobs:]: it
    raises [IndexError] exactly when the enhanced text has a line of just
    two spaces, at an index of three or more, somewhere after a line that
    reads [jobs:]; on every other text it returns. *)
Theorem comments_index_error
    (original_yaml enhanced_yaml enhancement_description template_name insertion_type
       now : string) :
  (short_line_after_jobs (split_lines enhanced_yaml) ->
   add_enhancement_comments original_yaml enhanced_yaml enhancement_description
     template_name insertion_type now = Raise IndexError)
  /\ (~ short_line_after_jobs (split_lines enhanced_yaml) ->
      exists out : string,
        add_enhancement_comments original_yaml enhanced_yaml enhancement_description
          template_name insertion_type now = Ok out).
Proof.
  unfold add_enhancement_comments.
  match goal with
  | |- context [mark_job _ _ _ ?lines 0 false false ?acc] =>
      destruct (mark_job_raises original_yaml template_name enhancement_description
                  lines 0 false false acc) as [H1 H2]
  end.
  assert (forall lines : list string,
             short_line_after_jobs lines
             <-> (exists k : nat,
                     nth_error lines k = Some "  "
                     /\ 3 <= 0 + k
                     /\ (false = true
                         \/ exists (k' : nat) (line : string),
                              k' < k /\ nth_error lines k' = Some line
                              /\ strip line = "jobs:"))) as Hiff.
  { intros lines. unfold short_line_after_jobs. split.
    - intros [i [j [line [Hlt [H3 [Hi [Hs Hj]]]]]]]. exists j.
      split; [exact Hj |]. split; [lia |]. right. exists i, line. auto.
    - intros [k [Hk [H3 [C | [k' [line [Hlt [Hl Hs]]]]]]]]; [discriminate C |].
      exists k', k, line. repeat split; try assumption; lia. }
  split.
  - intros H. apply Hiff in H. rewrite (H1 H). reflexivity.
  - intros H. destruct H2 as [out Hout].
    + intros Hb. apply H. apply Hiff. exact Hb.
    + rewrite Hout. eexists. reflexivity.
Qed.

Lemma comments_index_error_witness :
  add_enhancement_comments "name: CI"
    ("name: CI" ++ line_feed ++ "on: push" ++ line_feed ++ "jobs:" ++ line_feed
       ++ "  " ++ line_feed ++ "  build:" ++ line_feed)
    "adds a scan" "scan" "job" "2024-01-01 00:00:00"
  = Raise IndexError.
Proof.
  apply (proj1 (comments_index_error "name: CI"
                  ("name: CI" ++ line_feed ++ "on: push" ++ line_feed ++ "jobs:" ++ line_feed
                     ++ "  " ++ line_feed ++ "  build:" ++ line_feed)
                  "adds a scan" "scan" "job" "2024-01-01 00:00:00")).
  exists 2, 3, "jobs:". repeat split; try reflexivity; lia.
Defined.

(** X24.  What [add_enhancement_comments] returns has, after the comment
    lines that the original text begins with and the header, every line of
    the enhanced text, in order and unchanged, but for the blank ones among
    its first three; the two marker lines are put in at most once, and
    nothing else is added. *)
Theorem comments_keep_lines
    (original_yaml enhanced_yaml enhancement_description template_name insertion_type
       now out : string) :
  add_enhancement_comments original_yaml enhanced_yaml enhancement_description
    template_name insertion_type now = Ok out ->
  exists b1 m b2 : list string,
    out = join (String newline EmptyString)
            ((match original_comments (split_lines original_yaml) with
              | [] => []
              | _ => original_comments (split_lines original_yaml) ++ [EmptyString]
              end)
               ++ [rstrip (header_comment template_name enhancement_description now);
                   EmptyString]
               ++ b1 ++ m ++ b2)
    /\ b1 ++ b2 = kept_lines (split_lines enhanced_yaml) 0
    /\ (m = [] \/ m = job_marker template_name enhancement_description).
Proof.
  unfold add_enhancement_comments.
  match goal with
  | |- context [mark_job _ _ _ ?lines 0 false false ?acc] =>
      destruct (mark_job original_yaml template_name enhancement_description
                  lines 0 false false acc) as [res |] eqn:E; [| discriminate]
  end.
  cbn [bind]. intros H. injection H as <-.
  apply mark_job_keeps in E as [b1 [m [b2 [-> [Hk Hm]]]]].
  exists b1, m, b2. split; [| split].
  - rewrite <- !app_assoc. reflexivity.
  - exact Hk.
  - destruct Hm as [-> | [-> _]]; auto.
Qed.

Lemma comments_keep_lines_witness :
  exists (out : string) (b1 m b2 : list string),
    add_enhancement_comments ("# ci" ++ line_feed ++ "name: CI")
      ("name: CI" ++ line_feed ++ "jobs:" ++ line_feed ++ "  scan:" ++ line_feed
         ++ "    runs-on: ubuntu-latest")
      "adds a scan" "scan" "job" "2024-01-01 00:00:00" = Ok out
    /\ out = join (String newline EmptyString)
               ((match original_comments (split_lines ("# ci" ++ line_feed ++ "name: CI")) with
                 | [] => []
                 | _ => original_comments (split_lines ("# ci" ++ line_feed ++ "name: CI"))
                          ++ [EmptyString]
                 end)
                  ++ [rstrip (header_comment "scan" "adds a scan" "2024-01-01 00:00:00");
                      EmptyString]
                  ++ b1 ++ m ++ b2)
    /\ b1 ++ b2
       = kept_lines
           (split_lines
              ("name: CI" ++ line_feed ++ "jobs:" ++ line_feed ++ "  scan:" ++ line_feed
                 ++ "    runs-on: ubuntu-latest")) 0
    /\ (m = [] \/ m = job_marker "scan" "adds a scan").
Proof.
  eexists.
  match goal with
  | |- exists b1 m b2, ?f = Ok ?o /\ _ =>
      assert (f = Ok o) as E by (vm_compute; reflexivity)
  end.
  destruct (comments_keep_lines _ _ _ _ _ _ _ E) as [b1 [m [b2 H]]].
  exists b1, m, b2. split; [exact E | exact H].
Defined.

(** ** The dumper's form of a document is stable *)

Section NormalForm.

Let nl : string := String newline EmptyString.

Lemma rstrip_no_newline (l : string) :
  has_newline l = false -> has_newline (rstrip l) = false.
Proof.
  induction l as [| c l IH]; [reflexivity |].
  cbn [has_newline rstrip]. intros H. apply orb_false_iff in H as [Hc Hl].
  specialize (IH Hl). destruct (rstrip l) as [| c' r'].
  - destruct (is_space c); [reflexivity |]. cbn [has_newline]. rewrite Hc. reflexivity.
  - cbn [has_newline] in *. rewrite Hc. exact IH.
Qed.

Lemma rstrip_idempotent (l : string) : rstrip (rstrip l) = rstrip l.
Proof.
  induction l as [| c l IH]; [reflexivity |].
  cbn [rstrip]. destruct (rstrip l) as [| c' r'] eqn:E.
  - destruct (is_space c) eqn:Hc; [reflexivity |].
    cbn [rstrip]. rewrite Hc. reflexivity.
  - cbn [rstrip]. cbn [rstrip] in IH.
    destruct (match rstrip r' with
              | EmptyString => if is_space c' then EmptyString else String c' EmptyString
              | String a s => String c' (String a s)
              end) eqn:E'; [discriminate IH |].
    rewrite IH. reflexivity.
Qed.

Lemma split_lines_no_newline (l : string) :
  has_newline l = false -> split_lines l = [l].
Proof.
  induction l as [| c l IH]; [reflexivity |].
  cbn [has_newline split_lines]. intros H. apply orb_false_iff in H as [Hc Hl].
  rewrite Hc, (IH Hl). reflexivity.
Qed.

Lemma split_lines_app (x rest : string) :
  has_newline x = false ->
  split_lines (x ++ String newline rest) = x :: split_lines rest.
Proof.
  induction x as [| c x IH]; intros H.
  - cbn [String.append split_lines]. rewrite Ascii.eqb_refl. reflexivity.
  - cbn [has_newline] in H. apply orb_false_iff in H as [Hc Hx].
    cbn [String.append split_lines]. rewrite Hc, (IH Hx). reflexivity.
Qed.

Lemma split_lines_lines (s : string) :
  Forall (fun l => has_newline l = false) (split_lines s).
Proof.
  induction s as [| c s IH]; [repeat constructor |].
  cbn [split_lines]. destruct (Ascii.eqb c newline) eqn:Hc.
  - constructor; [reflexivity | exact IH].
  - destruct (split_lines s) as [| l ls].
    + constructor; [| constructor]. cbn [has_newline]. rewrite Hc. reflexivity.
    + inversion IH; subst. constructor; [| assumption].
      cbn [has_newline]. rewrite Hc. assumption.
Qed.

Lemma split_lines_join (ls : list string) :
  ls <> [] ->
  Forall (fun l => has_newline l = false) ls ->
  split_lines (join nl ls) = ls.
Proof.
  intros Hne H. induction H as [| x r Hx Hr IH]; [contradiction |].
  destruct r as [| y r].
  - simpl. apply split_lines_no_newline. exact Hx.
  - rewrite join_cons. unfold nl at 1. cbn [String.append].
    rewrite split_lines_app by exact Hx. rewrite IH by discriminate. reflexivity.
Qed.

Lemma has_newline_app (a b : string) :
  has_newline (a ++ b) = has_newline a || has_newline b.
Proof.
  induction a as [| c a IH]; [reflexivity |].
  cbn [String.append has_newline]. rewrite IH, orb_assoc. reflexivity.
Qed.

Lemma has_newline_join (x y : string) (r : list string) :
  has_newline (join nl (x :: y :: r)) = true.
Proof.
  rewrite join_cons, has_newline_app. unfold nl at 1. cbn [String.append has_newline].
  rewrite Ascii.eqb_refl. apply orb_true_r.
Qed.

Lemma split_lines_two (s : string) :
  has_newline s = true -> exists x y r, split_lines s = x :: y :: r.
Proof.
  induction s as [| c s IH]; [discriminate |].
  cbn [has_newline split_lines]. destruct (Ascii.eqb c newline).
  - intros _. pose proof (split_lines_nonempty s) as Hne.
    destruct (split_lines s) as [| y r]; [contradiction |]. eauto.
  - intros H. destruct (IH H) as [x [y [r E]]]. rewrite E. eauto.
Qed.

(** Stripping a string a second time changes nothing. *)
Lemma clean_str_idempotent (s : string) : clean_str (clean_str s) = clean_str s.
Proof.
  unfold clean_str, represent_str.
  destruct (has_newline s) eqn:Hs; cbn [node_value]; [| rewrite Hs; reflexivity].
  fold nl.
  destruct (split_lines_two s Hs) as [x [y [r E]]].
  assert (Forall (fun l => has_newline l = false) (map rstrip (split_lines s))) as Hl.
  { apply Forall_forall. intros l Hin. apply in_map_iff in Hin as [l0 [<- Hin]].
    apply rstrip_no_newline.
    pose proof (split_lines_lines s) as H. rewrite Forall_forall in H. exact (H _ Hin). }
  assert (has_newline (join nl (map rstrip (split_lines s))) = true) as ->
      by (rewrite E; apply has_newline_join).
  cbn [node_value].
  rewrite split_lines_join by (try exact Hl; rewrite E; discriminate).
  rewrite map_map. f_equal. apply map_ext. intros l. apply rstrip_idempotent.
Qed.

Lemma clean_atom_idempotent (a : atom) : clean_atom (clean_atom a) = clean_atom a.
Proof. destruct a; simpl; try reflexivity. rewrite clean_str_idempotent. reflexivity. Qed.

Lemma clean_idempotent (d : value) : clean (clean d) = clean d.
Proof.
  induction d as [a | l IH | es IH] using value_induction.
  - simpl. rewrite clean_atom_idempotent. reflexivity.
  - cbn [clean]. rewrite map_map. f_equal. apply map_ext_in.
    intros x Hx. rewrite Forall_forall in IH. exact (IH x Hx).
  - cbn [clean]. rewrite map_map. f_equal. apply map_ext_in.
    intros [k v] Hin. cbn [fst snd]. rewrite clean_atom_idempotent.
    rewrite Forall_forall in IH. pose proof (IH _ Hin) as E. cbn [snd] in E.
    rewrite E. reflexivity.
Qed.

End NormalForm.

(** X25.  What [represent_str] does to a document, it does once: the
    document that is loaded back from a dump is left as it is by the next
    dump and load, so that a second round trip changes nothing, with
    either loader. *)
Theorem second_roundtrip_is_exact (d : value) :
  well_formed (clean d) ->
  clean (clean d) = clean d
  /\ load (dump (clean d)) = Ok (clean d)
  /\ safe_load (dump (clean d)) = Ok (clean d).
Proof.
  intros Hwf.
  assert (load (dump (clean d)) = Ok (clean d)) as Hload.
  { unfold load, dump, load_text.
    rewrite (shared_table WorkflowYAMLLoader), (shared_table WorkflowYAMLDumper)
      by (simpl; auto).
    rewrite <- (clean_idempotent d) at 2.
    apply reload. rewrite clean_idempotent. exact Hwf. }
  split; [apply clean_idempotent |].
  split; [exact Hload | exact (eq_trans (loaders_agree _) Hload)].
Qed.

Lemma second_roundtrip_is_exact_witness :
  clean (clean (Dict (script_entries padded_script))) = clean (Dict (script_entries padded_script))
  /\ load (dump (clean (Dict (script_entries padded_script))))
     = Ok (clean (Dict (script_entries padded_script)))
  /\ safe_load (dump (clean (Dict (script_entries padded_script))))
     = Ok (clean (Dict (script_entries padded_script))).
Proof.
  apply (second_roundtrip_is_exact (Dict (script_entries padded_script))).
  vm_compute. repeat split.
Defined.

(** ** Removals that do not do what was asked *)

(** X26.  When the workflow has no [jobs] key, [merge_job] makes one: after
    merging a job and removing it again, the document is not the one that
    was there before, it has an empty [jobs] mapping at its end. *)
Theorem merge_then_remove_without_jobs (d : entries) (F : value) (job_id : string)
    (insert_after : option string) :
  dict_get (AStr "jobs") d = None ->
  exists merged : value,
    merge_job (Dict d) F job_id insert_after = Ok merged
    /\ remove_job merged job_id = Ok (Some (Dict (d ++ [(AStr "jobs", Dict [])]))).
Proof.
  intros Hjobs.
  assert (doc_jobs d = Some []) as Hdoc by (unfold doc_jobs; rewrite Hjobs; reflexivity).
  rewrite (merge_job_eq d []) by exact Hdoc.
  assert (names insert_after [] = false) as ->.
  { destruct insert_after as [a |]; [| reflexivity]. unfold names. simpl.
    apply andb_false_r. }
  eexists. split; [reflexivity |].
  unfold with_jobs. cbn [dict_set].
  rewrite (remove_job_eq _ [(AStr job_id, unwrap_job F)]).
  - unfold with_jobs. cbn [dict_del]. rewrite key_eqb_refl, dict_set_set.
    rewrite dict_set_fresh by (apply dict_get_none; exact Hjobs). reflexivity.
  - apply dict_get_set_same.
  - simpl. rewrite String.eqb_refl. reflexivity.
Qed.

Lemma merge_then_remove_without_jobs_witness :
  exists merged : value,
    merge_job (Dict [(AStr "name", VStr "CI")]) scan_job "scan" None = Ok merged
    /\ remove_job merged "scan"
       = Ok (Some (Dict ([(AStr "name", VStr "CI")] ++ [(AStr "jobs", Dict [])]))).
Proof.
  apply (merge_then_remove_without_jobs [(AStr "name", VStr "CI")] scan_job "scan" None).
  reflexivity.
Defined.

Section Stale.

Lemma sorted_twice (x : Z) : sorted_desc [x; x] = [x; x].
Proof. unfold sorted_desc. simpl. rewrite Z.ltb_irrefl. reflexivity. Qed.

Lemma list_del_length (i : nat) (ss : list value) :
  i < List.length ss -> List.length (list_del i ss) = List.length ss - 1.
Proof.
  intros H. unfold list_del. rewrite length_app, length_firstn, length_skipn. lia.
Qed.

Lemma list_del_out (i : nat) (ss : list value) :
  List.length ss <= i -> list_del i ss = ss.
Proof.
  intros H. unfold list_del.
  rewrite (firstn_all2 (n := i) ss) by lia.
  rewrite (skipn_all2 (n := S i) ss) by lia. apply app_nil_r.
Qed.

Lemma list_del_twice (i : nat) (ss : list value) :
  list_del i (list_del i ss) = firstn i ss ++ skipn (i + 2) ss.
Proof.
  destruct (Nat.le_gt_cases (List.length ss) i) as [Hle | Hlt].
  - rewrite !list_del_out by (try rewrite list_del_out; lia).
    rewrite (firstn_all2 (n := i) ss) by lia.
    rewrite (skipn_all2 (n := i + 2) ss) by lia. symmetry. apply app_nil_r.
  - unfold list_del.
    assert (List.length (firstn i ss) = i) as Hlen by (rewrite length_firstn; lia).
    rewrite firstn_app, Hlen, Nat.sub_diag. cbn [firstn]. rewrite app_nil_r.
    rewrite (firstn_all2 (n := i) (firstn i ss)) by lia.
    rewrite skipn_app, Hlen.
    rewrite (skipn_all2 (n := S i) (firstn i ss)) by lia. cbn [app].
    replace (S i - i) with 1 by lia.
    rewrite skipn_skipn. replace (1 + S i) with (i + 2) by lia. reflexivity.
Qed.

Lemma delete_steps_twice (ss : list value) (i : nat) :
  delete_steps ss [Z.of_nat i; Z.of_nat i] = firstn i ss ++ skipn (i + 2) ss.
Proof.
  unfold delete_steps. rewrite sorted_twice. cbn [fold_left].
  destruct (Nat.le_gt_cases (List.length ss) i) as [Hle | Hlt].
  - assert ((Z.of_nat i <? Z.of_nat (List.length ss))%Z = false) as E
        by (apply Z.ltb_ge; lia).
    rewrite E, andb_false_r, E, andb_false_r.
    rewrite firstn_all2, skipn_all2 by lia. symmetry. apply app_nil_r.
  - assert ((0 <=? Z.of_nat i)%Z = true) as E0 by (apply Z.leb_le; lia).
    assert ((Z.of_nat i <? Z.of_nat (List.length ss))%Z = true) as E
        by (apply Z.ltb_lt; lia).
    rewrite E0, E. cbn [andb]. rewrite Nat2Z.id.
    rewrite list_del_length by exact Hlt.
    destruct (Z.of_nat i <? Z.of_nat (List.length ss - 1))%Z eqn:E1.
    + cbn [andb]. apply list_del_twice.
    + cbn [andb]. apply Z.ltb_ge in E1.
      unfold list_del. replace (i + 2) with (S (S i)) by lia.
      rewrite (skipn_all2 ss (n := S (S i))) by lia.
      rewrite (skipn_all2 ss (n := S i)) by lia. reflexivity.
Qed.

(** Cutting out a run, and then a run that was counted further on in the
    list as it was. *)
Lemma delete_steps_stale (ss : list value) (i j n : nat) :
  i + n <= j ->
  delete_steps (delete_steps ss (map Z.of_nat (seq i n))) (map Z.of_nat (seq j n))
  = firstn i ss ++ window ss (i + n) (j - i - n) ++ window ss j n ++ skipn (j + n + n) ss.
Proof.
  intros Hij. rewrite !delete_steps_range. unfold window.
  destruct (Nat.le_gt_cases (List.length ss) i) as [Hle | Hlt].
  - rewrite !(skipn_all2 ss) by lia. rewrite !firstn_nil, !app_nil_r.
    rewrite (firstn_all2 ss) by lia.
    rewrite firstn_all2, skipn_all2 by lia. apply app_nil_r.
  - assert (List.length (firstn i ss) = i) as Hlen by (rewrite length_firstn; lia).
    rewrite firstn_app, Hlen. rewrite (firstn_all2 (firstn i ss)) by lia.
    rewrite skipn_app, Hlen. rewrite (skipn_all2 (firstn i ss)) by lia. simpl app.
    rewrite skipn_skipn. replace (j + n - i + (i + n)) with (j + n + n) by lia.
    rewrite <- app_assoc. f_equal.
    replace (j - i) with ((j - i - n) + n) at 1 by lia.
    rewrite (app_assoc (firstn (j - i - n) _)). f_equal.
    rewrite <- (firstn_skipn (j - i - n) (firstn (j - i - n + n) (skipn (i + n) ss))).
    rewrite firstn_firstn. replace (Nat.min (j - i - n) (j - i - n + n)) with (j - i - n) by lia.
    f_equal. rewrite skipn_firstn_comm.
    replace (j - i - n + n - (j - i - n)) with n by lia.
    rewrite skipn_skipn. replace (j - i - n + (i + n)) with j by lia. reflexivity.
Qed.

End Stale.

(** X27.  An index that is given twice to [remove_steps] takes the next
    step with it: the loop deletes at that index two times, so that the
    step at the index and the step after it are gone. *)
Theorem repeated_index_removes_next (d js j : entries) (ss : list value) (t : string)
    (i : nat) :
  dict_get (AStr "jobs") d = Some (Dict js) ->
  dict_get (AStr t) js = Some (Dict j) ->
  dict_get (AStr "steps") j = Some (List ss) ->
  remove_steps (Dict d) t [Z.of_nat i; Z.of_nat i]
  = Ok (Some (with_jobs
                (dict_set (AStr t) (with_steps (firstn i ss ++ skipn (i + 2) ss) j) js) d)).
Proof.
  intros Hjobs Hjob Hsteps.
  rewrite (remove_steps_eq d js j ss) by assumption.
  rewrite delete_steps_twice. reflexivity.
Qed.

Lemma repeated_index_removes_next_witness :
  remove_steps ci "build" [1%Z; 1%Z]
  = Ok (Some (with_jobs
                (dict_set (AStr "build")
                   (with_steps [checkout; upload] build_job_entries) ci_jobs)
                ci_entries)).
Proof.
  apply (repeated_index_removes_next ci_entries ci_jobs build_job_entries
           [checkout; build_step; test_step; upload] "build" 1).
  - reflexivity.
  - reflexivity.
  - reflexivity.
Defined.

Section StaleIndices.

Context {text : Type}.
Variables (yaml_load : text -> result value) (yaml_dump : value -> text).

(** An item that asks for the removal of a run of steps. *)
Let steps_item (t : string) (i n : nat) : Removal :=
  {| r_type := Some "steps";
     r_job_name := Some t;
     r_step_indices := Some (map Z.of_nat (seq i n)) |}.

(** X28.  The removals of [remove_duplicates] are applied one after the
    other, each to the text that the one before returned, with the indices
    as they were reported for the text at the start.  When two runs of [n]
    steps are reported for one job, the second at or after the end of the
    first, the first run is cut out, the second run stays, and the [n]
    steps that come after the second run are cut out in its place. *)
Theorem later_run_is_not_removed (content : text) (d js j : entries) (ss : list value)
    (t : string) (i k n : nat) :
  yaml_load content = Ok (Dict d) ->
  dict_get (AStr "jobs") d = Some (Dict js) ->
  dict_get (AStr t) js = Some (Dict j) ->
  dict_get (AStr "steps") j = Some (List ss) ->
  t <> EmptyString ->
  n <> 0 ->
  i + n <= k ->
  (let first := with_jobs
                  (dict_set (AStr t) (with_steps (firstn i ss ++ skipn (i + n) ss) j) js) d in
   yaml_load (yaml_dump first) = Ok first) ->
  apply_removals yaml_load yaml_dump content [steps_item t i n; steps_item t k n]
  = (yaml_dump
       (with_jobs
          (dict_set (AStr t)
             (with_steps
                (firstn i ss ++ window ss (i + n) (k - i - n) ++ window ss k n
                   ++ skipn (k + n + n) ss) j) js) d),
     []).
Proof.
  intros Hload Hjobs Hjob Hsteps Ht Hn Hik Hre.
  unfold apply_removals, steps_item, has_type.
  cbn [filter r_type String.eqb Ascii.eqb Bool.eqb fold_left r_job_name r_step_indices].
  apply String.eqb_neq in Ht. rewrite Ht.
  assert (Nat.eqb (List.length (map Z.of_nat (seq i n))) 0 = false) as ->
      by (rewrite length_map, length_seq; apply Nat.eqb_neq; exact Hn).
  assert (Nat.eqb (List.length (map Z.of_nat (seq k n))) 0 = false) as ->
      by (rewrite length_map, length_seq; apply Nat.eqb_neq; exact Hn).
  cbn [negb andb].
  assert (remove_steps_from_job yaml_load yaml_dump content t (map Z.of_nat (seq i n))
          = (yaml_dump
               (with_jobs
                  (dict_set (AStr t) (with_steps (firstn i ss ++ skipn (i + n) ss) j) js) d),
             [])) as ->.
  { unfold remove_steps_from_job. rewrite Hload. cbn [bind].
    rewrite (remove_steps_eq d js j ss) by assumption.
    rewrite delete_steps_range. reflexivity. }
  cbn [app]. cbn zeta in Hre.
  unfold remove_steps_from_job. rewrite Hre. cbn [bind].
  unfold with_jobs, with_steps.
  rewrite (remove_steps_eq _ _ _ (firstn i ss ++ skipn (i + n) ss) t _
             (dict_get_set_same _ _ _) (dict_get_set_same _ _ _) (dict_get_set_same _ _ _)).
  unfold with_jobs, with_steps. rewrite !dict_set_set.
  rewrite <- (delete_steps_range ss i n), delete_steps_stale by exact Hik.
  reflexivity.
Qed.

End StaleIndices.

Lemma later_run_is_not_removed_witness :
  apply_removals PyYAML.load PyYAML.dump (PyYAML.dump (Dict twice_entries))
    [ {| r_type := Some "steps"; r_job_name := Some "twice";
         r_step_indices := Some (map Z.of_nat (seq 0 2)) |};
      {| r_type := Some "steps"; r_job_name := Some "twice";
         r_step_indices := Some (map Z.of_nat (seq 2 2)) |} ]
  = (PyYAML.dump
       (with_jobs
          (dict_set (AStr "twice")
             (with_steps
                (firstn 0 [checkout; build_step; checkout; build_step]
                   ++ window [checkout; build_step; checkout; build_step] (0 + 2) (2 - 0 - 2)
                   ++ window [checkout; build_step; checkout; build_step] 2 2
                   ++ skipn (2 + 2 + 2) [checkout; build_step; checkout; build_step])
                [(AStr "runs-on", VStr "ubuntu-latest");
                 (AStr "steps", List [checkout; build_step; checkout; build_step])])
             twice_jobs)
          twice_entries),
     []).
Proof.
  apply (later_run_is_not_removed PyYAML.load PyYAML.dump
           (PyYAML.dump (Dict twice_entries)) twice_entries twice_jobs
           [(AStr "runs-on", VStr "ubuntu-latest");
            (AStr "steps", List [checkout; build_step; checkout; build_step])]
           [checkout; build_step; checkout; build_step] "twice" 0 2 2).
  - vm_compute. reflexivity.
  - reflexivity.
  - reflexivity.
  - reflexivity.
  - discriminate.
  - discriminate.
  - simpl. lia.
  - vm_compute. reflexivity.
Defined.

(** ** Documents as the engine hands them on: through the dump *)

Section ThroughTheDump.

(** What is loaded back from a dump. *)
Lemma load_dump (v : value) :
  well_formed (clean v) -> load (dump v) = Ok (clean v).
Proof.
  intros Hwf. unfold load, dump, load_text.
  rewrite (shared_table WorkflowYAMLLoader), (shared_table WorkflowYAMLDumper)
    by (simpl; auto).
  apply reload. exact Hwf.
Qed.

Lemma has_newline_clean (s : string) : has_newline (clean_str s) = has_newline s.
Proof.
  unfold clean_str, represent_str.
  destruct (has_newline s) eqn:Hs; cbn [node_value]; [| exact Hs].
  destruct (split_lines_two s Hs) as [x [y [r E]]].
  rewrite E. apply has_newline_join.
Qed.

Lemma represent_str_eq (s : string) :
  represent_str s
  = {| node_tag := tag_str; node_value := clean_str s; node_literal := has_newline s |}.
Proof. unfold clean_str, represent_str. destruct (has_newline s); reflexivity. Qed.

Lemma represent_clean (a : atom) : represent_atom (clean_atom a) = represent_atom a.
Proof.
  destruct a as [| b | n | s]; try reflexivity.
  cbn [clean_atom represent_atom].
  rewrite (represent_str_eq (clean_str s)), (represent_str_eq s).
  rewrite clean_str_idempotent, has_newline_clean. reflexivity.
Qed.

(** The dump of a document and the dump of what is loaded back from it are
    one text. *)
Lemma dump_clean (v : value) : dump (clean v) = dump v.
Proof.
  unfold dump. f_equal.
  induction v as [a | l IH | d IH] using value_induction.
  - cbn [clean dump_tree]. rewrite represent_clean. reflexivity.
  - cbn [clean dump_tree]. rewrite map_map. f_equal. apply map_ext_in.
    intros x Hx. rewrite Forall_forall in IH. exact (IH x Hx).
  - cbn [clean dump_tree]. rewrite map_map. f_equal. apply map_ext_in.
    intros [k v] Hin. cbn [fst snd]. rewrite represent_clean.
    rewrite Forall_forall in IH. pose proof (IH _ Hin) as E. cbn [snd] in E.
    rewrite E. reflexivity.
Qed.

(** A key of one line is found under the same keys before and after the
    dump. *)
Lemma key_clean (s : string) (k : atom) :
  has_newline s = false -> key_eqb (AStr s) (clean_atom k) = key_eqb (AStr s) k.
Proof.
  intros Hs. destruct k as [| b | n | t]; try reflexivity.
  cbn [clean_atom key_eqb].
  destruct (has_newline t) eqn:Ht.
  - assert (String.eqb s t = false) as ->
        by (apply String.eqb_neq; intros ->; congruence).
    apply String.eqb_neq. intros ->. rewrite has_newline_clean in Hs. congruence.
  - rewrite clean_str_stable by (left; exact Ht). reflexivity.
Qed.

Lemma dict_get_clean (s : string) (d : entries) :
  has_newline s = false ->
  dict_get (AStr s) (clean_entries d) = option_map clean (dict_get (AStr s) d).
Proof.
  intros Hs. induction d as [| [k v] r IH]; [reflexivity |].
  cbn [clean_entries map dict_get fst snd]. rewrite key_clean by exact Hs.
  destruct (key_eqb (AStr s) k); [reflexivity | exact IH].
Qed.

Lemma dict_has_clean (s : string) (d : entries) :
  has_newline s = false ->
  dict_has (AStr s) (clean_entries d) = dict_has (AStr s) d.
Proof.
  intros Hs. unfold dict_has. induction d as [| [k v] r IH]; [reflexivity |].
  cbn [clean_entries map existsb fst snd]. rewrite key_clean by exact Hs.
  f_equal. exact IH.
Qed.

Lemma dict_set_clean (s : string) (v : value) (d : entries) :
  has_newline s = false ->
  dict_set (AStr s) (clean v) (clean_entries d) = clean_entries (dict_set (AStr s) v d).
Proof.
  intros Hs. induction d as [| [k v'] r IH].
  - cbn [clean_entries map dict_set fst snd clean_atom].
    rewrite clean_str_stable by (left; exact Hs). reflexivity.
  - cbn [clean_entries map dict_set fst snd]. rewrite key_clean by exact Hs.
    destruct (key_eqb (AStr s) k); [reflexivity |].
    cbn [map fst snd]. f_equal. exact IH.
Qed.

Lemma dict_del_clean (s : string) (d : entries) :
  has_newline s = false ->
  dict_del (AStr s) (clean_entries d) = clean_entries (dict_del (AStr s) d).
Proof.
  intros Hs. induction d as [| [k v'] r IH]; [reflexivity |].
  cbn [clean_entries map dict_del fst snd]. rewrite key_clean by exact Hs.
  destruct (key_eqb (AStr s) k); [reflexivity |].
  cbn [map fst snd]. f_equal. exact IH.
Qed.


Lemma with_jobs_clean (js d : entries) :
  clean (with_jobs js d) = with_jobs (clean_entries js) (clean_entries d).
Proof.
  unfold with_jobs. cbn [clean]. fold (clean_entries (dict_set (AStr "jobs") (Dict js) d)).
  rewrite <- dict_set_clean by reflexivity. reflexivity.
Qed.

Lemma with_steps_clean (ss : list value) (j : entries) :
  clean (with_steps ss j) = with_steps (map clean ss) (clean_entries j).
Proof.
  unfold with_steps. cbn [clean]. fold (clean_entries (dict_set (AStr "steps") (List ss) j)).
  rewrite <- dict_set_clean by reflexivity. reflexivity.
Qed.

(** A document that the dump leaves as it is has entries that the dump
    leaves as they are. *)
Lemma clean_entries_fixed (d : entries) (kv : atom * value) :
  clean_entries d = d -> In kv d -> clean_atom (fst kv) = fst kv /\ clean (snd kv) = snd kv.
Proof.
  induction d as [| [k v] r IH]; [intros _ [] |].
  cbn [clean_entries map fst snd]. intros E [<- | Hin].
  - injection E as Hk Hv _. split; assumption.
  - injection E as _ _ Hr. exact (IH Hr Hin).
Qed.

Lemma clean_entries_others (k : atom) (d : entries) :
  clean_entries d = d -> clean_entries (others k d) = others k d.
Proof.
  intros E. unfold others, clean_entries.
  rewrite <- (map_id (filter _ d)) at 2. apply map_ext_in.
  intros kv Hin. apply filter_In in Hin as [Hin _].
  destruct (clean_entries_fixed d kv E Hin) as [Hk Hv].
  rewrite Hk, Hv. destruct kv; reflexivity.
Qed.

End ThroughTheDump.

(** ** Non-interference of the merge engine *)

Section Frame.

Lemma doc_jobs_clean (d js : entries) :
  doc_jobs d = Some js -> clean_entries d = d -> clean_entries js = js.
Proof.
  unfold doc_jobs. intros Hjobs E.
  destruct (dict_get (AStr "jobs") d) as [[a | l | js0] |] eqn:Hget; try discriminate.
  - injection Hjobs as ->.
    apply dict_get_in in Hget as [k [Hin _]].
    destruct (clean_entries_fixed d _ E Hin) as [_ Hv]. cbn [snd clean] in Hv.
    injection Hv as Hv. exact Hv.
  - injection Hjobs as <-. reflexivity.
Qed.

End Frame.




(** ** Removal, on the text *)

Section RemovalOnText.

(** [remove_job] on a document and on the document as a dump leaves it. *)
Lemma remove_job_clean (d js : entries) (job_name : string) :
  dict_get (AStr "jobs") d = Some (Dict js) ->
  has_newline job_name = false ->
  remove_job (clean (Dict d)) job_name
  = match remove_job (Dict d) job_name with
    | Ok (Some r) => Ok (Some (clean r))
    | other => other
    end.
Proof.
  intros Hjobs Hs. cbn [clean]. fold (clean_entries d).
  assert (dict_get (AStr "jobs") (clean_entries d) = Some (Dict (clean_entries js))) as Hc
      by (rewrite dict_get_clean, Hjobs by reflexivity; reflexivity).
  destruct (dict_has (AStr job_name) js) eqn:Hhas.
  - rewrite (remove_job_eq d js) by assumption.
    rewrite (remove_job_eq (clean_entries d) (clean_entries js))
      by (try exact Hc; rewrite dict_has_clean by exact Hs; exact Hhas).
    rewrite with_jobs_clean, dict_del_clean by exact Hs. reflexivity.
  - rewrite (remove_job_none d js)
      by (try exact Hhas; unfold doc_jobs; rewrite Hjobs; reflexivity).
    apply (remove_job_none _ (clean_entries js)).
    + unfold doc_jobs. rewrite Hc. reflexivity.
    + rewrite dict_has_clean by exact Hs. exact Hhas.
Qed.

Lemma list_del_map (i : nat) (ss : list value) :
  list_del i (map clean ss) = map clean (list_del i ss).
Proof. unfold list_del. rewrite map_app, firstn_map, skipn_map. reflexivity. Qed.

Lemma delete_steps_map (ss : list value) (step_indices : list Z) :
  delete_steps (map clean ss) step_indices = map clean (delete_steps ss step_indices).
Proof.
  unfold delete_steps. generalize (sorted_desc step_indices) as l. intros l.
  revert ss. induction l as [| x r IH]; intros ss; [reflexivity |].
  cbn [fold_left]. rewrite length_map.
  destruct ((0 <=? x)%Z && (x <? Z.of_nat (List.length ss))%Z).
  - rewrite list_del_map. apply IH.
  - apply IH.
Qed.

(** [remove_steps] on a document and on the document as a dump leaves
    it. *)
Lemma remove_steps_clean (d js j : entries) (ss : list value) (t : string)
    (step_indices : list Z) :
  dict_get (AStr "jobs") d = Some (Dict js) ->
  dict_get (AStr t) js = Some (Dict j) ->
  dict_get (AStr "steps") j = Some (List ss) ->
  has_newline t = false ->
  remove_steps (clean (Dict d)) t step_indices
  = Ok (Some (clean (with_jobs
                       (dict_set (AStr t) (with_steps (delete_steps ss step_indices) j) js)
                       d))).
Proof.
  intros Hjobs Hjob Hsteps Ht. cbn [clean]. fold (clean_entries d).
  rewrite (remove_steps_eq (clean_entries d) (clean_entries js) (clean_entries j)
             (map clean ss)).
  - rewrite with_jobs_clean. rewrite <- dict_set_clean by exact Ht.
    rewrite with_steps_clean, delete_steps_map. reflexivity.
  - rewrite dict_get_clean, Hjobs by reflexivity. reflexivity.
  - rewrite dict_get_clean, Hjob by exact Ht. reflexivity.
  - rewrite dict_get_clean, Hsteps by reflexivity. reflexivity.
Qed.

End RemovalOnText.

(** X1.  When the workflow has the job, [remove_job_from_workflow] returns
    the dump of the document without that job: the other jobs, in their
    order, and every other entry of the document.  What is read back from
    the returned text is that document as every dump leaves it, and the
    document itself when the input had no white space for the dump to
    strip.  The job is gone: removing it from the returned text returns
    that text as it is. *)
Theorem remove_job_removes (workflow_content : text) (d js : entries) (job_name : string) :
  load workflow_content = Ok (Dict d) ->
  dict_get (AStr "jobs") d = Some (Dict js) ->
  distinct_keys js ->
  dict_has (AStr job_name) js = true ->
  has_newline job_name = false ->
  well_formed (clean (with_jobs (others (AStr job_name) js) d)) ->
  remove_job_from_workflow load dump workflow_content job_name
  = (dump (with_jobs (others (AStr job_name) js) d), [])
  /\ load (dump (with_jobs (others (AStr job_name) js) d))
     = Ok (with_jobs (clean_entries (others (AStr job_name) js)) (clean_entries d))
  /\ (clean_entries d = d ->
      load (dump (with_jobs (others (AStr job_name) js) d))
      = Ok (with_jobs (others (AStr job_name) js) d))
  /\ remove_job_from_workflow load dump
       (dump (with_jobs (others (AStr job_name) js) d)) job_name
     = (dump (with_jobs (others (AStr job_name) js) d), []).
Proof.
  intros Hload Hjobs Hd Hhas Hs W.
  assert (load (dump (with_jobs (others (AStr job_name) js) d))
          = Ok (with_jobs (clean_entries (others (AStr job_name) js)) (clean_entries d)))
    as Hback by (rewrite load_dump by exact W; rewrite with_jobs_clean; reflexivity).
  split; [| split; [exact Hback | split]].
  - unfold remove_job_from_workflow. rewrite Hload. cbn [bind].
    rewrite (proj1 (remove_job_others d js job_name Hjobs Hd Hhas)). reflexivity.
  - intros E. rewrite Hback, E. f_equal. f_equal.
    apply clean_entries_others. apply (doc_jobs_clean d); [| exact E].
    unfold doc_jobs. rewrite Hjobs. reflexivity.
  - unfold remove_job_from_workflow. rewrite Hback. cbn [bind].
    unfold with_jobs.
    rewrite (remove_job_none _ (clean_entries (others (AStr job_name) js))).
    + reflexivity.
    + unfold doc_jobs. rewrite dict_get_set_same. reflexivity.
    + rewrite dict_has_clean by exact Hs. apply dict_has_others.
Qed.

Lemma remove_job_removes_witness :
  remove_job_from_workflow load dump (dump ci) "build"
  = (dump (with_jobs (others (AStr "build") ci_jobs) ci_entries), [])
  /\ load (dump (with_jobs (others (AStr "build") ci_jobs) ci_entries))
     = Ok (with_jobs (clean_entries (others (AStr "build") ci_jobs))
             (clean_entries ci_entries))
  /\ (clean_entries ci_entries = ci_entries ->
      load (dump (with_jobs (others (AStr "build") ci_jobs) ci_entries))
      = Ok (with_jobs (others (AStr "build") ci_jobs) ci_entries))
  /\ remove_job_from_workflow load dump
       (dump (with_jobs (others (AStr "build") ci_jobs) ci_entries)) "build"
     = (dump (with_jobs (others (AStr "build") ci_jobs) ci_entries), []).
Proof.
  apply (remove_job_removes (dump ci) ci_entries ci_jobs "build").
  - vm_compute. reflexivity.
  - reflexivity.
  - simpl. repeat split; reflexivity.
  - reflexivity.
  - reflexivity.
  - vm_compute. repeat split.
Defined.

(** X3.  Merging a job under a new id into a workflow that has a [jobs]
    mapping, wherever it is put, and then removing the job of that id from
    the text that the merge returned gives the text that a plain dump of
    the loaded workflow gives: nothing of the job is left, and the rest is
    as every dump leaves it. *)
Theorem merge_then_remove (workflow_content job_yaml : text) (d js : entries) (F : value)
    (job_id : string) (insert_after : option string) (merged : value) :
  load workflow_content = Ok (Dict d) ->
  load job_yaml = Ok F ->
  dict_get (AStr "jobs") d = Some (Dict js) ->
  distinct_keys js ->
  dict_has (AStr job_id) js = false ->
  has_newline job_id = false ->
  merge_job (Dict d) F job_id insert_after = Ok merged ->
  well_formed (clean merged) ->
  merge_job_into_workflow load dump workflow_content job_yaml job_id insert_after
  = Ok (dump merged)
  /\ remove_job_from_workflow load dump (dump merged) job_id = (dump (Dict d), []).
Proof.
  intros Hload Hfrag Hjobs Hd Hfresh Hs Hm W.
  split.
  - unfold merge_job_into_workflow. rewrite Hload, Hfrag. cbn [bind].
    rewrite Hm. reflexivity.
  - destruct (merge_remove_dict d js job_id Hjobs Hd Hfresh F insert_after)
      as [merged' [Hm' Hr]].
    rewrite Hm in Hm'. injection Hm' as <-.
    unfold remove_job_from_workflow. rewrite load_dump by exact W. cbn [bind].
    assert (doc_jobs d = Some js) as Hdoc by (unfold doc_jobs; rewrite Hjobs; reflexivity).
    rewrite (merge_job_eq d js) in Hm by exact Hdoc. injection Hm as Hm.
    rewrite <- Hm in *. unfold with_jobs in *.
    rewrite (remove_job_clean _ _ job_id (dict_get_set_same _ _ _) Hs), Hr.
    rewrite dump_clean. reflexivity.
Qed.

Lemma merge_then_remove_witness :
  merge_job_into_workflow load dump (dump ci) (dump scan_job) "scan" (Some "build")
  = Ok (dump (Dict [(AStr "name", VStr "CI");
                    (AStr "on", List [VStr "push"; VStr "pull_request"]);
                    (AStr "jobs", Dict [(AStr "build", Dict build_job_entries);
                                        (AStr "scan", scan_job);
                                        (AStr "deploy", deploy_job)])]))
  /\ remove_job_from_workflow load dump
       (dump (Dict [(AStr "name", VStr "CI");
                    (AStr "on", List [VStr "push"; VStr "pull_request"]);
                    (AStr "jobs", Dict [(AStr "build", Dict build_job_entries);
                                        (AStr "scan", scan_job);
                                        (AStr "deploy", deploy_job)])])) "scan"
     = (dump (Dict ci_entries), []).
Proof.
  apply (merge_then_remove (dump ci) (dump scan_job) ci_entries ci_jobs scan_job "scan"
           (Some "build")).
  - vm_compute. reflexivity.
  - vm_compute. reflexivity.
  - reflexivity.
  - simpl. repeat split; reflexivity.
  - reflexivity.
  - reflexivity.
  - reflexivity.
  - vm_compute. repeat split.
Defined.

(** ** Insertion undone, and dependencies, on the text *)

(** X6.  Inserting the steps of a fragment into a job that has a list of
    steps, at any of the positions, and then removing from the text that
    the insertion returned as many steps at the index where they were put,
    gives the text that a plain dump of the loaded workflow gives. *)
Theorem insert_then_remove (workflow_content step_yaml : text) (d js j : entries)
    (ss new : list value) (step_data inserted : value) (t p : string) (i : nat) :
  load workflow_content = Ok (Dict d) ->
  load step_yaml = Ok step_data ->
  dict_get (AStr "jobs") d = Some (Dict js) ->
  dict_get (AStr t) js = Some (Dict j) ->
  dict_get (AStr "steps") j = Some (List ss) ->
  fragment_steps step_data = Some new ->
  position_index p ss = Ok i ->
  has_newline t = false ->
  insert_step (Dict d) step_data t p = Ok inserted ->
  well_formed (clean inserted) ->
  insert_step_into_job load dump workflow_content step_yaml t p = Ok (dump inserted)
  /\ remove_steps_from_job load dump (dump inserted) t
       (map Z.of_nat (seq i (List.length new)))
     = (dump (Dict d), []).
Proof.
  intros Hload Hfrag Hjobs Hjob Hsteps Hnew Hpos Ht Hi W.
  split.
  - unfold insert_step_into_job. rewrite Hload, Hfrag. cbn [bind].
    rewrite Hi. reflexivity.
  - assert (job_steps j = Some ss) as Hjs
        by (unfold job_steps; rewrite Hsteps; reflexivity).
    rewrite (insert_step_eq d js j ss new) in Hi by assumption.
    rewrite Hpos in Hi. cbn [bind] in Hi. injection Hi as <-.
    unfold remove_steps_from_job. rewrite load_dump by exact W. cbn [bind].
    unfold with_jobs, with_steps.
    rewrite (remove_steps_clean _ _ _ (splice i new ss) _ _
               (dict_get_set_same _ _ _) (dict_get_set_same _ _ _)
               (dict_get_set_same _ _ _) Ht).
    rewrite delete_steps_splice by (eapply position_index_bound; exact Hpos).
    unfold with_jobs, with_steps. rewrite !dict_set_set.
    rewrite (dict_set_get (AStr "steps")) by exact Hsteps.
    rewrite (dict_set_get (AStr t)) by exact Hjob.
    rewrite dict_set_get by exact Hjobs.
    rewrite dump_clean. reflexivity.
Qed.

Lemma insert_then_remove_witness :
  insert_step_into_job load dump (dump ci) (dump (List [scan_step; upload])) "build"
    "after_build"
  = Ok (dump (with_jobs
                (dict_set (AStr "build")
                   (with_steps [checkout; build_step; test_step; scan_step; upload; upload]
                      build_job_entries) ci_jobs)
                ci_entries))
  /\ remove_steps_from_job load dump
       (dump (with_jobs
                (dict_set (AStr "build")
                   (with_steps [checkout; build_step; test_step; scan_step; upload; upload]
                      build_job_entries) ci_jobs)
                ci_entries))
       "build" (map Z.of_nat (seq 3 (List.length [scan_step; upload])))
     = (dump (Dict ci_entries), []).
Proof.
  apply (insert_then_remove (dump ci) (dump (List [scan_step; upload])) ci_entries ci_jobs
           build_job_entries [checkout; build_step; test_step; upload] [scan_step; upload]
           (List [scan_step; upload]) _ "build" "after_build" 3).
  - vm_compute. reflexivity.
  - vm_compute. reflexivity.
  - reflexivity.
  - reflexivity.
  - reflexivity.
  - reflexivity.
  - vm_compute. reflexivity.
  - reflexivity.
  - vm_compute. reflexivity.
  - vm_compute. repeat split.
Defined.



(** ** Detection of what was put in, on the text *)

Section DetectionOnText.

Variables (template_name : string) (template_id : Z).

Lemma in_clean_entries (s : string) (v : value) (d : entries) :
  has_newline s = false -> In (AStr s, v) d -> In (AStr s, clean v) (clean_entries d).
Proof.
  intros Hs Hin. unfold clean_entries. apply in_map_iff.
  exists (AStr s, v). split; [| exact Hin].
  cbn [fst snd clean_atom]. rewrite clean_str_stable by (left; exact Hs). reflexivity.
Qed.

(** The jobs of a document that can be read back have pairwise different
    ids once the dump has left them. *)
Lemma clean_jobs_distinct (js d : entries) :
  well_formed (clean (with_jobs js d)) -> distinct_keys (clean_entries js).
Proof.
  rewrite with_jobs_clean. unfold with_jobs. intros W.
  pose proof (well_formed_get _ _ _ W (dict_get_set_same _ _ _)) as Wj.
  exact (proj1 (proj1 (well_formed_dict _) Wj)).
Qed.


Lemma splice_map (i : nat) (new ss : list value) :
  map clean (splice i new ss) = splice i (map clean new) (map clean ss).
Proof. unfold splice. rewrite !map_app, firstn_map, skipn_map. reflexivity. Qed.

Lemma clean_entries_mappings (js : entries) :
  (forall name J, In (name, J) js -> exists j, J = Dict j) ->
  forall name J, In (name, J) (clean_entries js) -> exists j, J = Dict j.
Proof.
  intros Hall name J Hin. apply in_map_iff in Hin as [[k v] [E Hin]].
  cbn [fst snd] in E. injection E as _ <-.
  destruct (Hall k v Hin) as [j ->]. eexists. reflexivity.
Qed.

End DetectionOnText.



(** A fragment with white space for the dump to strip: the job that the
    merge has stored is not reported for the fragment as it was written. *)
Lemma padded_job_is_not_detected :
  load padded_job_text = Ok padded_job
  /\ merge_job_into_workflow load dump (dump ci) padded_job_text "hello" None
     = Ok (dump (with_jobs (ci_jobs ++ [(AStr "hello", padded_job)]) ci_entries))
  /\ detect_job_duplicates load
       (dump (with_jobs (ci_jobs ++ [(AStr "hello", padded_job)]) ci_entries))
       padded_job_text "hello" 7
     = ([], []).
Proof. repeat split; vm_compute; reflexivity. Qed.

(** X10.  After [insert_step_into_job] has put a list of steps into a job
    of a workflow whose jobs are mappings, the detector of step runs, run
    on the text that the insertion returned with the text of the list as
    template, reports the run at the index where the steps were put
    exactly when the list is equal to what the dump leaves of it.  A
    fragment that is one step, a mapping, is put in as well, but the
    detector, which takes only a list for a template, reports nothing for
    it. *)
Theorem inserted_steps_are_detected (workflow_content step_yaml : text) (d js j : entries)
    (ss : list value) (t p template_name : string) (template_id : Z) (i : nat)
    (step_data inserted : value) :
  load workflow_content = Ok (Dict d) ->
  load step_yaml = Ok step_data ->
  dict_get (AStr "jobs") d = Some (Dict js) ->
  dict_get (AStr t) js = Some (Dict j) ->
  job_steps j = Some ss ->
  (forall name J, In (name, J) js -> exists j', J = Dict j') ->
  position_index p ss = Ok i ->
  has_newline t = false ->
  insert_step (Dict d) step_data t p = Ok inserted ->
  well_formed (clean inserted) ->
  (forall new : list value,
      step_data = List new ->
      new <> [] ->
      insert_step_into_job load dump workflow_content step_yaml t p = Ok (dump inserted)
      /\ (In (step_match_of (AStr t) i (List.length new) template_name template_id)
            (fst (detect_step_duplicates load (dump inserted) step_yaml template_name
                    template_id))
          <-> compare_yaml_structures (List (map clean new)) (List new) = true))
  /\ (forall step : entries,
        step_data = Dict step ->
        insert_step_into_job load dump workflow_content step_yaml t p = Ok (dump inserted)
        /\ detect_step_duplicates load (dump inserted) step_yaml template_name template_id
           = ([], [])).
Proof.
  intros Hload Hfrag Hjobs Hjob Hsteps Hall Hpos Ht Hi W.
  assert (insert_step_into_job load dump workflow_content step_yaml t p = Ok (dump inserted))
    as Htext.
  { unfold insert_step_into_job. rewrite Hload, Hfrag. cbn [bind]. rewrite Hi. reflexivity. }
  split.
  - intros new -> Hnew. split; [exact Htext |].
    rewrite (insert_step_eq d js j ss new) in Hi by (try assumption; reflexivity).
    rewrite Hpos in Hi. cbn [bind] in Hi. injection Hi as <-.
    set (jsI := dict_set (AStr t) (with_steps (splice i new ss) j) js) in *.
    assert (forall name J, In (name, J) jsI -> exists j', J = Dict j') as HallI.
    { intros name J Hin. apply in_dict_set in Hin as [Hin | ->].
      - exact (Hall _ _ Hin).
      - eexists. reflexivity. }
    assert (fst (detect_step_duplicates load (dump (with_jobs jsI d)) step_yaml
                   template_name template_id)
            = flat_map (job_windows new template_name template_id) (clean_entries jsI))
      as ->.
    { unfold detect_step_duplicates, normalize_yaml_content.
      rewrite load_dump by exact W. rewrite Hfrag, with_jobs_clean.
      rewrite step_duplicates_with_jobs;
        [reflexivity | exact Hnew | apply clean_entries_mappings; exact HallI]. }
    pose proof (position_index_bound _ _ _ Hpos) as Hle.
    assert (In (AStr t, clean (with_steps (splice i new ss) j)) (clean_entries jsI)) as Hin.
    { apply in_clean_entries; [exact Ht |]. eapply dict_set_in. exact Hjob. }
    assert (forall i0,
               In (step_match_of (AStr t) i0 (List.length new) template_name template_id)
                 (job_windows new template_name template_id
                    (AStr t, clean (with_steps (splice i new ss) j)))
               <-> i0 + List.length new <= List.length ss + List.length new
                   /\ compare_yaml_structures
                        (List (window (map clean (splice i new ss)) i0 (List.length new)))
                        (List new) = true) as Hw.
    { intros i0. rewrite with_steps_clean. unfold job_windows, with_steps.
      cbn [fst snd]. unfold job_steps. rewrite dict_get_set_same.
      unfold step_windows. rewrite in_map_iff, length_map, splice_length. split.
      - intros [i1 [Heq Hi1]]. apply filter_In in Hi1 as [Hr Hc].
        assert (i1 = i0) as ->.
        { apply (seq_start _ _ (List.length new));
            [destruct new; [contradiction | discriminate] |].
          exact (f_equal sm_step_indices Heq). }
        apply in_seq in Hr. split; [lia | exact Hc].
      - intros [Hb Hc]. exists i0. split; [reflexivity |].
        apply filter_In. split; [apply in_seq; lia | exact Hc]. }
    assert (window (map clean (splice i new ss)) i (List.length new) = map clean new) as Hwin.
    { rewrite splice_map. rewrite <- (length_map clean new).
      apply window_splice. rewrite length_map. exact Hle. }
    rewrite in_flat_map. split.
    + intros [[name J] [Hin' Hm]].
      destruct (clean_entries_mappings jsI HallI name J Hin') as [j' ->].
      assert (name = AStr t) as ->.
      { unfold job_windows in Hm. cbn [fst snd] in Hm.
        destruct (job_steps j') as [ss' |]; [| destruct Hm].
        unfold step_windows in Hm. apply in_map_iff in Hm as [i0 [Heq _]].
        exact (f_equal sm_job_name Heq). }
      rewrite (distinct_keys_unique _ _ _ _ (clean_jobs_distinct jsI d W) Hin' Hin) in Hm.
      apply Hw in Hm as [_ Hc]. rewrite Hwin in Hc. exact Hc.
    + intros Hc. exists (AStr t, clean (with_steps (splice i new ss) j)).
      split; [exact Hin |]. apply Hw. split; [lia |]. rewrite Hwin. exact Hc.
  - intros step ->. split; [exact Htext |].
    rewrite (insert_step_eq d js j ss [Dict step]) in Hi by (try assumption; reflexivity).
    rewrite Hpos in Hi. cbn [bind] in Hi. injection Hi as <-.
    unfold detect_step_duplicates, normalize_yaml_content.
    rewrite load_dump by exact W. rewrite Hfrag, with_jobs_clean.
    unfold step_duplicates, with_jobs. cbn [truthy]. rewrite dict_set_length.
    destruct step as [| kv r]; [reflexivity |]. cbn [List.length Nat.eqb negb orb].
    unfold get. rewrite dict_get_set_same. reflexivity.
Qed.

Lemma inserted_steps_are_detected_witness :
  insert_step_into_job load dump (dump ci) (dump (List [scan_step])) "build" "after_build"
  = Ok (dump (with_jobs
                (dict_set (AStr "build")
                   (with_steps [checkout; build_step; test_step; scan_step; upload]
                      build_job_entries) ci_jobs)
                ci_entries))
  /\ (In (step_match_of (AStr "build") 3 (List.length [scan_step]) "scan" 7)
        (fst (detect_step_duplicates load
                (dump (with_jobs
                         (dict_set (AStr "build")
                            (with_steps [checkout; build_step; test_step; scan_step; upload]
                               build_job_entries) ci_jobs)
                         ci_entries))
                (dump (List [scan_step])) "scan" 7))
      <-> compare_yaml_structures (List (map clean [scan_step])) (List [scan_step]) = true).
Proof.
  refine (proj1 (inserted_steps_are_detected (dump ci) (dump (List [scan_step])) ci_entries
                   ci_jobs build_job_entries [checkout; build_step; test_step; upload]
                   "build" "after_build" "scan" 7 3 (List [scan_step]) _
                   _ _ eq_refl eq_refl eq_refl _ _ eq_refl _ _)
            [scan_step] eq_refl _).
  - vm_compute. reflexivity.
  - vm_compute. reflexivity.
  - intros name J [H | [H | []]]; injection H as _ <-; eexists; reflexivity.
  - vm_compute. reflexivity.
  - vm_compute. reflexivity.
  - vm_compute. repeat split.
  - discriminate.
Defined.
